(** * The machine-learning lecture notebooks: an embedding and its properties

    The repository consists of two Jupyter notebooks,
    [smd_boosting.ipynb] and [smd_neural_networks_torch.ipynb].  Their code
    cells are Python scripts that call into pandas, numpy, scikit-learn,
    ctapipe, matplotlib and torch.

    The notebooks are embedded as programs of a small monad [prog]: every
    call into a library (a function, a method, an attribute read, an IPython
    magic) is a [Call] node whose answer is supplied by a _handler_, i.e. by
    a model of the libraries.  Python's own control flow (sequencing, [for],
    [with], tuple unpacking, arithmetic on Python numbers) is Rocq code.
    Running a program against a handler returns its outcome together with
    the _trace_ of library calls it made.

    General statements quantify over all handlers; statements about the
    values computed by [preprocess], [accuracy] and [predictions] are made
    for executable models of the pandas and torch operations they use. *)

From Stdlib Require Import List String Ascii Bool Arith ZArith QArith Qround Lia Permutation.
Import ListNotations.
Local Open Scope string_scope.
Local Open Scope list_scope.

Set Implicit Arguments.
Set Warnings "-register-all".

(* ================================================================== *)
(** * Python values, library calls and programs *)
(* ================================================================== *)

(** An exception object: its class and its message. *)
Record exn := Exn { exn_class : string; exn_msg : string }.

Inductive result (A : Type) :=
| Ok (a : A)
| Err (e : exn).
Arguments Ok {A} a.
Arguments Err {A} e.

(** The libraries the notebooks import from. *)
Inductive library :=
| builtins | ipython | ml | pandas | numpy | matplotlib
| ctapipe | sklearn | torch | torchvision | tqdm.

(** What a call addresses: a module-level function or class, a method or an
    attribute of the receiver (the first argument), or an IPython magic. *)
Inductive target :=
| Func (lib : library) (name : string)
| Method (name : string)
| Attr (name : string)
| Magic (name : string).

Section Python.

(** Library objects (frames, tensors, estimators, ...) are opaque to the
    notebooks; a handler chooses what they are. *)
Context {obj : Type}.

Inductive val :=
| VNone
| VBool (b : bool)
| VInt (z : Z)
| VFloat (q : Q)
| VStr (s : string)
| VTuple (l : list val)
| VList (l : list val)
| VDict (items : list (string * val))
| VRef (qualified_name : string)   (* a named library constant or class *)
| VExn (e : exn)
| VObj (o : obj).

Record call := Invoke {
  callee : target;
  args : list val;
  kwargs : list (string * val)
}.

(** Programs.  [With] is Python's [with] statement for a context manager
    that does not suppress exceptions ([torch.no_grad], the only one the
    notebooks use, returns [None] from [__exit__]): [__enter__], the body,
    then [__exit__] on both the normal and the exceptional path.  [Try] is
    [try: ... except: ...]; no notebook uses it, it is there so that
    "does not catch" is a property a program can fail to have. *)
Inductive prog : Type -> Type :=
| Ret {A} (a : A) : prog A
| Raise {A} (e : exn) : prog A
| Call {A} (c : call) (k : val -> prog A) : prog A
| With {A B} (cm : val) (body : prog B) (k : B -> prog A) : prog A
| Try {A B} (body : prog B) (handler : exn -> prog B) (k : B -> prog A) : prog A.

Fixpoint bind {A B} (p : prog A) : (A -> prog B) -> prog B :=
  match p in prog T return (T -> prog B) -> prog B with
  | Ret a => fun g => g a
  | Raise e => fun _ => Raise e
  | Call c k => fun g => Call c (fun v => bind (k v) g)
  | With cm body k => fun g => With cm body (fun b => bind (k b) g)
  | Try body h k => fun g => Try body h (fun b => bind (k b) g)
  end.

Definition invoke (t : target) (a : list val) (kw : list (string * val)) : prog val :=
  Call (Invoke t a kw) (fun v => Ret v).

(** [f(a...)] for a library function or class [f]. *)
Definition func (lib : library) (name : string) (a : list val) : prog val :=
  invoke (Func lib name) a [].
Definition func_kw lib name a kw : prog val := invoke (Func lib name) a kw.
(** [recv.name(a...)] *)
Definition method (recv : val) (name : string) (a : list val) : prog val :=
  invoke (Method name) (recv :: a) [].
Definition method_kw (recv : val) name a kw : prog val :=
  invoke (Method name) (recv :: a) kw.
(** [recv.name] *)
Definition attr (recv : val) (name : string) : prog val :=
  invoke (Attr name) [recv] [].

Definition enter_call (cm : val) : call := Invoke (Method "__enter__") [cm] [].
Definition exit_call (cm : val) (exc : val) : call :=
  Invoke (Method "__exit__") [cm; exc] [].

(** ** Running a program against a model of the libraries *)

Definition event : Type := call * result val.
Definition trace := list event.

Section Run.
Context {S : Type}.
Variable h : call -> S -> result val * S.

Fixpoint run {A} (p : prog A) : S -> result A * S * trace :=
  match p in prog T return S -> result T * S * trace with
  | Ret a => fun s => (Ok a, s, [])
  | Raise e => fun s => (Err e, s, [])
  | Call c k => fun s =>
      let '(r, s1) := h c s in
      match r with
      | Ok v => let '(o, s2, tr) := run (k v) s1 in (o, s2, (c, r) :: tr)
      | Err e => (Err e, s1, [(c, r)])
      end
  | With cm body k => fun s =>
      let '(r, s1) := h (enter_call cm) s in
      match r with
      | Err e => (Err e, s1, [(enter_call cm, r)])
      | Ok _ =>
          let '(ob, s2, trb) := run body s1 in
          match ob with
          | Ok b =>
              let '(rx, s3) := h (exit_call cm VNone) s2 in
              match rx with
              | Ok _ =>
                  let '(o, s4, tr) := run (k b) s3 in
                  (o, s4, (enter_call cm, r) :: trb ++ (exit_call cm VNone, rx) :: tr)
              | Err e =>
                  (Err e, s3, (enter_call cm, r) :: trb ++ [(exit_call cm VNone, rx)])
              end
          | Err e =>
              let '(rx, s3) := h (exit_call cm (VExn e)) s2 in
              match rx with
              | Ok _ =>
                  (Err e, s3, (enter_call cm, r) :: trb ++ [(exit_call cm (VExn e), rx)])
              | Err e' =>
                  (Err e', s3, (enter_call cm, r) :: trb ++ [(exit_call cm (VExn e), rx)])
              end
          end
      end
  | Try body hd k => fun s =>
      let '(ob, s1, trb) := run body s in
      match ob with
      | Ok b => let '(o, s2, tr) := run (k b) s1 in (o, s2, trb ++ tr)
      | Err e =>
          let '(oh, s2, trh) := run (hd e) s1 in
          match oh with
          | Ok b => let '(o, s3, tr) := run (k b) s2 in (o, s3, trb ++ trh ++ tr)
          | Err e' => (Err e', s2, trb ++ trh)
          end
      end
  end.

Definition outcome {A} (p : prog A) (s : S) : result A := fst (fst (run p s)).
Definition final_state {A} (p : prog A) (s : S) : S := snd (fst (run p s)).
Definition trace_of {A} (p : prog A) (s : S) : trace := snd (run p s).

End Run.

End Python.

Arguments val : clear implicits.
Arguments call : clear implicits.
Arguments prog : clear implicits.
Arguments event : clear implicits.
Arguments trace : clear implicits.

Declare Scope prog_scope.
Delimit Scope prog_scope with prog.
Notation "x <- p ;; k" := (bind p (fun x => k))
  (at level 61, p at next level, right associativity) : prog_scope.
Notation "' pat <- p ;; k" := (bind p (fun x => match x with pat => k end))
  (at level 61, pat pattern, p at next level, right associativity) : prog_scope.
Local Open Scope prog_scope.

(* ================================================================== *)
(** * The parts of Python the notebooks rely on *)
(* ================================================================== *)

Definition TypeError (msg : string) : exn := Exn "TypeError" msg.
Definition ValueError (msg : string) : exn := Exn "ValueError" msg.
Definition ZeroDivisionError (msg : string) : exn := Exn "ZeroDivisionError" msg.

Section PythonRuntime.
Context {obj : Type}.
Local Abbreviation val := (val obj).
Local Abbreviation prog := (prog obj).

(** [iter(v)]: tuples and lists are walked by the interpreter; for a library
    object (a DataLoader, a generator) the library produces the items of
    this pass. *)
Definition iterate (v : val) : prog (list val) :=
  match v with
  | VTuple l | VList l => Ret l
  | VObj _ =>
      r <- func builtins "iter" [v] ;;
      match r with
      | VList l | VTuple l => Ret l
      | _ => Raise (TypeError "iter() returned non-iterator")
      end
  | _ => Raise (TypeError "object is not iterable")
  end.

(** [for item in items: acc = body(item, acc)] *)
Fixpoint for_each {A} (items : list val) (body : val -> A -> prog A) (acc : A)
  : prog A :=
  match items with
  | [] => Ret acc
  | item :: rest => acc' <- body item acc ;; for_each rest body acc'
  end.

Definition for_in {A} (iterable : val) (body : val -> A -> prog A) (acc : A)
  : prog A :=
  items <- iterate iterable ;; for_each items body acc.

(** [a, b = v] and its wider forms. *)
Definition unpack2 (v : val) : prog (val * val) :=
  items <- iterate v ;;
  match items with
  | [a; b] => Ret (a, b)
  | _ => Raise (ValueError "wrong number of values to unpack (expected 2)")
  end.

Definition unpack3 (v : val) : prog (val * val * val) :=
  items <- iterate v ;;
  match items with
  | [a; b; c] => Ret (a, b, c)
  | _ => Raise (ValueError "wrong number of values to unpack (expected 3)")
  end.

Definition unpack4 (v : val) : prog (val * val * val * val) :=
  items <- iterate v ;;
  match items with
  | [a; b; c; d] => Ret (a, b, c, d)
  | _ => Raise (ValueError "wrong number of values to unpack (expected 4)")
  end.

(** [a + b]: Python numbers are added by the interpreter (floats are taken
    as exact rationals); anything else dispatches to the left operand. *)
Definition py_add (a b : val) : prog val :=
  match a, b with
  | VInt x, VInt y => Ret (VInt (x + y))
  | VInt x, VFloat y => Ret (VFloat (inject_Z x + y))
  | VFloat x, VInt y => Ret (VFloat (x + inject_Z y))
  | VFloat x, VFloat y => Ret (VFloat (x + y))
  | _, _ => method a "__add__" [b]
  end.

Definition Q_is_zero (q : Q) : bool := (Qnum q =? 0)%Z.

(** [a / b]: the message of the [ZeroDivisionError] is that of [int] when
    both operands are integers and that of [float] otherwise. *)
Definition py_truediv (a b : val) : prog val :=
  let div (msg : string) (x y : Q) : prog val :=
    if Q_is_zero y then Raise (ZeroDivisionError msg)
    else Ret (VFloat (x / y)) in
  match a, b with
  | VInt x, VInt y => div "division by zero" (inject_Z x) (inject_Z y)
  | VInt x, VFloat y => div "float division by zero" (inject_Z x) y
  | VFloat x, VInt y => div "float division by zero" x (inject_Z y)
  | VFloat x, VFloat y => div "float division by zero" x y
  | _, _ => method a "__truediv__" [b]
  end.

(** [len(v)] *)
Definition py_len (v : val) : prog val :=
  match v with
  | VTuple l | VList l => Ret (VInt (Z.of_nat (List.length l)))
  | _ => func builtins "len" [v]
  end.

(** [range(n)] *)
Definition py_range (n : val) : prog val :=
  match n with
  | VInt z => Ret (VList (map (fun i => VInt (Z.of_nat i)) (seq 0 (Z.to_nat z))))
  | _ => Raise (TypeError "object cannot be interpreted as an integer")
  end.

(** f-strings: literal text and replacement fields [{v:spec}]. *)
Inductive fpart :=
| Lit (s : string)
| Field (v : val) (spec : string).

Definition format_value (v : val) (spec : string) : prog string :=
  match v, spec with
  | VStr s, EmptyString => Ret s
  | _, _ =>
      r <- func builtins "format" [v; VStr spec] ;;
      match r with
      | VStr s => Ret s
      | _ => Raise (TypeError "__format__ must return a str")
      end
  end.

Fixpoint fstring (parts : list fpart) : prog string :=
  match parts with
  | [] => Ret ""
  | Lit s :: rest => r <- fstring rest ;; Ret (s ++ r)%string
  | Field v spec :: rest =>
      s <- format_value v spec ;; r <- fstring rest ;; Ret (s ++ r)%string
  end.

Definition print (a : list val) : prog val := func builtins "print" a.

(** Truth value of [v] in a conditional. *)
Definition py_bool (v : val) : prog bool :=
  match v with
  | VBool b => Ret b
  | VNone => Ret false
  | VInt z => Ret (negb (z =? 0)%Z)
  | _ =>
      r <- func builtins "bool" [v] ;;
      match r with
      | VBool b => Ret b
      | _ => Raise (TypeError "__bool__ should return bool")
      end
  end.

(** [next(iter(v))] *)
Definition py_first (v : val) : prog val :=
  items <- iterate v ;;
  match items with
  | first :: _ => Ret first
  | [] => Raise (Exn "StopIteration" "")
  end.

(** [enumerate(items)] as a list of [(i, item)]. *)
Definition py_enumerate (items : list val) : list (Z * val) :=
  combine (map Z.of_nat (seq 0 (List.length items))) items.

(** [import module] / [from module import names] *)
Definition import_ (module : string) (names : list string) : prog val :=
  func builtins "__import__" [VStr module; VList (map VStr names)].

End PythonRuntime.

(* ================================================================== *)
(** * smd_boosting.ipynb: the functions it defines *)
(* ================================================================== *)

Section Boosting.
Context {obj : Type}.
Local Abbreviation val := (val obj).
Local Abbreviation prog := (prog obj).

(** [def read_events(path)] *)
Definition read_events (path : val) : prog val :=
  loader <- func_kw ctapipe "TableLoader" [path]
              [("load_dl2_geometry", VBool true);
               ("load_instrument", VBool true);
               ("load_simulated", VBool true)] ;;
  table <- method loader "read_telescope_events" [] ;;
  (* these two columns are arrays in each row, which is not supported by pandas *)
  _ <- method table "remove_columns"
         [VList [VStr "tels_with_trigger"; VStr "HillasReconstructor_tel_ids"]] ;;
  (* convert astropy.table.Table to pd.DataFrame *)
  method table "to_pandas" [].

(** [forbidden_columns = 'true_|obs_id|event_id'] *)
Definition forbidden_columns : string := "true_|obs_id|event_id".

(** [f'^(?!{forbidden_columns}).*$'] *)
Definition allowed_columns_regex : string :=
  ("^(?!" ++ forbidden_columns ++ ").*$")%string.

(** [df.drop(c, axis='columns')] *)
Definition drop_columns (df c : val) : prog val :=
  method_kw df "drop" [c] [("axis", VStr "columns")].

(** [def preprocess(df)] *)
Definition preprocess (df : val) : prog val :=
  df <- method_kw df "filter" [] [("regex", VStr allowed_columns_regex)] ;;

  nonnum <- method_kw df "select_dtypes" [] [("exclude", VList [VStr "number"])] ;;
  c <- attr nonnum "columns" ;;
  df <- drop_columns df c ;;

  cols <- attr df "columns" ;;
  cnt <- method df "count" [] ;;
  mask <- method cnt "__eq__" [VInt 0] ;;
  c <- method cols "__getitem__" [mask] ;;
  df <- drop_columns df c ;;

  desc <- method df "describe" [] ;;

  dcols <- attr desc "columns" ;;
  loc <- attr desc "loc" ;;
  std <- method loc "__getitem__" [VStr "std"] ;;
  mask <- method std "__eq__" [VInt 0] ;;
  c <- method dcols "__getitem__" [mask] ;;
  df <- drop_columns df c ;;

  df <- method df "dropna" [] ;;

  Ret df.

(** [df[key]] and [df[key] = value] *)
Definition getitem (x key : val) : prog val := method x "__getitem__" [key].
Definition setitem (x key value : val) : prog val :=
  method x "__setitem__" [key; value].

(** [def feature_generation(df)]: the two assignments write into the frame
    that was passed in, and that same frame is returned. *)
Definition feature_generation (df : val) : prog val :=
  intensity <- getitem df (VStr "hillas_intensity") ;;
  width <- getitem df (VStr "hillas_width") ;;
  length <- getitem df (VStr "hillas_length") ;;
  ratio <- method width "__truediv__" [length] ;;
  awesome <- method intensity "__mul__" [ratio] ;;
  _ <- setitem df (VStr "awesome_feature") awesome ;;

  (* distance of impact point to the telescope *)
  core_x <- getitem df (VStr "HillasReconstructor_core_x") ;;
  pos_x <- getitem df (VStr "pos_x") ;;
  dx <- method core_x "__sub__" [pos_x] ;;
  dx2 <- method dx "__pow__" [VInt 2] ;;
  core_y <- getitem df (VStr "HillasReconstructor_core_y") ;;
  pos_y <- getitem df (VStr "pos_y") ;;
  dy <- method core_y "__sub__" [pos_y] ;;
  dy2 <- method dy "__pow__" [VInt 2] ;;
  d2 <- method dx2 "__add__" [dy2] ;;
  impact <- func numpy "sqrt" [d2] ;;
  _ <- setitem df (VStr "impact") impact ;;
  Ret df.

End Boosting.

(* ================================================================== *)
(** * smd_neural_networks_torch.ipynb: the functions it defines *)
(* ================================================================== *)

Section Torch.
Context {obj : Type}.
Local Abbreviation val := (val obj).
Local Abbreviation prog := (prog obj).

(** [model(X)], [loss_fn(pred, y)] *)
Definition apply (f : val) (a : list val) : prog val := method f "__call__" a.

(** [def train(dataloader, model, loss_fn, optimizer, device=DEVICE)] *)
Definition train (dataloader model loss_fn optimizer device : val)
  : prog (list val) :=
  model <- method model "to" [device] ;;
  _ <- method model "train" [] ;;

  let losses := [] in
  losses <- for_in dataloader (fun item losses =>
    '(X, y) <- unpack2 item ;;
    X <- method X "to" [device] ;;
    y <- method y "to" [device] ;;

    (* Compute prediction error *)
    pred <- apply model [X] ;;
    loss <- apply loss_fn [pred; y] ;;

    (* Backpropagation *)
    _ <- method optimizer "zero_grad" [] ;;
    _ <- method loss "backward" [] ;;
    _ <- method optimizer "step" [] ;;

    (* store loss for plotting *)
    l <- method loss "item" [] ;;
    Ret (losses ++ [l])) losses ;;
  Ret losses.

(** [with torch.no_grad(): body] *)
Definition with_no_grad {A} (body : prog A) : prog A :=
  cm <- func torch "no_grad" [] ;;
  With cm body (fun a => Ret a).

(** [def test(dataloader, model, loss_fn, device=DEVICE)] *)
Definition test (dataloader model loss_fn device : val) : prog (list val) :=
  model <- method model "to" [device] ;;
  let test_losses := [] in
  test_losses <- with_no_grad (
    _ <- method model "eval" [] ;;
    for_in dataloader (fun item test_losses =>
      '(X, y) <- unpack2 item ;;
      X <- method X "to" [device] ;;
      y <- method y "to" [device] ;;
      pred <- apply model [X] ;;
      loss <- apply loss_fn [pred; y] ;;
      l <- method loss "item" [] ;;
      Ret (test_losses ++ [l])) test_losses) ;;
  Ret test_losses.

(** [def fit_one_epoch(train_dataloader, test_dataloader, model, loss_fn,
    optimizer, device=DEVICE)] *)
Definition fit_one_epoch
  (train_dataloader test_dataloader model loss_fn optimizer device : val)
  : prog (list val * list val) :=
  train_losses <- train train_dataloader model loss_fn optimizer device ;;
  test_losses <- test test_dataloader model loss_fn device ;;
  Ret (train_losses, test_losses).

(** [def accuracy(dataloader, model, device=DEVICE)] *)
Definition accuracy (dataloader model device : val) : prog val :=
  let correct := VInt 0 in
  let total := VInt 0 in
  model <- method model "to" [device] ;;
  '(correct, total) <- with_no_grad (
    _ <- method model "eval" [] ;;
    for_in dataloader (fun item '(correct, total) =>
      '(X, y) <- unpack2 item ;;
      X <- method X "to" [device] ;;
      y <- method y "to" [device] ;;
      pred <- apply model [X] ;;
      n <- py_len y ;;
      total <- py_add total n ;;
      cls <- method pred "argmax" [VInt 1] ;;
      hit <- method cls "__eq__" [y] ;;
      hit <- method hit "type" [VRef "torch.float"] ;;
      hits <- method hit "sum" [] ;;
      hits <- method hits "item" [] ;;
      correct <- py_add correct hits ;;
      Ret (correct, total)) (correct, total)) ;;
  py_truediv correct total.

(** [def predictions(dataloader, model, device=DEVICE)] *)
Definition predictions (dataloader model device : val) : prog (val * val) :=
  let predictions := [] in
  let truth := [] in
  model <- method model "to" [device] ;;
  '(predictions, truth) <- with_no_grad (
    _ <- method model "eval" [] ;;
    for_in dataloader (fun item '(predictions, truth) =>
      '(X, y) <- unpack2 item ;;
      X <- method X "to" [device] ;;
      y <- method y "to" [device] ;;
      pred <- apply model [X] ;;
      cls <- method pred "argmax" [VInt 1] ;;
      Ret (predictions ++ [cls], truth ++ [y])) (predictions, truth)) ;;
  p <- func torch "cat" [VList predictions] ;;
  t <- func torch "cat" [VList truth] ;;
  Ret (p, t).

(** [def report_accuracy(test_dataloader, train_dataloader, model)]; the
    module-level [DEVICE] is the default device of [accuracy]. *)
Definition report_accuracy (DEVICE test_dataloader train_dataloader model : val)
  : prog val :=
  accuracy_test <- accuracy test_dataloader model DEVICE ;;
  accuracy_train <- accuracy train_dataloader model DEVICE ;;
  s <- fstring [Lit "Accuracy: train="; Field accuracy_train "5.1%";
                Lit ", test="; Field accuracy_test "5.1%"] ;;
  print [VStr s].

End Torch.

(* ================================================================== *)
(** * smd_boosting.ipynb: the cells, top to bottom *)
(* ================================================================== *)

Section Notebooks.
Context {obj : Type}.
Local Abbreviation val := (val obj).
Local Abbreviation prog := (prog obj).

(** The front-end cells: [%%javascript] with the function it calls,
    [%%HTML] with the element it embeds, and line magics. *)
Definition javascript (fn : string) (a : list val) : prog val :=
  invoke (Magic "%%javascript") (VStr fn :: a) [].
Definition html (element src : string) : prog val :=
  invoke (Magic "%%HTML") [VStr element; VStr src] [].
Definition line_magic (name arg : string) : prog val :=
  invoke (Magic name) [VStr arg] [].

Definition toc_script : string :=
  "https://kmahelona.github.io/ipython_notebook_goodies/ipython_notebook_toc.js".

(** [plt.name(...)] *)
Definition plt (name : string) (a : list val) (kw : list (string * val)) : prog val :=
  func_kw matplotlib ("pyplot." ++ name) a kw.

Definition nl : string := String (ascii_of_nat 10) EmptyString.

(** [x[:, 1]] *)
Definition column_1 (x : val) : prog val :=
  getitem x (VTuple [VRef "slice(None, None, None)"; VInt 1]).

(** [clf.fit(X_train, y_train)]
    [y_prediction = clf.predict(X_test)]
    [y_prediction_proba = clf.predict_proba(X_test)] *)
Definition fit_and_predict (clf X_train y_train X_test : val) : prog (val * val) :=
  _ <- method clf "fit" [X_train; y_train] ;;
  y_prediction <- method clf "predict" [X_test] ;;
  y_prediction_proba <- method clf "predict_proba" [X_test] ;;
  Ret (y_prediction, y_prediction_proba).

(** [acc = accuracy_score(y_test, y_prediction)]
    [auc = roc_auc_score(y_test, y_prediction_proba[:, 1])]
    [fpr, tpr, thresholds = roc_curve(y_test, y_prediction_proba[:, 1])] *)
Definition metrics (y_test y_prediction y_prediction_proba : val)
  : prog (val * val * val * val * val) :=
  acc <- func sklearn "accuracy_score" [y_test; y_prediction] ;;
  p1 <- column_1 y_prediction_proba ;;
  auc <- func sklearn "roc_auc_score" [y_test; p1] ;;
  p1 <- column_1 y_prediction_proba ;;
  roc <- func sklearn "roc_curve" [y_test; p1] ;;
  '(fpr, tpr, thresholds) <- unpack3 roc ;;
  Ret (acc, auc, fpr, tpr, thresholds).

(** [f'AuC ROC: {auc:0.03f} \nAccuracy: {acc:0.03f}'] *)
Definition roc_label (auc acc : val) : prog string :=
  fstring [Lit "AuC ROC: "; Field auc "0.03f";
           Lit (" " ++ nl ++ "Accuracy: "); Field acc "0.03f"].

(** The evaluation cell that follows AdaBoost, gradient boosting and the
    random forest (the three cells have the same source). *)
Definition evaluation_cell (y_test y_prediction y_prediction_proba : val) : prog val :=
  '(acc, auc, fpr, tpr, thresholds) <- metrics y_test y_prediction y_prediction_proba ;;

  _ <- plt "figure" [] [] ;;
  _ <- plt "scatter" [fpr; tpr] [("c", thresholds)] ;;
  _ <- plt "plot" [fpr; tpr; VStr "--"] [("color", VStr "gray"); ("alpha", VFloat (1 # 2))] ;;
  label <- roc_label auc acc ;;
  _ <- plt "text" [VFloat (1 # 2); VFloat (1 # 2); VStr label] [] ;;
  Ret VNone.

(** [print('Removed columns:', c.values)] *)
Definition print_removed (c : val) : prog val :=
  values <- attr c "values" ;;
  print [VStr "Removed columns:"; values].

(** [print(f'name {x.mean():0.04f} +- {x.std():0.04f}')] *)
Definition print_mean_std (name : string) (x : val) : prog val :=
  m <- method x "mean" [] ;;
  m <- format_value m "0.04f" ;;
  sd <- method x "std" [] ;;
  sd <- format_value sd "0.04f" ;;
  print [VStr (name ++ m ++ " ± " ++ sd)].

Definition boosting_notebook : prog val :=
  _ <- javascript "$.getScript" [VStr toc_script] ;;

  _ <- import_ "ml" ["plots"] ;;
  _ <- import_ "matplotlib" [] ;;
  _ <- import_ "matplotlib.pyplot" [] ;;
  _ <- import_ "pandas" [] ;;
  _ <- import_ "numpy" [] ;;
  _ <- import_ "matplotlib.colors" ["ListedColormap"] ;;

  options <- attr (VRef "pd") "options" ;;
  display <- attr options "display" ;;
  _ <- method display "__setattr__" [VStr "max_rows"; VInt 10] ;;
  _ <- func ml "plots.set_plot_style" [] ;;

  _ <- line_magic "%matplotlib" "widget" ;;

  _ <- html "video" "./resources/fact_events.mp4" ;;

  _ <- import_ "pandas" [] ;;
  _ <- import_ "ctapipe.io" ["TableLoader"] ;;
  _ <- import_ "ctapipe.utils" ["get_dataset_path"] ;;

  gamma_path <- func ctapipe "get_dataset_path" [VStr "gamma_diffuse_dl2_train_small.dl2.h5"] ;;
  proton_path <- func ctapipe "get_dataset_path" [VStr "proton_dl2_train_small.dl2.h5"] ;;

  loader <- func ctapipe "TableLoader" [gamma_path] ;;
  subarray <- attr loader "subarray" ;;
  _ <- method subarray "peek" [] ;;

  gammas <- read_events gamma_path ;;

  c <- attr gammas "columns" ;;
  _ <- py_len c ;;

  (* forbidden_columns = 'true_|obs_id|event_id' *)
  gammas <- method_kw gammas "filter" [] [("regex", VStr allowed_columns_regex)] ;;
  c <- attr gammas "columns" ;;
  _ <- py_len c ;;

  nonnum <- method_kw gammas "select_dtypes" [] [("exclude", VList [VStr "number"])] ;;
  c <- attr nonnum "columns" ;;
  _ <- print_removed c ;;
  gammas <- drop_columns gammas c ;;

  desc <- method gammas "describe" [] ;;

  dcols <- attr desc "columns" ;;
  loc <- attr desc "loc" ;;
  std <- method loc "__getitem__" [VStr "std"] ;;
  mask <- method std "__eq__" [VInt 0] ;;
  c <- method dcols "__getitem__" [mask] ;;
  _ <- print_removed c ;;
  gammas <- drop_columns gammas c ;;

  cols <- attr gammas "columns" ;;
  cnt <- method gammas "count" [] ;;
  mask <- method cnt "__eq__" [VInt 0] ;;
  c <- method cols "__getitem__" [mask] ;;
  _ <- print_removed c ;;
  gammas <- drop_columns gammas c ;;

  n <- py_len gammas ;;
  _ <- print [n] ;;
  gammas <- method gammas "dropna" [] ;;
  n <- py_len gammas ;;
  _ <- print [n] ;;

  protons <- read_events proton_path ;;
  protons <- preprocess protons ;;

  gammas <- feature_generation gammas ;;
  protons <- feature_generation protons ;;
  _ <- getitem gammas (VList [VStr "awesome_feature"; VStr "impact"]) ;;

  bins <- func numpy "linspace" [VInt (-20); VInt 20; VInt 100] ;;
  a <- func numpy "arange" [VInt 0; VInt 10] ;;
  bins <- method a "__sub__" [VFloat (1 # 2)] ;;
  bins <- func numpy "geomspace" [VFloat 1000; VFloat 30000; VInt 51] ;;
  let col := VStr "HillasReconstructor_h_max" in
  _ <- plt "figure" [] [] ;;
  g <- getitem gammas col ;;
  _ <- plt "hist" [g] [("bins", bins); ("histtype", VStr "step"); ("lw", VInt 2);
                       ("label", VStr "Gammas"); ("density", VBool true)] ;;
  p <- getitem protons col ;;
  _ <- plt "hist" [p] [("bins", bins); ("histtype", VStr "step"); ("lw", VInt 2);
                       ("label", VStr "Protons"); ("density", VBool true)] ;;
  _ <- plt "xscale" [VStr "log"] [] ;;
  _ <- plt "xlabel" [col] [] ;;
  _ <- plt "legend" [] [] ;;

  X <- func pandas "concat" [VList [gammas; protons]] ;;
  n <- py_len gammas ;;
  ones <- func numpy "ones" [n] ;;
  n <- py_len protons ;;
  zeros <- func numpy "zeros" [n] ;;
  y <- func numpy "concatenate" [VList [ones; zeros]] ;;

  _ <- import_ "sklearn.model_selection" ["train_test_split"] ;;
  split <- func sklearn "train_test_split" [X; y] ;;
  '(X_test, X_train, y_test, y_train) <- unpack4 split ;;

  _ <- import_ "sklearn.tree" ["DecisionTreeClassifier"] ;;
  rf <- func_kw sklearn "DecisionTreeClassifier" []
          [("max_depth", VInt 15); ("criterion", VStr "entropy")] ;;
  '(y_prediction, y_prediction_proba) <- fit_and_predict rf X_train y_train X_test ;;

  importances <- attr rf "feature_importances_" ;;
  index <- attr gammas "columns" ;;
  importance <- func_kw pandas "Series" [importances] [("index", index)] ;;
  _ <- plt "figure" [] [] ;;
  sorted <- method importance "sort_values" [] ;;
  last <- method sorted "tail" [VInt 20] ;;
  plot <- attr last "plot" ;;
  _ <- method plot "barh" [] ;;

  _ <- import_ "sklearn.metrics" ["accuracy_score"; "roc_curve"; "roc_auc_score"] ;;
  '(acc, auc, fpr, tpr, thresholds) <- metrics y_test y_prediction y_prediction_proba ;;

  _ <- plt "figure" [] [] ;;
  _ <- plt "scatter" [fpr; tpr] [("c", thresholds); ("vmax", VInt 1)] ;;
  _ <- plt "xlabel" [VStr "FPR"] [] ;;
  _ <- plt "ylabel" [VStr "TPR"] [] ;;
  ax <- plt "gca" [] [] ;;
  _ <- method ax "set_aspect" [VInt 1] ;;
  _ <- plt "plot" [fpr; tpr; VStr "--"] [("color", VStr "gray"); ("alpha", VFloat (1 # 2))] ;;
  label <- roc_label auc acc ;;
  _ <- plt "text" [VFloat (1 # 2); VFloat (1 # 2); VStr label] [] ;;
  _ <- plt "colorbar" [] [] ;;

  _ <- import_ "sklearn.model_selection" ["cross_validate"] ;;
  rf <- func_kw sklearn "DecisionTreeClassifier" []
          [("max_depth", VInt 12); ("criterion", VStr "entropy")] ;;
  let scoring := VDict [("acc", VStr "accuracy"); ("auc", VStr "roc_auc");
                        ("recall", VStr "recall")] in
  results <- func_kw sklearn "cross_validate" [rf; X; y]
               [("cv", VInt 5); ("scoring", scoring); ("return_train_score", VBool true)] ;;

  auc <- getitem results (VStr "test_auc") ;;
  recall <- getitem results (VStr "test_recall") ;;
  acc <- getitem results (VStr "test_acc") ;;
  _ <- print_mean_std "Area under RoC curve: " auc ;;
  _ <- print_mean_std "Accuracy:             " acc ;;
  _ <- print_mean_std "Recall:               " recall ;;

  _ <- import_ "sklearn.ensemble" ["AdaBoostClassifier"] ;;
  base <- func_kw sklearn "DecisionTreeClassifier" [] [("max_depth", VInt 2)] ;;
  ada <- func_kw sklearn "AdaBoostClassifier" []
           [("base_estimator", base); ("n_estimators", VInt 100);
            ("learning_rate", VFloat (1 # 2))] ;;
  '(y_prediction, y_prediction_proba) <- fit_and_predict ada X_train y_train X_test ;;

  staged <- method ada "staged_score" [X_test; y_test] ;;
  staged <- iterate staged ;;
  scores <- func numpy "array" [VList staged] ;;
  _ <- plt "figure" [] [] ;;
  _ <- plt "plot" [scores; VStr "."] [] ;;
  _ <- plt "ylabel" [VStr "Accuracy"] [] ;;
  _ <- plt "xlabel" [VStr "Iteration"] [] ;;

  _ <- evaluation_cell y_test y_prediction y_prediction_proba ;;

  _ <- import_ "sklearn.ensemble" ["GradientBoostingClassifier"] ;;
  grb <- func_kw sklearn "GradientBoostingClassifier" []
           [("verbose", VBool true); ("n_estimators", VInt 300)] ;;
  '(y_prediction, y_prediction_proba) <- fit_and_predict grb X_train y_train X_test ;;

  staged <- method grb "staged_predict" [X_test] ;;
  l <- for_in staged (fun y_pred l =>
         a <- func sklearn "accuracy_score" [y_pred; y_test] ;;
         Ret (l ++ [a])) [] ;;
  _ <- plt "figure" [] [] ;;
  n <- py_len (VList l) ;;
  r <- py_range n ;;
  _ <- plt "plot" [r; VList l; VStr "."] [] ;;
  _ <- plt "ylabel" [VStr "Accuracy"] [] ;;
  _ <- plt "xlabel" [VStr "Iteration"] [] ;;

  _ <- evaluation_cell y_test y_prediction y_prediction_proba ;;

  _ <- import_ "sklearn.ensemble" ["RandomForestClassifier"] ;;
  rf <- func_kw sklearn "RandomForestClassifier" []
          [("n_estimators", VInt 150); ("max_depth", VInt 18);
           ("criterion", VStr "entropy")] ;;
  '(y_prediction, y_prediction_proba) <- fit_and_predict rf X_train y_train X_test ;;

  evaluation_cell y_test y_prediction y_prediction_proba.

(* ------------------------------------------------------------------ *)
(** * smd_neural_networks_torch.ipynb: classes and cells *)
(* ------------------------------------------------------------------ *)

(** [nn.Layer(...)] *)
Definition nn (layer : string) (a : list val) (kw : list (string * val)) : prog val :=
  func_kw torch ("nn." ++ layer) a kw.

(** [Class(...)] for a class of the notebook: a fresh module object on
    which the class's [__init__] runs.  [model(X)] is torch's
    [Module.__call__], which in turn runs the class's [forward]. *)
Definition instantiate (cls : string) (init : val -> prog val) : prog val :=
  self <- func builtins "object.__new__" [VRef cls] ;;
  _ <- init self ;;
  Ret self.

Definition set_attribute (self : val) (name : string) (v : val) : prog val :=
  method self "__setattr__" [VStr name; v].

(** The first [class FullyConnected(nn.Module)] (8 x 8 inputs). *)
Definition FullyConnected_8x8_init (self : val) : prog val :=
  _ <- func torch "nn.Module.__init__" [self] ;;

  l1 <- nn "Linear" [VInt (8 * 8 * 1); VInt 128] [] ;;
  l2 <- nn "ReLU" [] [] ;;
  l3 <- nn "Linear" [VInt 128; VInt 128] [] ;;
  l4 <- nn "ReLU" [] [] ;;
  l5 <- nn "Linear" [VInt 128; VInt 10] [] ;;
  l6 <- nn "Softmax" [] [("dim", VInt 1)] ;;
  fc <- nn "Sequential" [l1; l2; l3; l4; l5; l6] [] ;;
  _ <- set_attribute self "fc" fc ;;
  flatten <- nn "Flatten" [] [] ;;
  _ <- set_attribute self "flatten" flatten ;;
  Ret VNone.

Definition FullyConnected_8x8_forward (self x : val) : prog val :=
  (* x.shape = (batchsize, 1, 8, 8) *)
  flatten <- attr self "flatten" ;;
  x <- apply flatten [x] ;;
  fc <- attr self "fc" ;;
  x <- apply fc [x] ;;
  Ret x.

(** The second [class FullyConnected(nn.Module)], with options
    [__init__(self, input_size, n_classes, dropout=0.25, n_hidden=256)]. *)
Definition FullyConnected_init (input_size n_classes dropout n_hidden self : val)
  : prog val :=
  _ <- func torch "nn.Module.__init__" [self] ;;
  flatten <- nn "Flatten" [] [] ;;
  _ <- set_attribute self "flatten" flatten ;;

  l1 <- nn "BatchNorm1d" [input_size] [] ;;
  (* First Hidden Layer *)
  l2 <- nn "Linear" [input_size; n_hidden] [] ;;
  l3 <- nn "BatchNorm1d" [n_hidden] [] ;;
  l4 <- nn "Dropout" [dropout] [] ;;
  l5 <- nn "LeakyReLU" [] [] ;;
  (* Second Hidden Layer *)
  l6 <- nn "Linear" [n_hidden; n_hidden] [] ;;
  l7 <- nn "BatchNorm1d" [n_hidden] [] ;;
  l8 <- nn "Dropout" [dropout] [] ;;
  l9 <- nn "LeakyReLU" [] [] ;;
  (* Output Layer *)
  l10 <- nn "Linear" [n_hidden; n_classes] [] ;;
  l11 <- nn "Softmax" [] [("dim", VInt 1)] ;;
  fc_stack <- nn "Sequential" [l1; l2; l3; l4; l5; l6; l7; l8; l9; l10; l11] [] ;;
  _ <- set_attribute self "fc_stack" fc_stack ;;
  Ret VNone.

Definition FullyConnected_forward (self x : val) : prog val :=
  flatten <- attr self "flatten" ;;
  x <- apply flatten [x] ;;
  fc_stack <- attr self "fc_stack" ;;
  x <- apply fc_stack [x] ;;
  Ret x.

Definition FullyConnected (input_size n_classes dropout n_hidden : val) : prog val :=
  instantiate "FullyConnected" (FullyConnected_init input_size n_classes dropout n_hidden).

(** One stack of [ConvolutionalNetwork]: two 3x3 convolutions with 'same'
    padding, batch norm, leaky ReLU, 2x2 max pooling, dropout. *)
Definition conv_layers (c_in c_out : Z) : prog (list val) :=
  let k33 := ("kernel_size", VTuple [VInt 3; VInt 3]) in
  let same := ("padding", VStr "same") in
  l1 <- nn "Conv2d" [VInt c_in; VInt c_out] [k33; same] ;;
  l2 <- nn "Conv2d" [VInt c_out; VInt c_out] [k33; same] ;;
  l3 <- nn "BatchNorm2d" [VInt c_out] [] ;;
  l4 <- nn "LeakyReLU" [] [] ;;
  l5 <- nn "MaxPool2d" [] [("kernel_size", VInt 2); ("stride", VInt 2)] ;;
  l6 <- nn "Dropout" [VFloat (1 # 4)] [] ;;
  Ret [l1; l2; l3; l4; l5; l6].

(** [class ConvolutionalNetwork(nn.Module)] *)
Definition ConvolutionalNetwork_init (self : val) : prog val :=
  _ <- func torch "nn.Module.__init__" [self] ;;

  (* 1st stack of conv layers *)
  s1 <- conv_layers 3 32 ;;
  (* 2nd stack *)
  s2 <- conv_layers 32 64 ;;
  (* 3rd stack *)
  s3 <- conv_layers 64 128 ;;
  conv_stack <- nn "Sequential" (s1 ++ s2 ++ s3) [] ;;
  _ <- set_attribute self "conv_stack" conv_stack ;;

  flatten <- nn "Flatten" [] [] ;;
  _ <- set_attribute self "flatten" flatten ;;

  l1 <- nn "Linear" [VInt (128 * 4 * 4); VInt 128] [] ;;
  l2 <- nn "Dropout" [VFloat (1 # 4)] [] ;;
  l3 <- nn "LeakyReLU" [] [] ;;
  l4 <- nn "Linear" [VInt 128; VInt 10] [] ;;
  l5 <- nn "Softmax" [] [("dim", VInt 1)] ;;
  linear_relu_stack <- nn "Sequential" [l1; l2; l3; l4; l5] [] ;;
  _ <- set_attribute self "linear_relu_stack" linear_relu_stack ;;
  Ret VNone.

Definition ConvolutionalNetwork_forward (self x : val) : prog val :=
  conv_stack <- attr self "conv_stack" ;;
  x <- apply conv_stack [x] ;;
  flatten <- attr self "flatten" ;;
  x <- apply flatten [x] ;;
  linear_relu_stack <- attr self "linear_relu_stack" ;;
  x <- apply linear_relu_stack [x] ;;
  Ret x.

Definition ConvolutionalNetwork : prog val :=
  instantiate "ConvolutionalNetwork" ConvolutionalNetwork_init.

(** One curve pair of [plot_losses]: the body of its loop over
    [enumerate(zip(("Train", "Test"), (train_losses, test_losses)))]. *)
Definition plot_losses_body (i label : string) (losses : val) : prog val :=
  losses <- func numpy "array" [losses] ;;

  n <- py_len losses ;;
  size <- attr losses "size" ;;
  x <- func numpy "linspace" [VInt 0; n; size] ;;
  flat <- method losses "ravel" [] ;;
  _ <- plt "plot" [x; flat]
         [("label", VStr ("Loss " ++ label)); ("color", VStr ("C" ++ i));
          ("alpha", VFloat (1 # 2))] ;;

  mean_loss <- method_kw losses "mean" [] [("axis", VInt 1)] ;;
  n <- py_len mean_loss ;;
  x <- func numpy "arange" [VFloat (1 # 2); n] ;;
  plt "plot" [x; mean_loss]
    [("label", VStr ("Mean Epoch Loss " ++ label)); ("color", VStr ("C" ++ i));
     ("zorder", VInt 3)].

(** [def plot_losses(train_losses, test_losses)] *)
Definition plot_losses (train_losses test_losses : val) : prog val :=
  _ <- plt "figure" [] [] ;;
  _ <- plot_losses_body "0" "Train" train_losses ;;
  _ <- plot_losses_body "1" "Test" test_losses ;;
  _ <- plt "xlabel" [VStr "Epoch"] [] ;;
  plt "legend" [] [].

(** The training cell (the same source for the three networks):
    [report_accuracy(...)], then [epochs] times [fit_one_epoch] and
    [report_accuracy], collecting the losses of every epoch. *)
Definition training_cell
  (DEVICE : val) (epochs : Z)
  (train_dataloader test_dataloader model loss_fn optimizer : val)
  : prog (list val * list val) :=
  let test_losses := [] in
  let train_losses := [] in
  _ <- report_accuracy DEVICE test_dataloader train_dataloader model ;;
  r <- py_range (VInt epochs) ;;
  bar <- func tqdm "auto.tqdm" [r] ;;
  '(train_losses, test_losses) <- for_in bar (fun t '(train_losses, test_losses) =>
    '(epoch_loss_train, epoch_loss_test) <-
       fit_one_epoch train_dataloader test_dataloader model loss_fn optimizer DEVICE ;;
    let train_losses := train_losses ++ [VList epoch_loss_train] in
    let test_losses := test_losses ++ [VList epoch_loss_test] in
    _ <- report_accuracy DEVICE test_dataloader train_dataloader model ;;
    Ret (train_losses, test_losses)) (train_losses, test_losses) ;;
  _ <- print [VStr "Done!"] ;;
  Ret (train_losses, test_losses).

(** [datasets.NAME(root="data", train=..., transform=..., download=True)] *)
Definition dataset (name : string) (train : bool) (transform : val) : prog val :=
  func_kw torchvision ("datasets." ++ name) []
    [("root", VStr "data"); ("train", VBool train);
     ("transform", transform); ("download", VBool true)].

(** [Compose([Resize((16, 16)), ToTensor()])] *)
Definition resize_to_tensor : prog val :=
  r <- func torchvision "transforms.Resize" [VTuple [VInt 16; VInt 16]] ;;
  t <- func torchvision "transforms.ToTensor" [] ;;
  func torchvision "transforms.Compose" [VList [r; t]].

(** [X, y = next(iter(test_dataloader))] and the two [print]s of the shapes. *)
Definition first_batch (test_dataloader : val) : prog (val * val) :=
  b <- py_first test_dataloader ;;
  '(X, y) <- unpack2 b ;;
  shape <- attr X "shape" ;;
  _ <- print [VStr "Shape of X: "; shape] ;;
  shape <- attr y "shape" ;;
  _ <- print [VStr "Shape of y: "; shape] ;;
  Ret (X, y).

(** [X[0].shape.numel()] *)
Definition sample_size (X : val) : prog val :=
  x0 <- getitem X (VInt 0) ;;
  shape <- attr x0 "shape" ;;
  method shape "numel" [].

(** [len(dataset.classes)] *)
Definition n_classes_of (dataset : val) : prog val :=
  classes <- attr dataset "classes" ;;
  py_len classes.

Definition torch_notebook : prog val :=
  _ <- javascript "$.getScript" [VStr toc_script] ;;

  _ <- import_ "matplotlib.pyplot" [] ;;
  _ <- import_ "numpy" [] ;;
  _ <- import_ "tqdm.auto" ["tqdm"] ;;
  _ <- import_ "torch" [] ;;
  _ <- import_ "torch" ["nn"] ;;
  _ <- import_ "torch.utils.data" ["DataLoader"] ;;
  _ <- import_ "torchvision" ["datasets"] ;;
  _ <- import_ "torchvision.transforms" ["ToTensor"; "Resize"; "Compose"] ;;

  _ <- line_magic "%matplotlib" "widget" ;;

  (* class FullyConnected, first version *)
  _ <- instantiate "FullyConnected" FullyConnected_8x8_init ;;

  (* class FullyConnected, with options *)
  _ <- FullyConnected (VInt (3 * 50 * 50)) (VInt 2) (VFloat (1 # 4)) (VInt 256) ;;

  available <- func torch "cuda.is_available" [] ;;
  available <- py_bool available ;;
  let DEVICE := VStr (if available : bool then "cuda" else "cpu") in
  _ <- print [VStr ("Using " ++ (if available : bool then "cuda" else "cpu") ++ " device")] ;;

  (* MNIST *)
  transform <- resize_to_tensor ;;
  mnist_train <- dataset "MNIST" true transform ;;
  transform <- resize_to_tensor ;;
  mnist_test <- dataset "MNIST" false transform ;;

  let batch_size := VInt 64 in
  train_dataloader <- func_kw torch "utils.data.DataLoader" [mnist_train]
                        [("batch_size", batch_size); ("shuffle", VBool true)] ;;
  test_dataloader <- func_kw torch "utils.data.DataLoader" [mnist_test]
                       [("batch_size", batch_size); ("shuffle", VBool true)] ;;
  (* get first batch *)
  '(X, y) <- first_batch test_dataloader ;;

  subplots <- plt "subplots" [VInt 2; VInt 5]
                [("figsize", VTuple [VInt 9; VInt 3]); ("constrained_layout", VBool true)] ;;
  '(fig, axs) <- unpack2 subplots ;;
  flat <- attr axs "flat" ;;
  axes <- iterate flat ;;
  _ <- for_each (map (fun '(i, ax) => VTuple [VInt i; ax]) (py_enumerate axes))
         (fun item (_ : unit) =>
            '(i, ax) <- unpack2 item ;;
            img <- getitem X (VTuple [i; VInt 0]) ;;
            _ <- method_kw ax "imshow" [img] [("cmap", VStr "gray")] ;;
            Ret tt) tt ;;

  input_size <- sample_size X ;;
  n_classes <- n_classes_of mnist_train ;;
  model <- FullyConnected input_size n_classes (VFloat (1 # 4)) (VInt 256) ;;
  loss_fn <- nn "CrossEntropyLoss" [] [] ;;
  parameters <- method model "parameters" [] ;;
  optimizer <- func torch "optim.AdamW" [parameters] ;;
  '(train_losses, test_losses) <-
     training_cell DEVICE 20 train_dataloader test_dataloader model loss_fn optimizer ;;

  _ <- plot_losses (VList train_losses) (VList test_losses) ;;
  _ <- plt "yscale" [VStr "log"] [] ;;

  (* CIFAR-10 *)
  transform <- func torchvision "transforms.ToTensor" [] ;;
  cifar10_train <- dataset "CIFAR10" true transform ;;
  transform <- func torchvision "transforms.ToTensor" [] ;;
  cifar10_test <- dataset "CIFAR10" false transform ;;

  let batch_size := VInt 64 in
  train_dataloader <- func_kw torch "utils.data.DataLoader" [cifar10_train]
                        [("batch_size", batch_size)] ;;
  test_dataloader <- func_kw torch "utils.data.DataLoader" [cifar10_test]
                       [("batch_size", batch_size)] ;;
  (* get first batch *)
  '(X, y) <- first_batch test_dataloader ;;

  subplots <- plt "subplots" [VInt 4; VInt 4]
                [("figsize", VTuple [VInt 9; VInt 9]); ("constrained_layout", VBool true)] ;;
  '(fig, axs) <- unpack2 subplots ;;
  flat <- attr axs "flat" ;;
  axes <- iterate flat ;;
  _ <- for_each (map (fun '(idx, ax) => VTuple [VInt idx; ax]) (py_enumerate axes))
         (fun item (_ : unit) =>
            '(idx, ax) <- unpack2 item ;;
            k <- py_add idx (VInt 16) ;;
            x <- getitem X k ;;
            swapped <- func numpy "swapaxes" [x; VInt 1; VInt 2] ;;
            img <- attr swapped "T" ;;

            classes <- attr cifar10_train "classes" ;;
            k <- py_add idx (VInt 16) ;;
            label <- getitem y k ;;
            title <- getitem classes label ;;
            _ <- method ax "set_title" [title] ;;
            _ <- method ax "imshow" [img] ;;
            _ <- method ax "set_axis_off" [] ;;
            Ret tt) tt ;;

  input_size <- sample_size X ;;
  n_classes <- n_classes_of cifar10_train ;;
  model <- FullyConnected input_size n_classes (VFloat (1 # 4)) (VInt 256) ;;

  loss_fn <- nn "CrossEntropyLoss" [] [] ;;
  parameters <- method model "parameters" [] ;;
  optimizer <- func_kw torch "optim.Adam" [parameters] [("lr", VFloat (1 # 1000))] ;;
  '(train_losses, test_losses) <-
     training_cell DEVICE 15 train_dataloader test_dataloader model loss_fn optimizer ;;

  _ <- plot_losses (VList train_losses) (VList test_losses) ;;
  _ <- plt "yscale" [VStr "log"] [] ;;

  (* class ConvolutionalNetwork *)
  model <- ConvolutionalNetwork ;;

  loss_fn <- nn "CrossEntropyLoss" [] [] ;;
  parameters <- method model "parameters" [] ;;
  optimizer <- func torch "optim.AdamW" [parameters] ;;

  '(train_losses, test_losses) <-
     training_cell DEVICE 25 train_dataloader test_dataloader model loss_fn optimizer ;;

  _ <- plot_losses (VList train_losses) (VList test_losses) ;;

  '(prediction, y) <- predictions test_dataloader model DEVICE ;;

  _ <- import_ "sklearn.metrics" ["confusion_matrix"] ;;
  let classes := VTuple (map VStr ["plane"; "car"; "bird"; "cat"; "deer";
                                   "dog"; "frog"; "horse"; "ship"; "truck"]) in
  y_cpu <- method y "cpu" [] ;;
  y_np <- method y_cpu "numpy" [] ;;
  p_cpu <- method prediction "cpu" [] ;;
  p_np <- method p_cpu "numpy" [] ;;
  matrix <- func sklearn "confusion_matrix" [y_np; p_np] ;;
  row_sums <- method_kw matrix "sum" [] [("axis", VInt 1)] ;;
  matrix <- func numpy "divide" [matrix; row_sums] ;;

  _ <- plt "matshow" [matrix] [] ;;
  n <- py_len classes ;;
  ticks <- func numpy "arange" [n] ;;
  _ <- plt "xticks" [ticks; classes] [] ;;
  n <- py_len classes ;;
  ticks <- func numpy "arange" [n] ;;
  _ <- plt "yticks" [ticks; classes] [] ;;
  _ <- plt "colorbar" [] [] ;;
  Ret VNone.

(* ------------------------------------------------------------------ *)
(** * The markdown cells *)
(* ------------------------------------------------------------------ *)

(** A markdown cell that embeds an image, with [<img src="...">] or with
    [![](...)]: the front end fetches the image when it renders the cell.
    Markdown cells are not run by the kernel; below are the markdown cells
    of each notebook that embed something, top to bottom (links are not
    followed, and the other markdown cells are text). *)
Definition markdown_image (src : string) : prog val :=
  invoke (Magic "markdown") [VStr "img"; VStr src] [].

Definition cta_telescopes : string :=
  "https://upload.wikimedia.org/wikipedia/commons/thumb/b/b0/CTA_Telescopes_in_Southern_Hemisphere.jpg/1280px-CTA_Telescopes_in_Southern_Hemisphere.jpg".
Definition cta_shower : string :=
  "https://www.cta-observatory.org/wp-content/uploads/2016/05/cta47.png".
Definition hess_sky : string :=
  "https://www.mpi-hd.mpg.de/hfm/HESS/hgps/figures/HESS_J1813m126.png".

Definition boosting_markdown : prog val :=
  _ <- markdown_image cta_telescopes ;;
  _ <- markdown_image cta_shower ;;
  markdown_image hess_sky.

Definition torch_markdown : prog val := Ret VNone.

End Notebooks.

(* ================================================================== *)
(** * Sums in single precision *)
(* ================================================================== *)

(** [accuracy] counts the hits of a batch with
    [(pred.argmax(1) == y).type(torch.float).sum()]: a sum of float32
    numbers, each 0.0 or 1.0.  The partial sums are whole numbers; a whole
    number is a float32 number as long as it has at most 24 significant
    bits. *)

(** A whole number [k * u + r] with [0 <= r < u] rounded to a multiple of
    [u]: to the nearest one, and to the even one of two that are equally
    near. *)
Definition to_multiple (u n : Z) : Z :=
  let k := (n / u)%Z in
  let r := (n mod u)%Z in
  if (2 * r <? u)%Z then (k * u)%Z
  else if (2 * r =? u)%Z then (if Z.even k then k * u else (k + 1) * u)%Z
  else ((k + 1) * u)%Z.

(** The float32 number nearest to the whole number [n]: [n] itself up to
    [2^24]; beyond, the nearest number with 24 significant bits. *)
Definition float32 (n : Z) : Z :=
  if (Z.abs n <=? 2 ^ 24)%Z then n
  else (Z.sgn n * to_multiple (2 ^ (Z.log2 (Z.abs n) - 23)) (Z.abs n))%Z.

(** torch adds the entries of a tensor in an order of its own (in blocks,
    with several partial sums at a time).  A [plan] is such an order: which
    entries are added to which partial sum.  [add_up] follows a plan and
    rounds every partial sum. *)
Inductive plan :=
| Nothing
| Entry (i : nat)
| Plus (l r : plan).

Fixpoint entries (p : plan) : list nat :=
  match p with
  | Nothing => []
  | Entry i => [i]
  | Plus l r => entries l ++ entries r
  end.

Fixpoint add_up (xs : list Z) (p : plan) : Z :=
  match p with
  | Nothing => 0%Z
  | Entry i => nth i xs 0%Z
  | Plus l r => float32 (add_up xs l + add_up xs r)
  end.

(** A plan for [n] entries takes each of them once. *)
Definition covers (p : plan) (n : nat) : bool :=
  (List.length (entries p) =? n)%nat
  && forallb (fun i => existsb (Nat.eqb i) (entries p)) (seq 0 n).

(** One entry after the other. *)
Fixpoint one_by_one (n : nat) : plan :=
  match n with
  | O => Nothing
  | S m => Plus (one_by_one m) (Entry m)
  end.

(** The sum of the entries [xs] in single precision, added up in the order
    that [order] gives for tensors of this length (one by one, should
    [order] give no plan for them). *)
Definition float_sum (order : nat -> plan) (xs : list Z) : Z :=
  let n := List.length xs in
  add_up xs (if covers (order n) n then order n else one_by_one n).

(** The number of the positions [ps] at which [bs] holds. *)
Definition held_at (bs : list bool) (ps : list nat) : nat :=
  List.length (filter (fun i => nth i bs false) ps).

(* ================================================================== *)
(** * A model of the torch operations used by [accuracy] and [predictions] *)
(* ================================================================== *)

(** Both functions put the network in evaluation mode under [no_grad], so
    that a forward pass is a function of the batch alone.  [input] is the
    type of a batch of inputs, [classify x] stands for [model(x).argmax(1)]:
    the class index the network assigns to each sample of the batch.
    Labels and predicted classes are one-dimensional tensors.  Two things
    differ between versions and builds of torch and are parameters of the
    model: the order in which [Tensor.sum] adds up the entries, and the
    exception that [torch.cat] raises for an empty list of tensors (a
    [RuntimeError] or a [ValueError]). *)
Section TorchModel.
Variable input : Type.
Variable classify : input -> list Z.
Variable order : nat -> plan.
Variable empty_cat : exn.

Inductive tobj :=
| TModule                                    (* the network *)
| TLoader (batches : list (input * list Z))  (* a DataLoader: (X, y) batches *)
| TInput (x : input)                         (* a batch X *)
| TScores (x : input)                        (* model(X) *)
| TLong (l : list Z)                         (* 1-D integer tensor *)
| TBool (l : list bool)                      (* 1-D boolean tensor *)
| TFloat (l : list Z)                        (* 1-D float32 tensor of whole numbers *)
| TScalar (z : Z)                            (* 0-D float32 tensor, a whole number *)
| TNoGrad.                                   (* torch.no_grad() *)

Definition RuntimeError (msg : string) : exn := Exn "RuntimeError" msg.
Definition NotModelled : exn := Exn "NotImplementedError" "operation not modelled".

(** Elementwise [a == b] with broadcasting of a one-element tensor. *)
Definition tensor_eq (a b : list Z) : result (list bool) :=
  if (List.length a =? List.length b)%nat then
    Ok (map (fun '(x, y) => (x =? y)%Z) (combine a b))
  else if (List.length b =? 1)%nat then
    Ok (map (fun x => (x =? hd 0%Z b)%Z) a)
  else if (List.length a =? 1)%nat then
    Ok (map (fun y => (hd 0%Z a =? y)%Z) b)
  else Err (RuntimeError "The size of tensor a must match the size of tensor b").

(** [True] and [False] as 1.0 and 0.0 *)
Definition bool_to_float (b : bool) : Z := if b then 1%Z else 0%Z.

(** [torch.cat] of 1-D integer tensors. *)
Fixpoint cat_long (ts : list (val tobj)) : option (list Z) :=
  match ts with
  | [] => Some []
  | VObj (TLong l) :: rest => option_map (app l) (cat_long rest)
  | _ => None
  end.

Definition collate (b : input * list Z) : val tobj :=
  VList [VObj (TInput (fst b)); VObj (TLong (snd b))].

Definition torch_model (c : call tobj) (s : unit) : result (val tobj) * unit :=
  (match callee c, args c with
   | Func torch name, a =>
       if name =? "no_grad" then Ok (VObj TNoGrad)
       else if name =? "cat" then
         match a with
         | [VList []] => Err empty_cat
         | [VList ts] =>
             match cat_long ts with
             | Some l => Ok (VObj (TLong l))
             | None => Err NotModelled
             end
         | _ => Err NotModelled
         end
       else Err NotModelled
   | Func builtins name, [VObj (TLoader bs)] =>
       if name =? "iter" then Ok (VList (map collate bs)) else Err NotModelled
   | Func builtins name, [VObj (TLong l)] =>
       if name =? "len" then Ok (VInt (Z.of_nat (List.length l))) else Err NotModelled
   | Method name, [VObj TNoGrad] =>
       if name =? "__enter__" then Ok VNone else Err NotModelled
   | Method name, [VObj TNoGrad; _] =>
       if name =? "__exit__" then Ok VNone else Err NotModelled
   | Method name, [VObj TModule] =>
       if name =? "eval" then Ok (VObj TModule) else Err NotModelled
   | Method name, [VObj TModule; VObj (TInput x)] =>
       if name =? "__call__" then Ok (VObj (TScores x)) else Err NotModelled
   | Method name, [VObj (TScores x); VInt 1] =>
       if name =? "argmax" then Ok (VObj (TLong (classify x))) else Err NotModelled
   | Method name, [VObj (TLong a); VObj (TLong b)] =>
       if name =? "__eq__" then
         match tensor_eq a b with
         | Ok l => Ok (VObj (TBool l))
         | Err e => Err e
         end
       else Err NotModelled
   | Method name, [VObj (TBool l); VRef dtype] =>
       if (name =? "type") && (dtype =? "torch.float")
       then Ok (VObj (TFloat (map bool_to_float l))) else Err NotModelled
   | Method name, [VObj (TFloat l)] =>
       if name =? "sum" then Ok (VObj (TScalar (float_sum order l))) else Err NotModelled
   | Method name, [VObj (TScalar z)] =>
       if name =? "item" then Ok (VFloat (inject_Z z)) else Err NotModelled
   | Method name, [recv; _] =>
       if name =? "to" then Ok recv else Err NotModelled
   | _, _ => Err NotModelled
   end, s).

(** Every batch comes with as many labels as it has samples. *)
Definition well_shaped (batches : list (input * list Z)) : Prop :=
  forall x y, In (x, y) batches -> List.length (classify x) = List.length y.

(** No batch has more than [2^24] samples. *)
Definition countable (batches : list (input * list Z)) : Prop :=
  forall x y, In (x, y) batches -> (Z.of_nat (List.length y) <= 2 ^ 24)%Z.

(** What a pass over the loader shows: the predicted classes and the labels
    of all samples, in the order the batches come. *)
Definition predicted (batches : list (input * list Z)) : list Z :=
  List.concat (map (fun b => classify (fst b)) batches).
Definition labels (batches : list (input * list Z)) : list Z :=
  List.concat (map snd batches).

End TorchModel.

Arguments TModule {input}.
Arguments TLoader {input} batches.
Arguments TInput {input} x.
Arguments TScores {input} x.
Arguments TLong {input} l.
Arguments TBool {input} l.
Arguments TFloat {input} l.
Arguments TScalar {input} z.
Arguments TNoGrad {input}.

(** An exception for [torch.cat([])], for the examples: torch raises a
    [ValueError] or, in other releases, a [RuntimeError]; the model takes
    the exception as a parameter and the theorems hold for either. *)
Definition cat_of_nothing : exn :=
  Exn "ValueError" "torch.cat(): expected a non-empty list of Tensors".

(** Python numbers and their value. *)
Definition number {obj} (v : val obj) : Prop :=
  match v with VInt _ | VFloat _ => True | _ => False end.
Definition value {obj} (v : val obj) : Q :=
  match v with VInt z => inject_Z z | VFloat q => q | _ => 0%Q end.

(** The number of positions at which two tensors agree. *)
Definition agreements (p t : list Z) : nat :=
  List.length (filter (fun '(x, y) => (x =? y)%Z) (combine p t)).

(** scikit-learn's default split of [n] rows: a quarter, rounded up, for
    testing and the rest for training. *)
Definition n_test (n : nat) : nat := ((n + 3) / 4)%nat.
Definition n_train (n : nat) : nat := (n - n_test n)%nat.

(* ================================================================== *)
(** * A symbolic model of the libraries *)
(* ================================================================== *)

(** Every call answers with a fresh object that records which callee made
    it, its serial number in the run, and (for frames and arrays) a number
    of rows.  Iterables yield two items; functions whose result the
    notebooks unpack return sequences of the expected width; the parts of
    [train_test_split] have the sizes scikit-learn gives them by default. *)
Inductive sym := Sym (made_by : target) (serial : nat) (rows : nat).

Definition rows_of (v : val sym) : nat :=
  match v with
  | VObj (Sym _ _ n) => n
  | _ => 100%nat
  end.

Definition symbolic (c : call sym) (serial : nat) : result (val sym) * nat :=
  let fresh (rows : nat) := VObj (Sym (callee c) serial rows) in
  let total := match args c with X :: _ => rows_of X | [] => 100%nat end in
  (match callee c with
   | Func builtins name =>
       if name =? "iter" then Ok (VList [fresh 0%nat; fresh 1%nat])
       else if name =? "len" then Ok (VInt 2)
       else if name =? "bool" then Ok (VBool false)
       else if name =? "format" then Ok (VStr "0.5")
       else Ok (fresh 100%nat)
   | Func sklearn name =>
       if name =? "train_test_split"
       then Ok (VList [fresh (n_train total); fresh (n_test total);
                       fresh (n_train total); fresh (n_test total)])
       else if name =? "roc_curve"
       then Ok (VTuple [fresh 0%nat; fresh 1%nat; fresh 2%nat])
       else Ok (fresh 100%nat)
   | Func matplotlib name =>
       if name =? "pyplot.subplots"
       then Ok (VTuple [fresh 0%nat; fresh 1%nat])
       else Ok (fresh 100%nat)
   | _ => Ok (fresh 100%nat)
   end, S serial).

(** The same model with one call that fails: [failing bad e] raises [e] at
    the first call whose callee is [bad]. *)
Definition target_eqb (t u : target) : bool :=
  match t, u with
  | Func builtins n, Func builtins m | Func ipython n, Func ipython m
  | Func ml n, Func ml m | Func pandas n, Func pandas m
  | Func numpy n, Func numpy m | Func matplotlib n, Func matplotlib m
  | Func ctapipe n, Func ctapipe m | Func sklearn n, Func sklearn m
  | Func torch n, Func torch m | Func torchvision n, Func torchvision m
  | Func tqdm n, Func tqdm m => n =? m
  | Method n, Method m | Attr n, Attr m | Magic n, Magic m => n =? m
  | _, _ => false
  end.

Definition failing (bad : target) (e : exn) (c : call sym) (serial : nat)
  : result (val sym) * nat :=
  if target_eqb (callee c) bad then (Err e, S serial) else symbolic c serial.

(** The callees of a trace, in order. *)
Definition callees {obj} (tr : trace obj) : list target :=
  map (fun ev => callee (fst ev)) tr.

(* ================================================================== *)
(** * What the notebooks call *)
(* ================================================================== *)

Definition mem (s : string) (l : list string) : bool := existsb (String.eqb s) l.

(** The operations of the libraries that the notebooks apply to objects in
    memory: functions and classes, *)
Definition functions : list target :=
  map (Func builtins) ["print"; "len"; "iter"; "bool"; "format"; "object.__new__"]
  ++ map (Func ml) ["plots.set_plot_style"]
  ++ map (Func pandas) ["concat"; "Series"]
  ++ map (Func numpy)
       ["sqrt"; "linspace"; "arange"; "geomspace"; "ones"; "zeros"; "concatenate";
        "array"; "swapaxes"; "divide"]
  ++ map (Func matplotlib)
       ["pyplot.figure"; "pyplot.hist"; "pyplot.xscale"; "pyplot.yscale";
        "pyplot.xlabel"; "pyplot.ylabel"; "pyplot.legend"; "pyplot.scatter";
        "pyplot.gca"; "pyplot.plot"; "pyplot.text"; "pyplot.colorbar";
        "pyplot.subplots"; "pyplot.matshow"; "pyplot.xticks"; "pyplot.yticks"]
  ++ map (Func sklearn)
       ["train_test_split"; "cross_validate"; "DecisionTreeClassifier";
        "AdaBoostClassifier"; "GradientBoostingClassifier"; "RandomForestClassifier";
        "accuracy_score"; "roc_auc_score"; "roc_curve"; "confusion_matrix"]
  ++ map (Func torch)
       ["cuda.is_available"; "utils.data.DataLoader"; "no_grad"; "cat";
        "optim.AdamW"; "optim.Adam"; "nn.Module.__init__"; "nn.CrossEntropyLoss";
        "nn.Linear"; "nn.ReLU"; "nn.LeakyReLU"; "nn.Softmax"; "nn.Sequential";
        "nn.Flatten"; "nn.BatchNorm1d"; "nn.BatchNorm2d"; "nn.Dropout"; "nn.Conv2d";
        "nn.MaxPool2d"]
  ++ map (Func torchvision)
       ["transforms.Resize"; "transforms.ToTensor"; "transforms.Compose"]
  ++ map (Func tqdm) ["auto.tqdm"].

(** methods and operators, *)
Definition methods : list target :=
  map Method
    [ (* tables and frames *)
      "peek"; "read_telescope_events"; "remove_columns"; "to_pandas";
      "filter"; "select_dtypes"; "count"; "describe"; "drop"; "dropna";
      "sort_values"; "tail"; "barh"; "mean"; "std"; "ravel"; "sum";
      (* operators and items *)
      "__getitem__"; "__setitem__"; "__setattr__"; "__eq__"; "__add__"; "__sub__";
      "__mul__"; "__truediv__"; "__pow__"; "__call__"; "__enter__"; "__exit__";
      (* estimators *)
      "fit"; "predict"; "predict_proba"; "staged_score"; "staged_predict";
      (* axes *)
      "set_aspect"; "set_title"; "set_axis_off"; "imshow";
      (* tensors, networks and optimizers *)
      "to"; "train"; "eval"; "parameters"; "zero_grad"; "backward"; "step";
      "item"; "argmax"; "type"; "numel"; "cpu"; "numpy" ].

(** attributes, and the one line magic. *)
Definition attributes_read : list target :=
  map Attr
    [ "options"; "display"; "subarray"; "columns"; "values"; "loc";
      "feature_importances_"; "plot"; "flat"; "T"; "shape"; "size"; "classes" ].

Definition line_magics : list target := [Magic "%matplotlib"].

Definition operations : list target :=
  functions ++ methods ++ attributes_read ++ line_magics.

(** The libraries that the notebooks import. *)
Definition libraries : list string :=
  [ "ml"; "matplotlib"; "matplotlib.pyplot"; "matplotlib.colors"; "pandas"; "numpy";
    "ctapipe.io"; "ctapipe.utils";
    "sklearn.model_selection"; "sklearn.tree"; "sklearn.metrics"; "sklearn.ensemble";
    "tqdm.auto"; "torch"; "torch.utils.data"; "torchvision"; "torchvision.transforms" ].

(** The keywords with which the notebooks call. *)
Definition keywords : list string :=
  [ "load_dl2_geometry"; "load_instrument"; "load_simulated";
    "regex"; "exclude"; "axis"; "index";
    "bins"; "histtype"; "lw"; "label"; "density"; "c"; "vmax"; "color"; "alpha";
    "zorder"; "figsize"; "constrained_layout"; "cmap";
    "max_depth"; "criterion"; "cv"; "scoring"; "return_train_score";
    "base_estimator"; "n_estimators"; "learning_rate"; "verbose";
    "root"; "train"; "transform"; "download"; "batch_size"; "shuffle"; "lr";
    "kernel_size"; "padding"; "stride"; "dim" ].

(* ================================================================== *)
(** * Disciplines on traces *)
(* ================================================================== *)

(** A monitor follows a trace call by call: [allows] says which calls are
    acceptable in a state, [after] how a successful call changes it. *)
Section Monitors.
Context {obj : Type}.
Local Abbreviation val := (val obj).
Local Abbreviation call := (call obj).
Local Abbreviation trace := (trace obj).

Record monitor := Monitor {
  mstate : Type;
  allows : mstate -> call -> Prop;
  after : mstate -> call -> val -> mstate
}.

Variable M : monitor.

Definition step (st : mstate M) (ev : event obj) : mstate M :=
  match snd ev with
  | Ok v => after M st (fst ev) v
  | Err _ => st
  end.

Fixpoint accepts (st : mstate M) (tr : trace) : Prop :=
  match tr with
  | [] => True
  | ev :: tr' => allows M st (fst ev) /\ accepts (step st ev) tr'
  end.

Fixpoint state_after (st : mstate M) (tr : trace) : mstate M :=
  match tr with
  | [] => st
  | ev :: tr' => state_after (step st ev) tr'
  end.

(** [wp p st Q E]: from monitor state [st], every call [p] makes is
    allowed, [Q] holds of the state and the result when [p] returns, and
    [E] of the state when it raises. *)
Fixpoint wp {A} (p : prog obj A)
  : mstate M -> (mstate M -> A -> Prop) -> (mstate M -> Prop) -> Prop :=
  match p in prog _ T
        return mstate M -> (mstate M -> T -> Prop) -> (mstate M -> Prop) -> Prop with
  | Ret a => fun st Q E => Q st a
  | Raise e => fun st Q E => E st
  | Call c k => fun st Q E =>
      allows M st c /\ E st /\ forall v, wp (k v) (after M st c v) Q E
  | With cm body k => fun st Q E =>
      allows M st (enter_call cm) /\ E st /\
      forall v,
        wp body (after M st (enter_call cm) v)
          (fun st1 b =>
             allows M st1 (exit_call cm VNone) /\ E st1 /\
             forall v', wp (k b) (after M st1 (exit_call cm VNone) v') Q E)
          (fun st1 =>
             forall e, allows M st1 (exit_call cm (VExn e)) /\ E st1 /\
             forall v', E (after M st1 (exit_call cm (VExn e)) v'))
  | Try body hd k => fun st Q E =>
      wp body st (fun st1 b => wp (k b) st1 Q E)
        (fun st1 => forall e, wp (hd e) st1 (fun st2 b => wp (k b) st2 Q E) E)
  end.

End Monitors.

(* ================================================================== *)
(** * Exceptions *)
(* ================================================================== *)

Section Exceptions.
Context {obj : Type}.
Local Abbreviation val := (val obj).

(** A program that contains no [try ... except]. *)
Fixpoint catches_nothing {A} (p : prog obj A) : Prop :=
  match p with
  | Ret _ | Raise _ => True
  | Call _ k => forall v, catches_nothing (k v)
  | With _ body k => catches_nothing body /\ forall b, catches_nothing (k b)
  | Try _ _ _ => False
  end.

(** The functions and methods the two notebooks define, applied to
    arbitrary arguments. *)
Inductive notebook_function : forall A, prog obj A -> Prop :=
| def_read_events path :
    notebook_function (read_events path)
| def_preprocess df :
    notebook_function (preprocess df)
| def_feature_generation df :
    notebook_function (feature_generation df)
| def_train dataloader model loss_fn optimizer device :
    notebook_function (train dataloader model loss_fn optimizer device)
| def_test dataloader model loss_fn device :
    notebook_function (test dataloader model loss_fn device)
| def_fit_one_epoch train_dataloader test_dataloader model loss_fn optimizer device :
    notebook_function
      (fit_one_epoch train_dataloader test_dataloader model loss_fn optimizer device)
| def_accuracy dataloader model device :
    notebook_function (accuracy dataloader model device)
| def_predictions dataloader model device :
    notebook_function (predictions dataloader model device)
| def_report_accuracy DEVICE test_dataloader train_dataloader model :
    notebook_function (report_accuracy DEVICE test_dataloader train_dataloader model)
| def_plot_losses train_losses test_losses :
    notebook_function (plot_losses train_losses test_losses)
| def_FullyConnected_8x8_init self :
    notebook_function (FullyConnected_8x8_init self)
| def_FullyConnected_8x8_forward self x :
    notebook_function (FullyConnected_8x8_forward self x)
| def_FullyConnected_init input_size n_classes dropout n_hidden self :
    notebook_function (FullyConnected_init input_size n_classes dropout n_hidden self)
| def_FullyConnected_forward self x :
    notebook_function (FullyConnected_forward self x)
| def_ConvolutionalNetwork_init self :
    notebook_function (ConvolutionalNetwork_init self)
| def_ConvolutionalNetwork_forward self x :
    notebook_function (ConvolutionalNetwork_forward self x).

(** A call that raised [e], somewhere in the trace. *)
Definition raised (tr : trace obj) (e : exn) : Prop :=
  exists c, In (c, Err e) tr.

(** [__exit__] of a context manager, called with an exception in flight,
    did not itself raise. *)
Definition exits_quietly (tr : trace obj) : Prop :=
  forall cm e e', ~ In (exit_call cm (VExn e), Err e') tr.

End Exceptions.

(** Every call a program can make satisfies [P]. *)
Fixpoint all_calls {obj A} (P : call obj -> Prop) (p : prog obj A) : Prop :=
  match p with
  | Ret _ | Raise _ => True
  | Call c k => P c /\ forall v, all_calls P (k v)
  | With cm body k =>
      P (enter_call cm) /\ P (exit_call cm VNone) /\
      (forall e, P (exit_call cm (VExn e))) /\
      all_calls P body /\ forall b, all_calls P (k b)
  | Try body hd k =>
      all_calls P body /\ (forall e, all_calls P (hd e)) /\
      forall b, all_calls P (k b)
  end.

(** A call a monitor ignores. *)
Definition neutral {obj} (M : @monitor obj) (c : call obj) : Prop :=
  forall st, allows M st c /\ forall v, after M st c v = st.

Section Disciplines.
Context {obj : Type}.
Local Abbreviation val := (val obj).
Local Abbreviation call := (call obj).

Definition receiver (c : call) : option val := hd_error (args c).

(** ** Load, fit, predict, measure, plot *)

Inductive role := Load | Fit | Query | Metric | Scatter | Other.

Definition role_of (t : target) : role :=
  match t with
  | Method n =>
      if n =? "read_telescope_events" then Load
      else if n =? "fit" then Fit
      else if (n =? "predict") || (n =? "predict_proba")
              || (n =? "staged_predict") || (n =? "staged_score") then Query
      else Other
  | Attr n => if n =? "feature_importances_" then Query else Other
  | Func sklearn n =>
      if (n =? "accuracy_score") || (n =? "roc_auc_score") || (n =? "roc_curve")
      then Metric else Other
  | Func matplotlib n => if n =? "pyplot.scatter" then Scatter else Other
  | _ => Other
  end.

(** How many event tables have been read, which estimators have been
    fitted, and whether the estimator fitted last has since been asked for
    predictions and those predictions scored. *)
Record order_state := OrderState {
  loads : nat;
  fitted : val -> Prop;
  queried : bool;
  scored : bool
}.

Definition order_allows (st : order_state) (c : call) : Prop :=
  match role_of (callee c) with
  | Fit => (2 <= loads st)%nat
  | Query => exists m, receiver c = Some m /\ fitted st m
  | Metric => queried st = true
  | Scatter => scored st = true
  | _ => True
  end.

Definition order_after (st : order_state) (c : call) (v : val) : order_state :=
  match role_of (callee c) with
  | Load => OrderState (S (loads st)) (fitted st) (queried st) (scored st)
  | Fit => OrderState (loads st) (fun m => fitted st m \/ receiver c = Some m) false false
  | Query => OrderState (loads st) (fitted st) true (scored st)
  | Metric => OrderState (loads st) (fitted st) (queried st) true
  | _ => st
  end.

Definition order_monitor : @monitor obj := Monitor order_allows order_after.
Definition order_start : order_state := OrderState 0 (fun _ => False) false false.

(** ** What the classifiers are fitted on *)

(** The calls through which the boosting notebook splits the data and
    builds, fits, queries and scores classifiers: every function and class
    of scikit-learn, and the methods of the estimators. *)
Definition learning (t : target) : bool :=
  match t with
  | Func sklearn _ => true
  | Method n => mem n ["fit"; "predict"; "predict_proba"; "staged_score"; "staged_predict"]
  | _ => false
  end.

(** The members of a list or tuple value. *)
Definition items (v : val) : option (list val) :=
  match v with
  | VList l | VTuple l => Some l
  | _ => None
  end.

(** The monitor that keeps a journal of the calls that [keep] selects:
    each one that succeeds is written down with what it returned. *)
Definition journal_after (keep : target -> bool) (st : list (call * val))
  (c : call) (v : val) : list (call * val) :=
  if keep (callee c) then st ++ [(c, v)] else st.

Definition journal_monitor (keep : target -> bool) : @monitor obj :=
  Monitor (fun _ _ => True) (journal_after keep).

(** ** External resources *)

(** Calls that name something outside of the kernel's memory: the cells that
    the front end runs or renders, ctapipe's file access, torchvision's
    dataset classes. *)
Definition consumes (t : target) : bool :=
  match t with
  | Magic n => (n =? "%%javascript") || (n =? "%%HTML") || (n =? "markdown")
  | Func ctapipe _ => true
  | Func torchvision n => String.prefix "datasets." n
  | _ => false
  end.

(** (a) the simulation data files of the boosting notebook *)
Definition simulation_data (paths : val -> Prop) (c : call) : Prop :=
  (exists name,
     In name ["gamma_diffuse_dl2_train_small.dl2.h5"; "proton_dl2_train_small.dl2.h5"] /\
     c = Invoke (Func ctapipe "get_dataset_path") [VStr name] [])
  \/ (exists path kw, c = Invoke (Func ctapipe "TableLoader") [path] kw /\ paths path).

(** (b) the image datasets of the torch notebook *)
Definition image_dataset (c : call) : Prop :=
  exists name train transform,
    In name ["MNIST"; "CIFAR10"] /\
    c = Invoke (Func torchvision ("datasets." ++ name)) []
          [("root", VStr "data"); ("train", VBool train);
           ("transform", transform); ("download", VBool true)].

(** (c) what the front end loads: the script and the video of the code
    cells, the images of the markdown cells *)
Definition front_end_resource (c : call) : Prop :=
  c = Invoke (Magic "%%javascript") [VStr "$.getScript"; VStr toc_script] []
  \/ c = Invoke (Magic "%%HTML") [VStr "video"; VStr "./resources/fact_events.mp4"] []
  \/ (exists src,
        In src [cta_telescopes; cta_shower; hess_sky] /\
        c = Invoke (Magic "markdown") [VStr "img"; VStr src] []).

(** The import of one of the libraries. *)
Definition imports (c : call) : bool :=
  match callee c, args c with
  | Func builtins name, [VStr module; VList _] =>
      (name =? "__import__") && mem module libraries
  | _, _ => false
  end.

(** One of the operations on objects in memory. *)
Definition operation (t : target) : bool := existsb (target_eqb t) operations.

Definition resource_allows (paths : val -> Prop) (c : call) : Prop :=
  if consumes (callee c)
  then simulation_data paths c \/ image_dataset c \/ front_end_resource c
  else (operation (callee c) || imports c) = true.

Definition resource_after (paths : val -> Prop) (c : call) (v : val) : val -> Prop :=
  match callee c with
  | Func ctapipe n =>
      if n =? "get_dataset_path" then (fun p => paths p \/ p = v) else paths
  | _ => paths
  end.

Definition resource_monitor : @monitor obj := Monitor resource_allows resource_after.

End Disciplines.

(** ** Reading the disciplines off a trace *)

Section TraceReadings.
Context {obj : Type}.

(** The event is a successful call in role [r]. *)
Definition succeeded (r : role) (ev : event obj) : Prop :=
  role_of (callee (fst ev)) = r /\ exists v, snd ev = Ok v.

(** A call in role [r] has succeeded, and no [fit] since. *)
Definition since_last_fit (r : role) (pre : trace obj) : Prop :=
  exists pre1 ev pre2,
    pre = pre1 ++ ev :: pre2 /\ succeeded r ev /\
    forall ev', In ev' pre2 -> ~ succeeded Fit ev'.

Definition is_load (ev : event obj) : bool :=
  match role_of (callee (fst ev)), snd ev with
  | Load, Ok _ => true
  | _, _ => false
  end.

(** What the order of the boosting notebook asks of a call [c] that comes
    after the events [pre]. *)
Definition in_order (pre : trace obj) (c : call obj) : Prop :=
  match role_of (callee c) with
  | Fit => (2 <= List.length (filter is_load pre))%nat
  | Query =>
      exists m, receiver c = Some m /\
        exists c' v, In (c', Ok v) pre /\
          role_of (callee c') = Fit /\ receiver c' = Some m
  | Metric => since_last_fit Query pre
  | Scatter => since_last_fit Metric pre
  | _ => True
  end.

(** What a call may consume, after the events [pre]: a simulation data file
    whose path [get_dataset_path] has returned, an image dataset, or one of
    the two front-end resources. *)
Definition dataset_paths (pre : trace obj) (p : val obj) : Prop :=
  exists c, In (c, Ok p) pre /\ callee c = Func ctapipe "get_dataset_path".

Definition known_resource (pre : trace obj) (c : call obj) : Prop :=
  simulation_data (dataset_paths pre) c \/ image_dataset c \/ front_end_resource c.

(** A call that consumes nothing from outside: the import of a library, or
    an operation on objects in memory. *)
Definition internal (c : call obj) : Prop :=
  consumes (callee c) = false /\ (operation (callee c) || imports c) = true.

(** The journal of a run: those of its calls that [keep] selects and that
    succeeded, in order, each with what it returned. *)
Fixpoint journal (keep : target -> bool) (tr : trace obj)
  : list (call obj * val obj) :=
  match tr with
  | [] => []
  | (c, Ok v) :: tr' =>
      if keep (callee c) then (c, v) :: journal keep tr' else journal keep tr'
  | (_, Err _) :: tr' => journal keep tr'
  end.

(** What the libraries answered to the learning calls of the boosting
    notebook, under the names the notebook gives these answers.  For one
    classifier: *)
Record classifier := Classifier {
  clf : val obj;                   (* the constructor *)
  fit_result : val obj;            (* clf.fit(X_train, y_train) *)
  y_prediction : val obj;          (* clf.predict(X_test) *)
  y_prediction_proba : val obj;    (* clf.predict_proba(X_test) *)
  positive : val obj;              (* y_prediction_proba[:, 1], not a learning call *)
  positive_again : val obj;
  acc : val obj;                   (* accuracy_score(...) *)
  auc : val obj;                   (* roc_auc_score(...) *)
  roc : val obj                    (* roc_curve(...) *)
}.

(** and for the notebook: *)
Record answers := Answers {
  whole_X : val obj;               (* X = pd.concat([gammas, protons]) *)
  whole_y : val obj;               (* y = np.concatenate(...) *)
  parts : val obj;                 (* train_test_split(X, y) *)
  X_test : val obj;                (* X_test, X_train, y_test, y_train = parts *)
  X_train : val obj;
  y_test : val obj;
  y_train : val obj;
  tree : classifier;               (* DecisionTreeClassifier(max_depth=15, ...) *)
  tree_cv : val obj;               (* DecisionTreeClassifier(max_depth=12, ...) *)
  results : val obj;               (* cross_validate(rf, X, y, ...) *)
  base : val obj;                  (* DecisionTreeClassifier(max_depth=2) *)
  ada : classifier;                (* AdaBoostClassifier(base_estimator=..., ...) *)
  staged_scores : val obj;         (* ada.staged_score(X_test, y_test) *)
  grb : classifier;                (* GradientBoostingClassifier(...) *)
  staged : val obj;                (* grb.staged_predict(X_test) *)
  staged_predictions : list (val obj);   (* the members of the latter *)
  accuracies : list (val obj);     (* accuracy_score(y_pred, y_test) of each *)
  forest : classifier              (* RandomForestClassifier(...) *)
}.

Definition sk (name : string) (a : list (val obj)) (kw : list (string * val obj))
  : call obj :=
  Invoke (Func sklearn name) a kw.

Definition ask (estimator : val obj) (name : string) (a : list (val obj)) : call obj :=
  Invoke (Method name) (estimator :: a) [].

(** [train_test_split(X, y)]: no sizes are given. *)
Definition split_call (X y : val obj) : call obj := sk "train_test_split" [X; y] [].

(** [clf.fit(X_train, y_train)], [clf.predict(X_test)],
    [clf.predict_proba(X_test)] *)
Definition fit_and_predict_entries (a : answers) (k : classifier)
  : list (call obj * val obj) :=
  [ (ask (clf k) "fit" [X_train a; y_train a], fit_result k);
    (ask (clf k) "predict" [X_test a], y_prediction k);
    (ask (clf k) "predict_proba" [X_test a], y_prediction_proba k) ].

(** [accuracy_score(y_test, y_prediction)],
    [roc_auc_score(y_test, y_prediction_proba[:, 1])],
    [roc_curve(y_test, y_prediction_proba[:, 1])] *)
Definition metrics_entries (a : answers) (k : classifier)
  : list (call obj * val obj) :=
  [ (sk "accuracy_score" [y_test a; y_prediction k] [], acc k);
    (sk "roc_auc_score" [y_test a; positive k] [], auc k);
    (sk "roc_curve" [y_test a; positive_again k] [], roc k) ].

(** [accuracy_score(y_pred, y_test)] for each staged prediction *)
Definition staged_entries (a : answers) : list (call obj * val obj) :=
  map (fun '(y_pred, score) => (sk "accuracy_score" [y_pred; y_test a] [], score))
      (combine (staged_predictions a) (accuracies a)).

(** The journal that the boosting notebook leaves, cell by cell. *)
Definition boosting_journal (a : answers) : list (call obj * val obj) :=
  [ (split_call (whole_X a) (whole_y a), parts a) ]
  (* the decision tree *)
  ++ [ (sk "DecisionTreeClassifier" []
          [("max_depth", VInt 15); ("criterion", VStr "entropy")], clf (tree a)) ]
  ++ fit_and_predict_entries a (tree a)
  ++ metrics_entries a (tree a)
  (* the cross-validated decision tree *)
  ++ [ (sk "DecisionTreeClassifier" []
          [("max_depth", VInt 12); ("criterion", VStr "entropy")], tree_cv a);
       (sk "cross_validate" [tree_cv a; whole_X a; whole_y a]
          [("cv", VInt 5);
           ("scoring", VDict [("acc", VStr "accuracy"); ("auc", VStr "roc_auc");
                              ("recall", VStr "recall")]);
           ("return_train_score", VBool true)], results a) ]
  (* AdaBoost *)
  ++ [ (sk "DecisionTreeClassifier" [] [("max_depth", VInt 2)], base a);
       (sk "AdaBoostClassifier" []
          [("base_estimator", base a); ("n_estimators", VInt 100);
           ("learning_rate", VFloat (1 # 2))], clf (ada a)) ]
  ++ fit_and_predict_entries a (ada a)
  ++ [ (ask (clf (ada a)) "staged_score" [X_test a; y_test a], staged_scores a) ]
  ++ metrics_entries a (ada a)
  (* gradient boosting *)
  ++ [ (sk "GradientBoostingClassifier" []
          [("verbose", VBool true); ("n_estimators", VInt 300)], clf (grb a)) ]
  ++ fit_and_predict_entries a (grb a)
  ++ [ (ask (clf (grb a)) "staged_predict" [X_test a], staged a) ]
  ++ staged_entries a
  ++ metrics_entries a (grb a)
  (* the random forest *)
  ++ [ (sk "RandomForestClassifier" []
          [("n_estimators", VInt 150); ("max_depth", VInt 18);
           ("criterion", VStr "entropy")], clf (forest a)) ]
  ++ fit_and_predict_entries a (forest a)
  ++ metrics_entries a (forest a).

(** The names are bound as the notebook unpacks them: when the split is a
    list or a tuple, [X_test] is its first member, [X_train] its second,
    [y_test] its third and [y_train] its fourth; and the staged predictions
    are the members of what [staged_predict] returned, one accuracy each. *)
Definition unpacked (a : answers) : Prop :=
  (forall l, items (parts a) = Some l -> l = [X_test a; X_train a; y_test a; y_train a])
  /\ (forall l, items (staged a) = Some l -> l = staged_predictions a)
  /\ List.length (accuracies a) = List.length (staged_predictions a).

End TraceReadings.

(** ** What the notebooks' own functions do with the libraries *)

(** The calls of one optimisation step. *)
Definition optimisation (t : target) : bool :=
  match t with
  | Method n => (n =? "zero_grad") || (n =? "backward") || (n =? "step")
  | _ => false
  end.

Definition one_step : list target :=
  [Method "zero_grad"; Method "backward"; Method "step"].

(** A successful call and its answer. *)
Definition answered {obj} (t : target) (a : list (val obj)) (v : val obj) : event obj :=
  (Invoke t a [], Ok v).

(** Objects of the symbolic model for the examples. *)
Definition a_frame : val sym := VObj (Sym (Func pandas "DataFrame") 0 100).
Definition a_loader : val sym := VObj (Sym (Func torch "utils.data.DataLoader") 0 100).
Definition a_network : val sym := VObj (Sym (Func torch "nn.Module") 1 100).
Definition a_loss : val sym := VObj (Sym (Func torch "nn.CrossEntropyLoss") 2 100).
Definition an_optimizer : val sym := VObj (Sym (Func torch "optim.AdamW") 3 100).

(** A program that never makes more than one library call: a library
    operation under another name. *)
Definition single_library_call {obj A} (f : prog obj A) : Prop :=
  forall S (h : call obj -> S -> result (val obj) * S) s,
    (List.length (trace_of h f s) <= 1)%nat.

(** A program that leaves the optimisation steps to the libraries. *)
Definition leaves_training_to_libraries {obj A} (f : prog obj A) : Prop :=
  forall S (h : call obj -> S -> result (val obj) * S) s,
    filter optimisation (callees (trace_of h f s)) = [].

(** Constructors of network layers. *)
Definition layer (t : target) : bool :=
  match t with
  | Func torch n => String.prefix "nn." n && negb (n =? "nn.Module.__init__")
  | _ => false
  end.

(** *** What [train] and [ConvolutionalNetwork] ask of the libraries *)

Section OwnFunctions.
Context {obj : Type}.
Local Abbreviation val := (val obj).

(** A [for] loop or an unpacking over [v] applies [iter] when [v] is an
    object, and goes through the members of what this call answered; the
    members of a list or a tuple are taken as they are. *)
Definition iter_events (v answer : val) : trace obj :=
  match v with
  | VObj _ => [answered (Func builtins "iter") [v] answer]
  | _ => []
  end.

Definition members (v answer : val) : option (list val) :=
  match v with
  | VObj _ => items answer
  | _ => items v
  end.

(** What the libraries answered during one pass of the loop of [train]. *)
Record batch := Batch {
  yielded : val;                (* the item of the loader *)
  unpacking : val;              (* iter(item), when the item is an object *)
  inputs : val;                 (* X, y = item *)
  targets : val;
  inputs_on_device : val;       (* X.to(device) *)
  targets_on_device : val;      (* y.to(device) *)
  prediction : val;             (* model(X) *)
  loss : val;                   (* loss_fn(pred, y) *)
  zeroed : val;                 (* optimizer.zero_grad() *)
  propagated : val;             (* loss.backward() *)
  updated : val;                (* optimizer.step() *)
  loss_value : val              (* loss.item() *)
}.

(** The calls of one pass, in the order of the source. *)
Definition batch_events (model loss_fn optimizer device : val) (b : batch)
  : trace obj :=
  iter_events (yielded b) (unpacking b)
  ++ [ answered (Method "to") [inputs b; device] (inputs_on_device b);
       answered (Method "to") [targets b; device] (targets_on_device b);
       answered (Method "__call__") [model; inputs_on_device b] (prediction b);
       answered (Method "__call__") [loss_fn; prediction b; targets_on_device b] (loss b);
       answered (Method "zero_grad") [optimizer] (zeroed b);
       answered (Method "backward") [loss b] (propagated b);
       answered (Method "step") [optimizer] (updated b);
       answered (Method "item") [loss b] (loss_value b) ].

(** The calls of [train]: [model.to(device)], [model.train()], then one
    pass for each batch. *)
Definition train_events (dataloader model loss_fn optimizer device : val)
  (moved mode iterator : val) (batches : list batch) : trace obj :=
  [ answered (Method "to") [model; device] moved;
    answered (Method "train") [moved] mode ]
  ++ iter_events dataloader iterator
  ++ List.concat (map (batch_events moved loss_fn optimizer device) batches).

(** Each item of the loader unpacks to the inputs and the targets. *)
Definition unpacks (b : batch) : Prop :=
  members (yielded b) (unpacking b) = Some [inputs b; targets b].

(** A layer that a constructor of [torch.nn] returned. *)
Definition made (layer : string) (a : list val) (kw : list (string * val)) (v : val)
  : event obj :=
  (Invoke (Func torch ("nn." ++ layer)) a kw, Ok v).

(** The six layers of one stack of convolutions, *)
Record conv_stack_layers := ConvStack {
  conv_a : val; conv_b : val; norm : val; relu : val; pool : val; thinned : val
}.

Definition stack_layers (k : conv_stack_layers) : list val :=
  [conv_a k; conv_b k; norm k; relu k; pool k; thinned k].

Definition stack_events (c_in c_out : Z) (k : conv_stack_layers) : trace obj :=
  [ made "Conv2d" [VInt c_in; VInt c_out]
      [("kernel_size", VTuple [VInt 3; VInt 3]); ("padding", VStr "same")] (conv_a k);
    made "Conv2d" [VInt c_out; VInt c_out]
      [("kernel_size", VTuple [VInt 3; VInt 3]); ("padding", VStr "same")] (conv_b k);
    made "BatchNorm2d" [VInt c_out] [] (norm k);
    made "LeakyReLU" [] [] (relu k);
    made "MaxPool2d" [] [("kernel_size", VInt 2); ("stride", VInt 2)] (pool k);
    made "Dropout" [VFloat (1 # 4)] [] (thinned k) ].

(** and all that [ConvolutionalNetwork.__init__] is answered. *)
Record network := Network {
  initialised : val;            (* super().__init__() *)
  stack1 : conv_stack_layers;
  stack2 : conv_stack_layers;
  stack3 : conv_stack_layers;
  net_conv_stack : val;         (* nn.Sequential of the eighteen *)
  stored_conv_stack : val;      (* self.conv_stack = ... *)
  net_flatten : val;            (* nn.Flatten() *)
  stored_flatten : val;
  linear1 : val;                (* nn.Linear(128 * 4 * 4, 128) *)
  dropout1 : val;
  leaky : val;
  linear2 : val;                (* nn.Linear(128, 10) *)
  softmax : val;
  net_linear_relu_stack : val;  (* nn.Sequential of the five *)
  stored_linear_relu_stack : val
}.

Definition stored (self : val) (name : string) (v answer : val) : event obj :=
  answered (Method "__setattr__") [self; VStr name; v] answer.

Definition ConvolutionalNetwork_init_events (self : val) (n : network) : trace obj :=
  [ answered (Func torch "nn.Module.__init__") [self] (initialised n) ]
  ++ stack_events 3 32 (stack1 n)
  ++ stack_events 32 64 (stack2 n)
  ++ stack_events 64 128 (stack3 n)
  ++ [ made "Sequential"
         (stack_layers (stack1 n) ++ stack_layers (stack2 n) ++ stack_layers (stack3 n))
         [] (net_conv_stack n);
       stored self "conv_stack" (net_conv_stack n) (stored_conv_stack n);
       made "Flatten" [] [] (net_flatten n);
       stored self "flatten" (net_flatten n) (stored_flatten n);
       made "Linear" [VInt 2048; VInt 128] [] (linear1 n);
       made "Dropout" [VFloat (1 # 4)] [] (dropout1 n);
       made "LeakyReLU" [] [] (leaky n);
       made "Linear" [VInt 128; VInt 10] [] (linear2 n);
       made "Softmax" [] [("dim", VInt 1)] (softmax n);
       made "Sequential" [linear1 n; dropout1 n; leaky n; linear2 n; softmax n] []
         (net_linear_relu_stack n);
       stored self "linear_relu_stack" (net_linear_relu_stack n)
         (stored_linear_relu_stack n) ].

(** The calls of [ConvolutionalNetwork.forward]. *)
Definition ConvolutionalNetwork_forward_events (self x : val)
  (conv_stack a flatten b linear_relu_stack out : val) : trace obj :=
  [ answered (Attr "conv_stack") [self] conv_stack;
    answered (Method "__call__") [conv_stack; x] a;
    answered (Attr "flatten") [self] flatten;
    answered (Method "__call__") [flatten; a] b;
    answered (Attr "linear_relu_stack") [self] linear_relu_stack;
    answered (Method "__call__") [linear_relu_stack; b] out ].

End OwnFunctions.

(** A property of calls that holds of the built-ins and operators that the
    runtime itself applies. *)
Section CallProperties.
Context {obj : Type}.
Variable P : call obj -> Prop.

Definition builtins_ok : Prop :=
  forall name a, In name ["iter"; "len"; "bool"; "format"] ->
    P (Invoke (Func builtins name) a []).
Definition operators_ok : Prop :=
  forall a, P (Invoke (Method "__add__") a []) /\
            P (Invoke (Method "__truediv__") a []).

End CallProperties.

(* ================================================================== *)
(** * Regular expressions, as far as the notebook uses them *)
(* ================================================================== *)

(** The pattern syntax of Python's [re] restricted to literals, [.], [^],
    [$], [|], [*], groups and negative lookahead [(?!...)], without flags:
    [.] matches any character but a newline, [^] only at the start of the
    string, [$] at its end or before a final newline. *)
Inductive regex :=
| Eps
| Chr (c : ascii)
| AnyChar
| Bol
| Eol
| Seq (r1 r2 : regex)
| Alt (r1 r2 : regex)
| Star (r : regex)
| NotAhead (r : regex).

Definition newline : ascii := ascii_of_nat 10.

(** [matches r start s k]: [r] matches a prefix of [s] ([start] tells
    whether [s] begins at the start of the subject) such that [k] accepts
    what is left. *)
Fixpoint matches (r : regex) (start : bool) (s : list ascii)
  (k : bool -> list ascii -> bool) {struct r} : bool :=
  match r with
  | Eps => k start s
  | Chr c =>
      match s with
      | x :: s' => Ascii.eqb x c && k false s'
      | [] => false
      end
  | AnyChar =>
      match s with
      | x :: s' => negb (Ascii.eqb x newline) && k false s'
      | [] => false
      end
  | Bol => start && k start s
  | Eol =>
      match s with
      | [] => k start s
      | [x] => Ascii.eqb x newline && k start s
      | _ => false
      end
  | Seq r1 r2 => matches r1 start s (fun b s' => matches r2 b s' k)
  | Alt r1 r2 => matches r1 start s k || matches r2 start s k
  | Star r1 =>
      (fix star (fuel : nat) (start : bool) (s : list ascii) {struct fuel} : bool :=
         k start s ||
         match fuel with
         | O => false
         | S fuel' =>
             matches r1 start s
               (fun b s' => (List.length s' <? List.length s)%nat && star fuel' b s')
         end) (List.length s) start s
  | NotAhead r1 => negb (matches r1 start s (fun _ _ => true)) && k start s
  end.

Definition anything (_ : bool) (_ : list ascii) : bool := true.

(** [re.match]: a match at the beginning of the string. *)
Definition re_match (r : regex) (s : string) : bool :=
  matches r true (list_ascii_of_string s) anything.

Fixpoint search_from (r : regex) (start : bool) (s : list ascii) : bool :=
  matches r start s anything ||
  match s with
  | [] => false
  | _ :: s' => search_from r false s'
  end.

(** [re.search]: a match anywhere in the string. *)
Definition re_search (r : regex) (s : string) : bool :=
  search_from r true (list_ascii_of_string s).

(** Parsing a pattern. *)
Definition special (c : ascii) : bool :=
  existsb (Ascii.eqb c)
    ["\"; "["; "]"; "{"; "}"; "+"; "?"; "*"; "("; ")"; "|"; "^"; "$"; "."]%char.

Fixpoint parse_alt (fuel : nat) (s : list ascii) : option (regex * list ascii) :=
  match fuel with
  | O => None
  | S fuel =>
      match parse_seq fuel s with
      | Some (r1, "|"%char :: s1) =>
          match parse_alt fuel s1 with
          | Some (r2, s2) => Some (Alt r1 r2, s2)
          | None => None
          end
      | other => other
      end
  end
with parse_seq (fuel : nat) (s : list ascii) : option (regex * list ascii) :=
  match fuel with
  | O => None
  | S fuel =>
      match s with
      | [] | ")"%char :: _ | "|"%char :: _ => Some (Eps, s)
      | _ =>
          match parse_atom fuel s with
          | Some (a, "*"%char :: s1) =>
              match parse_seq fuel s1 with
              | Some (r, s2) => Some (Seq (Star a) r, s2)
              | None => None
              end
          | Some (a, s1) =>
              match parse_seq fuel s1 with
              | Some (r, s2) => Some (Seq a r, s2)
              | None => None
              end
          | None => None
          end
      end
  end
with parse_atom (fuel : nat) (s : list ascii) : option (regex * list ascii) :=
  match fuel with
  | O => None
  | S fuel =>
      match s with
      | "^"%char :: s1 => Some (Bol, s1)
      | "$"%char :: s1 => Some (Eol, s1)
      | "."%char :: s1 => Some (AnyChar, s1)
      | "("%char :: "?"%char :: "!"%char :: s1 =>
          match parse_alt fuel s1 with
          | Some (r, ")"%char :: s2) => Some (NotAhead r, s2)
          | _ => None
          end
      | "("%char :: s1 =>
          match parse_alt fuel s1 with
          | Some (r, ")"%char :: s2) => Some (r, s2)
          | _ => None
          end
      | c :: s1 => if special c then None else Some (Chr c, s1)
      | [] => None
      end
  end.

(** [re.compile]; [None] for a pattern outside the fragment. *)
Definition re_compile (pattern : string) : option regex :=
  let s := list_ascii_of_string pattern in
  match parse_alt (2 * List.length s + 2) s with
  | Some (r, []) => Some r
  | _ => None
  end.

(** [re.match(pattern, s) is not None] and [re.search(pattern, s) is not
    None] for a pattern given as a string. *)
Definition matches_at_start (pattern s : string) : bool :=
  match re_compile pattern with
  | Some r => re_match r s
  | None => false
  end.

Definition matches_somewhere (pattern s : string) : bool :=
  match re_compile pattern with
  | Some r => re_search r s
  | None => false
  end.

(* ================================================================== *)
(** * A model of the pandas operations used by [preprocess] *)
(* ================================================================== *)

Inductive dtype :=
| float64 | int64 | complex128 | timedelta64
| bool_ | object_ | datetime64 | category.

(** The dtypes that [select_dtypes] and [describe] read as ['number']: the
    subtypes of [np.number], which are the integers, the floats, the complex
    numbers and, in numpy's hierarchy, [timedelta64]; [bool] is not one. *)
Definition is_number (d : dtype) : bool :=
  match d with
  | float64 | int64 | complex128 | timedelta64 => true
  | _ => false
  end.

(** An entry of a frame or of a series: a number (floats are taken as
    exact rationals), the square root of a rational (a standard
    deviation), a missing value ([NaN], [NaT], [None]), or a value that is
    not a number: a string, a boolean, a time or a duration in nanoseconds. *)
Inductive cell :=
| Num (q : Q)
| Root (q : Q)
| NaN
| Str (s : string)
| Flag (b : bool)
| Time (ns : Z).

Definition isna (c : cell) : bool :=
  match c with
  | NaN => true
  | _ => false
  end.

Record column := Column { label : string; dtype_of : dtype }.

(** A frame: its columns in order (labels may repeat) and its rows, each
    with one cell per column. *)
Record frame := Frame { columns : list column; rows : list (list cell) }.

Inductive pobj :=
| PFrame (f : frame)
| PIndex (labels : list string)                       (* df.columns *)
| PSeries (labels : list string) (values : list cell) (* a value per column *)
| PMask (labels : list string) (mask : list bool)     (* a boolean series *)
| PStats (labels : list string) (std : option (list cell))
                                                      (* df.describe() *)
| PLoc (labels : list string) (std : option (list cell)).
                                                      (* df.describe().loc *)

Definition KeyError (msg : string) : exn := Exn "KeyError" msg.
Definition IndexError (msg : string) : exn := Exn "IndexError" msg.

(** The entries of [xs] at the positions where [mask] holds. *)
Fixpoint select {A} (mask : list bool) (xs : list A) : list A :=
  match mask, xs with
  | true :: mask', x :: xs' => x :: select mask' xs'
  | false :: mask', _ :: xs' => select mask' xs'
  | _, _ => []
  end.

(** The columns for which [keep] holds, with their cells. *)
Definition select_columns (keep : column -> bool) (f : frame) : frame :=
  let mask := map keep (columns f) in
  Frame (select mask (columns f)) (map (select mask) (rows f)).

Definition labels_of (f : frame) : list string := map label (columns f).

(** The cells of the [j]-th column. *)
Definition column_cells (f : frame) (j : nat) : list cell :=
  map (fun row => nth j row NaN) (rows f).

Definition positions (f : frame) : list nat := seq 0 (List.length (columns f)).

(** [df.filter(regex=pattern)]: the columns whose label the pattern
    matches somewhere ([re.search]). *)
Definition filter_regex (r : regex) (f : frame) : frame :=
  select_columns (fun c => re_search r (label c)) f.

(** [df.select_dtypes(exclude=['number'])] *)
Definition exclude_number (f : frame) : frame :=
  select_columns (fun c => negb (is_number (dtype_of c))) f.

(** [df.drop(names, axis='columns')]: every column with one of the labels;
    a label that is not in the frame is a [KeyError]. *)
Definition drop (names : list string) (f : frame) : result frame :=
  if forallb (fun n => mem n (labels_of f)) names
  then Ok (select_columns (fun c => negb (mem (label c) names)) f)
  else Err (KeyError "not found in axis").

(** [df.count()]: the number of entries of each column that are not missing. *)
Definition count (f : frame) : list cell :=
  map (fun j =>
         Num (inject_Z (Z.of_nat
                (List.length (filter (fun c => negb (isna c)) (column_cells f j))))))
      (positions f).

(** The entries of a column that are not missing. *)
Definition present (cells : list cell) : list cell :=
  filter (fun c => negb (isna c)) cells.

(** The columns of a frame, each with its cells. *)
Definition column_data (f : frame) : list (column * list cell) :=
  combine (columns f) (map (column_cells f) (positions f)).

(** The values of a list of results, or the first exception among them. *)
Fixpoint collect {A} (rs : list (result A)) : result (list A) :=
  match rs with
  | [] => Ok []
  | Ok a :: rs' =>
      match collect rs' with
      | Ok l => Ok (a :: l)
      | Err e => Err e
      end
  | Err e :: _ => Err e
  end.

(** [x == 0] for an entry. *)
Definition is_zero (c : cell) : bool :=
  match c with
  | Num q | Root q => Qeq_bool q 0
  | Flag b => negb b
  | _ => false
  end.

(** [df.dropna()]: the rows without a missing entry. *)
Definition dropna (f : frame) : frame :=
  Frame (columns f) (filter (forallb (fun c => negb (isna c))) (rows f)).

Definition NotModelledP : exn := Exn "NotImplementedError" "operation not modelled".

(** [describe()] computes the summary of a column in double precision, with
    routines that differ between versions of pandas and numpy, and that
    refuse some columns (complex numbers, in recent versions).  The model
    takes this computation as a parameter: [spread d entries] is what the
    ['std'] row shows for a column of dtype [d] whose entries, the missing
    ones left out, are [entries], or the exception that is raised. *)
Section PandasModel.
Variable spread : dtype -> list cell -> result cell.

(** The ['std'] entry of a column: missing when the column has no entry. *)
Definition std (c : column) (cells : list cell) : result cell :=
  match present cells with
  | [] => Ok NaN
  | _ :: _ => spread (dtype_of c) (present cells)
  end.

(** [df.describe()], as far as [preprocess] reads it: the numeric columns
    and their ['std'] row (when there is no numeric column the table has no
    such row); a frame without columns cannot be described. *)
Definition describe (f : frame) : result pobj :=
  match columns f with
  | [] => Err (ValueError "Cannot describe a DataFrame without columns")
  | _ =>
      let numeric := select_columns (fun c => is_number (dtype_of c)) f in
      match columns numeric with
      | [] => Ok (PStats (labels_of f) None)
      | _ =>
          match collect (map (fun '(c, cells) => std c cells) (column_data numeric)) with
          | Ok sd => Ok (PStats (labels_of numeric) (Some sd))
          | Err e => Err e
          end
      end
  end.

Definition pandas_model (c : call pobj) (s : unit) : result (val pobj) * unit :=
  (match callee c, args c, kwargs c with
   | Method name, [VObj (PFrame f)], [(kw, VStr pattern)] =>
       if (name =? "filter") && (kw =? "regex") then
         match re_compile pattern with
         | Some r => Ok (VObj (PFrame (filter_regex r f)))
         | None => Err NotModelledP
         end
       else Err NotModelledP
   | Method name, [VObj (PFrame f)], [(kw, VList [VStr what])] =>
       if (name =? "select_dtypes") && (kw =? "exclude") && (what =? "number")
       then Ok (VObj (PFrame (exclude_number f)))
       else Err NotModelledP
   | Method name, [VObj (PFrame f); VObj (PIndex names)], [(kw, VStr axis)] =>
       if (name =? "drop") && (kw =? "axis") && (axis =? "columns") then
         match drop names f with
         | Ok f' => Ok (VObj (PFrame f'))
         | Err e => Err e
         end
       else Err NotModelledP
   | Method name, [VObj (PFrame f)], [] =>
       if name =? "count" then Ok (VObj (PSeries (labels_of f) (count f)))
       else if name =? "describe" then
         match describe f with
         | Ok d => Ok (VObj d)
         | Err e => Err e
         end
       else if name =? "dropna" then Ok (VObj (PFrame (dropna f)))
       else Err NotModelledP
   | Attr name, [VObj (PFrame f)], [] =>
       if name =? "columns" then Ok (VObj (PIndex (labels_of f)))
       else Err NotModelledP
   | Attr name, [VObj (PStats labels sd)], [] =>
       if name =? "columns" then Ok (VObj (PIndex labels))
       else if name =? "loc" then Ok (VObj (PLoc labels sd))
       else Err NotModelledP
   | Method name, [VObj (PLoc labels sd); VStr key], [] =>
       if (name =? "__getitem__") && (key =? "std") then
         match sd with
         | Some values => Ok (VObj (PSeries labels values))
         | None => Err (KeyError "std")
         end
       else Err NotModelledP
   | Method name, [VObj (PSeries labels values); VInt 0], [] =>
       if name =? "__eq__" then Ok (VObj (PMask labels (map is_zero values)))
       else Err NotModelledP
   | Method name, [VObj (PIndex labels); VObj (PMask _ mask)], [] =>
       if name =? "__getitem__" then
         if (List.length mask =? List.length labels)%nat
         then Ok (VObj (PIndex (select mask labels)))
         else Err (IndexError "boolean index did not match indexed array")
       else Err NotModelledP
   | _, _, _ => Err NotModelledP
   end, s).

End PandasModel.

(** One such computation, in exact arithmetic: the sample standard
    deviation (with [n - 1] in the denominator, missing for a single
    entry) of numbers and of durations, and a [TypeError] for complex
    numbers. *)
Definition numbers (cells : list cell) : list Q :=
  flat_map (fun c => match c with
                     | Num q => [q]
                     | Time ns => [inject_Z ns]
                     | _ => []
                     end) cells.

Definition Qsum (l : list Q) : Q := fold_right Qplus 0%Q l.

Definition variance (xs : list Q) : Q :=
  let n := List.length xs in
  let mean := (Qsum xs / inject_Z (Z.of_nat n))%Q in
  (Qsum (map (fun x => (x - mean) * (x - mean))%Q xs) / inject_Z (Z.of_nat (n - 1)))%Q.

Definition exact_spread (d : dtype) (entries : list cell) : result cell :=
  let xs := numbers entries in
  match d with
  | complex128 => Err (TypeError "a must be an array of real numbers")
  | timedelta64 =>
      if (List.length xs <? 2)%nat then Ok NaN
      else Ok (Time (Z.sqrt (Qfloor (variance xs))))
  | _ =>
      if (List.length xs <? 2)%nat then Ok NaN
      else Ok (Root (variance xs))
  end.

(** A small table of events:
    two numeric features, a text column, a constant column, a column that
    is all missing, and two columns of simulated truth. *)
Definition a_table : frame :=
  Frame
    [ Column "obs_id" int64; Column "true_energy" float64;
      Column "hillas_width" float64; Column "tel_type" object_;
      Column "x_true_y" float64; Column "n_tel" int64;
      Column "leakage" float64; Column "event_id" int64 ]
    [ [Num 1; Num (3 # 2); Num (1 # 10); Str "LST"; Num 2; Num 4; NaN; Num 7];
      [Num 1; Num (5 # 2); NaN;          Str "LST"; Num 3; Num 4; NaN; Num 8];
      [Num 1; Num (7 # 2); Num (3 # 10); Str "MST"; Num 5; Num 4; NaN; Num 9] ].

(** What is read off a frame. *)
Definition has_missing (f : frame) : Prop :=
  exists row c, In row (rows f) /\ In c row /\ isna c = true.

Definition all_numeric (f : frame) : Prop :=
  forall c, In c (columns f) -> is_number (dtype_of c) = true.

(** [pandas.api.types.is_numeric_dtype]: integers, floats, complex numbers
    and booleans are numeric for pandas; durations and times are not. *)
Definition is_numeric_dtype (d : dtype) : bool :=
  match d with
  | float64 | int64 | complex128 | bool_ => true
  | _ => false
  end.

(** A label that the pattern [forbidden_columns] matches (as [re.match]
    does: at the beginning of the label). *)
Definition forbidden (name : string) : bool :=
  matches_at_start forbidden_columns name.

Definition has_forbidden_column (f : frame) : Prop :=
  exists c, In c (columns f) /\ forbidden (label c) = true.

(* ================================================================== *)
(** * Threads and processes *)
(* ================================================================== *)

(** A call of the notebooks' vocabulary: its callee is one of the
    operations listed above, or names one of the resources, or is the
    import of one of the libraries; and its keywords are among those
    listed.  Nothing in these lists starts a thread, a process or a task,
    runs a shell or evaluates code given as text, and no keyword asks a
    library for workers ([num_workers], [n_jobs]). *)
Definition resource_callees : list target :=
  [ Magic "%%javascript"; Magic "%%HTML";
    Func ctapipe "get_dataset_path"; Func ctapipe "TableLoader";
    Func torchvision "datasets.MNIST"; Func torchvision "datasets.CIFAR10" ].

Definition ordinary {obj} (c : call obj) : bool :=
  (existsb (target_eqb (callee c)) (operations ++ resource_callees) || imports c)
  && forallb (fun k => mem (fst k) keywords) (kwargs c).

(** A trace in which the calls are made one at a time: each call is answered
    by the libraries in the state that the call before it left, and the
    next call is made only then; [s'] is the state after the last. *)
Fixpoint one_at_a_time {obj S} (h : call obj -> S -> result (val obj) * S)
  (s : S) (tr : trace obj) (s' : S) : Prop :=
  match tr with
  | [] => s' = s
  | (c, r) :: tr' => r = fst (h c s) /\ one_at_a_time h (snd (h c s)) tr' s'
  end.

(* ================================================================== *)
(** * Further readings of the boosting notebook *)
(* ================================================================== *)

(** The pattern that matches the characters of [p], one after the other. *)
Fixpoint literal (p : list ascii) : regex :=
  match p with
  | [] => Eps
  | c :: p' => Seq (Chr c) (literal p')
  end.

(** [s.startswith(p)] on lists of characters. *)
Fixpoint starts_with (p s : list ascii) : bool :=
  match p, s with
  | [], _ => true
  | c :: p', x :: s' => Ascii.eqb x c && starts_with p' s'
  | _ :: _, [] => false
  end.

(** A name without a line break, but possibly for one at its very end. *)
Fixpoint one_line (s : list ascii) : bool :=
  match s with
  | [] => true
  | x :: s' =>
      match s' with
      | [] => true
      | _ :: _ => negb (Ascii.eqb x newline) && one_line s'
      end
  end.

(** The names that [forbidden_columns] is meant to exclude. *)
Definition simulated_or_id (name : string) : bool :=
  String.prefix "true_" name || String.prefix "obs_id" name
  || String.prefix "event_id" name.

(** One truth value per column of [f], read off the column and its cells. *)
Definition col_mask (g : column -> list cell -> bool) (f : frame) : list bool :=
  map (fun '(c, cells) => g c cells) (column_data f).

(** The labels of the columns of [f] that satisfy [g]. *)
Definition names_where (g : column -> list cell -> bool) (f : frame) : list string :=
  select (col_mask g f) (labels_of f).

(** [df.count() == 0] for one column. *)
Definition no_entry (_ : column) (cells : list cell) : bool :=
  is_zero (Num (inject_Z (Z.of_nat (List.length (present cells))))).

Section CleaningCells.
Context {obj : Type}.
Local Abbreviation val := (val obj).
Local Abbreviation prog := (prog obj).

(** The cells in which the boosting notebook cleans [gammas] step by step,
    before it defines [preprocess]:
    [gammas = gammas.filter(regex=f'^(?!{forbidden_columns}).*$')],
    [len(gammas.columns)], the three cells
    [c = ...; print('Removed columns:', c.values); gammas = gammas.drop(c, axis='columns')]
    for the columns that are not numbers, that have no spread and that have
    no entry, and [print(len(gammas)); gammas = gammas.dropna(); print(len(gammas))]. *)
Definition cleaning_cells (gammas : val) : prog val :=
  gammas <- method_kw gammas "filter" [] [("regex", VStr allowed_columns_regex)] ;;
  c <- attr gammas "columns" ;;
  _ <- py_len c ;;

  nonnum <- method_kw gammas "select_dtypes" [] [("exclude", VList [VStr "number"])] ;;
  c <- attr nonnum "columns" ;;
  _ <- print_removed c ;;
  gammas <- drop_columns gammas c ;;

  desc <- method gammas "describe" [] ;;

  dcols <- attr desc "columns" ;;
  loc <- attr desc "loc" ;;
  std <- method loc "__getitem__" [VStr "std"] ;;
  mask <- method std "__eq__" [VInt 0] ;;
  c <- method dcols "__getitem__" [mask] ;;
  _ <- print_removed c ;;
  gammas <- drop_columns gammas c ;;

  cols <- attr gammas "columns" ;;
  cnt <- method gammas "count" [] ;;
  mask <- method cnt "__eq__" [VInt 0] ;;
  c <- method cols "__getitem__" [mask] ;;
  _ <- print_removed c ;;
  gammas <- drop_columns gammas c ;;

  n <- py_len gammas ;;
  _ <- print [n] ;;
  gammas <- method gammas "dropna" [] ;;
  n <- py_len gammas ;;
  _ <- print [n] ;;
  Ret gammas.

End CleaningCells.

Section Session.
Variable spread : dtype -> list cell -> result cell.

(** [df.describe().loc['std'] == 0] for one column that [describe] can
    summarise. *)
Definition no_spread (c : column) (cells : list cell) : bool :=
  match std spread c cells with
  | Ok v => is_zero v
  | Err _ => false
  end.

(** The pandas model with what the cells use besides: [print], [len] of a
    frame and of an index, and [Index.values]. *)
Definition pandas_session (c : call pobj) (s : unit) : result (val pobj) * unit :=
  match callee c, args c with
  | Func builtins name, a =>
      if name =? "print" then (Ok VNone, s)
      else if name =? "len" then
        match a with
        | [VObj (PFrame f)] => (Ok (VInt (Z.of_nat (List.length (rows f)))), s)
        | [VObj (PIndex l)] => (Ok (VInt (Z.of_nat (List.length l))), s)
        | _ => (Err NotModelledP, s)
        end
      else (Err NotModelledP, s)
  | Attr name, [VObj (PIndex l)] =>
      if name =? "values" then (Ok (VList (map VStr l)), s)
      else (Err NotModelledP, s)
  | _, _ => pandas_model spread c s
  end.

End Session.

(** [f] without the columns that carry one of the labels [names]. *)
Definition without (names : list string) (f : frame) : frame :=
  select_columns (fun c => negb (mem (label c) names)) f.

(** The columns that pass the name filter and are numbers. *)
Definition numeric_part (r : regex) (f : frame) : frame :=
  without (labels_of (exclude_number (filter_regex r f))) (filter_regex r f).

(** The columns of [f] that the cleaning cells describe: those that pass
    the name filter and are numbers. *)
Definition summarised (f : frame) : frame :=
  match re_compile allowed_columns_regex with
  | Some r => numeric_part r f
  | None => f
  end.

(** The columns of [f] that [preprocess] describes: those that pass the
    name filter, are numbers, and have an entry. *)
Definition described (f : frame) : frame :=
  without (names_where no_entry (summarised f)) (summarised f).

(** What [describe] raises for a frame: the first exception among the
    summaries of its columns, if there is one. *)
Definition refused (spread : dtype -> list cell -> result cell) (f : frame)
  : option exn :=
  match collect (map (fun '(c, cells) => std spread c cells) (column_data f)) with
  | Ok _ => None
  | Err e => Some e
  end.

(* ================================================================== *)
(** * Further readings of the torch notebook *)
(* ================================================================== *)

(** The functions of the torch notebook that evaluate a network. *)
Inductive evaluation {obj : Type} : forall A, prog obj A -> Prop :=
| eval_test dataloader model loss_fn device :
    evaluation (test dataloader model loss_fn device)
| eval_accuracy dataloader model device :
    evaluation (accuracy dataloader model device)
| eval_predictions dataloader model device :
    evaluation (predictions dataloader model device)
| eval_report_accuracy DEVICE test_dataloader train_dataloader model :
    evaluation (report_accuracy DEVICE test_dataloader train_dataloader model).

(** ** Gradient mode *)

(** Where a run stands with respect to [torch.no_grad()]: outside of such a
    block, with the context manager made but not entered, or inside, with
    the network put in evaluation mode there or not. *)
Inductive grad_state := Outside | Made | Inside (evaluating : bool).

Inductive grad_role := GMake | GEnter | GExit | GEval | GTrain | GForward | GOther.

Definition grad_role_of (t : target) : grad_role :=
  match t with
  | Func torch name => if name =? "no_grad" then GMake else GOther
  | Method name =>
      if name =? "__enter__" then GEnter
      else if name =? "__exit__" then GExit
      else if name =? "eval" then GEval
      else if name =? "train" then GTrain
      else if name =? "__call__" then GForward
      else GOther
  | _ => GOther
  end.

Definition grad_after (st : grad_state) (r : grad_role) : grad_state :=
  match r, st with
  | GMake, Outside => Made
  | GEnter, Made => Inside false
  | GExit, _ => Outside
  | GEval, Inside _ => Inside true
  | GTrain, Inside _ => Inside false
  | _, _ => st
  end.

(** A forward pass ([model(X)], [loss_fn(pred, y)]) is allowed inside a
    [no_grad] block in which the network was put in evaluation mode. *)
Definition grad_monitor {obj} : @monitor obj :=
  Monitor
    (fun st c => grad_role_of (callee c) = GForward -> st = Inside true)
    (fun st c _ => grad_after st (grad_role_of (callee c))).

(** The gradient mode after the events [pre] of a run that started outside
    of any [no_grad] block. *)
Definition grad_mode {obj} (pre : trace obj) : grad_state :=
  state_after grad_monitor Outside pre.

(* ================================================================== *)
(** * A model of the shapes that the layers of [torch.nn] accept *)
(* ================================================================== *)

(** The layers the notebook's networks are made of, with the arguments
    that decide which shapes they accept and return ([Pointwise]: ReLU,
    LeakyReLU and Dropout, which keep the shape they are given). *)
Inductive layer_spec :=
| Conv2d (c_in c_out kh kw : Z) (same : bool)
| BatchNorm2d (features : Z)
| BatchNorm1d (features : Z)
| Pointwise
| Softmax (dim : Z)
| MaxPool2d (kernel stride : Z)
| Flatten
| Linear (n_in n_out : Z)
| Sequential (layers : list layer_spec).

Definition AttributeError (msg : string) : exn := Exn "AttributeError" msg.
Definition ShapeError (msg : string) : exn := Exn "RuntimeError" msg.

Definition product (dims : list Z) : Z := fold_right Z.mul 1%Z dims.

(** The size of one spatial dimension after a convolution without padding
    or a pooling: [floor((size - kernel) / stride) + 1]. *)
Definition window (size kernel stride : Z) : Z :=
  ((size - kernel) / stride + 1)%Z.

(** Batch normalisation in training mode needs more than one value per
    channel. *)
Definition SingleValue : exn :=
  ValueError "Expected more than 1 value per channel when training".

(** The shape a layer returns for an input of shape [dims], or the error
    it raises.  Images are batches [N; C; H; W].  Shapes only: the values a
    layer computes are not modelled.  The layers are in training mode, as
    they are when they have just been made. *)
Fixpoint forward_shape (l : layer_spec) (dims : list Z) : result (list Z) :=
  match l with
  | Conv2d c_in c_out kh kw same =>
      match dims with
      | [n; c; h; w] =>
          if negb (c =? c_in)%Z
          then Err (ShapeError "Conv2d: the input has another number of channels")
          else if same then Ok [n; c_out; h; w]
          else if (h <? kh)%Z || (w <? kw)%Z
          then Err (ShapeError "Conv2d: the kernel is larger than the input")
          else Ok [n; c_out; window h kh 1; window w kw 1]
      | _ => Err (ShapeError "Conv2d: expected a batch of images")
      end
  | BatchNorm2d features =>
      match dims with
      | [n; c; h; w] =>
          if (n * h * w =? 1)%Z then Err SingleValue
          else if (c =? features)%Z then Ok dims
          else Err (ShapeError "BatchNorm2d: running_mean has another number of elements")
      | _ => Err (ValueError "BatchNorm2d: expected 4D input")
      end
  | BatchNorm1d features =>
      match dims with
      | [n; c] =>
          if (n =? 1)%Z then Err SingleValue
          else if (c =? features)%Z then Ok dims
          else Err (ShapeError "BatchNorm1d: running_mean has another number of elements")
      | [n; c; l] =>
          if (n * l =? 1)%Z then Err SingleValue
          else if (c =? features)%Z then Ok dims
          else Err (ShapeError "BatchNorm1d: running_mean has another number of elements")
      | _ => Err (ValueError "BatchNorm1d: expected 2D or 3D input")
      end
  | Pointwise => Ok dims
  | Softmax dim =>
      let rank := Z.of_nat (List.length dims) in
      if ((- rank <=? dim) && (dim <? rank))%Z then Ok dims
      else Err (IndexError "Softmax: dimension out of range")
  | MaxPool2d kernel stride =>
      match dims with
      | [n; c; h; w] =>
          if (h <? kernel)%Z || (w <? kernel)%Z
          then Err (ShapeError "MaxPool2d: output size is too small")
          else Ok [n; c; window h kernel stride; window w kernel stride]
      | _ => Err (ShapeError "MaxPool2d: expected a batch of images")
      end
  | Flatten =>
      match dims with
      | n :: d :: rest => Ok [n; product (d :: rest)]
      | _ => Err (IndexError "Flatten: dimension out of range")
      end
  | Linear n_in n_out =>
      match rev dims with
      | last :: front =>
          if (last =? n_in)%Z then Ok (rev front ++ [n_out])
          else Err (ShapeError "Linear: mat1 and mat2 shapes cannot be multiplied")
      | [] => Err (ShapeError "Linear: expected at least one dimension")
      end
  | Sequential layers =>
      (fix through (ls : list layer_spec) (dims : list Z) : result (list Z) :=
         match ls with
         | [] => Ok dims
         | l' :: ls' =>
             match forward_shape l' dims with
             | Ok dims' => through ls' dims'
             | Err e => Err e
             end
         end) layers dims
  end.

(** Objects: a layer, a tensor of some shape, the [torch.Size] of a
    tensor, an instance of one of the notebook's classes.  The state holds the attributes that have been set
    on the instances. *)
Inductive sobj :=
| SLayer (l : layer_spec)
| SShape (dims : list Z)
| SSize (dims : list Z)
| SModule (id : nat).

Record shape_state := ShapeState {
  next_id : nat;
  attributes : list (nat * string * layer_spec)
}.

Definition no_modules : shape_state := ShapeState 0 [].

Fixpoint attribute (id : nat) (name : string) (a : list (nat * string * layer_spec))
  : option layer_spec :=
  match a with
  | [] => None
  | (id', name', l) :: a' =>
      if (id' =? id)%nat && (name' =? name) then Some l else attribute id name a'
  end.

Fixpoint keyword (name : string) (kw : list (string * val sobj)) : option (val sobj) :=
  match kw with
  | [] => None
  | (name', v) :: kw' => if name' =? name then Some v else keyword name kw'
  end.

Fixpoint layers_of (a : list (val sobj)) : option (list layer_spec) :=
  match a with
  | [] => Some []
  | VObj (SLayer l) :: a' => option_map (cons l) (layers_of a')
  | _ => None
  end.

Definition NotALayer : exn := Exn "NotImplementedError" "operation not modelled".

(** A layer cannot be made with a negative size, nor a dropout with a
    probability outside of [0, 1]. *)
Definition NegativeSize : exn :=
  ShapeError "Trying to create tensor with negative dimension".
Definition NoProbability : exn :=
  ValueError "dropout probability has to be between 0 and 1".

Definition sized (sizes : list Z) (l : layer_spec) : result layer_spec :=
  if forallb (fun n => (0 <=? n)%Z) sizes then Ok l else Err NegativeSize.

Definition probability (p : Q) : bool := Qle_bool 0 p && Qle_bool p 1.

(** The layer that [nn.Name(a..., kw...)] makes. *)
Definition make_layer (name : string) (a : list (val sobj))
  (kw : list (string * val sobj)) : result layer_spec :=
  if name =? "nn.Conv2d" then
    match a, keyword "kernel_size" kw with
    | [VInt c_in; VInt c_out], Some (VTuple [VInt kh; VInt kw']) =>
        match keyword "padding" kw with
        | Some (VStr p) =>
            if p =? "same" then sized [c_in; c_out; kh; kw'] (Conv2d c_in c_out kh kw' true)
            else Err NotALayer
        | None => sized [c_in; c_out; kh; kw'] (Conv2d c_in c_out kh kw' false)
        | _ => Err NotALayer
        end
    | _, _ => Err NotALayer
    end
  else if name =? "nn.BatchNorm2d" then
    match a with [VInt c] => sized [c] (BatchNorm2d c) | _ => Err NotALayer end
  else if name =? "nn.BatchNorm1d" then
    match a with [VInt c] => sized [c] (BatchNorm1d c) | _ => Err NotALayer end
  else if (name =? "nn.ReLU") || (name =? "nn.LeakyReLU") then
    match a with [] => Ok Pointwise | _ => Err NotALayer end
  else if name =? "nn.Dropout" then
    match a with
    | [VFloat p] => if probability p then Ok Pointwise else Err NoProbability
    | [VInt p] => if probability (inject_Z p) then Ok Pointwise else Err NoProbability
    | _ => Err NotALayer
    end
  else if name =? "nn.Softmax" then
    match a, keyword "dim" kw with
    | [], Some (VInt d) => Ok (Softmax d)
    | _, _ => Err NotALayer
    end
  else if name =? "nn.MaxPool2d" then
    match a, keyword "kernel_size" kw, keyword "stride" kw with
    | [], Some (VInt k), Some (VInt s) => Ok (MaxPool2d k s)
    | _, _, _ => Err NotALayer
    end
  else if name =? "nn.Flatten" then
    match a with [] => Ok Flatten | _ => Err NotALayer end
  else if name =? "nn.Linear" then
    match a with [VInt i; VInt o] => sized [i; o] (Linear i o) | _ => Err NotALayer end
  else if name =? "nn.Sequential" then
    match layers_of a with
    | Some ls => Ok (Sequential ls)
    | None => Err NotALayer
    end
  else Err NotALayer.

Definition shape_model (c : call sobj) (s : shape_state)
  : result (val sobj) * shape_state :=
  match callee c, args c with
  | Func builtins name, [VRef _] =>
      if name =? "object.__new__"
      then (Ok (VObj (SModule (next_id s))),
            ShapeState (S (next_id s)) (attributes s))
      else (Err NotALayer, s)
  | Func torch name, a =>
      if name =? "nn.Module.__init__" then
        match a with
        | [VObj (SModule _)] => (Ok VNone, s)
        | _ => (Err NotALayer, s)
        end
      else
        match make_layer name a (kwargs c) with
        | Ok l => (Ok (VObj (SLayer l)), s)
        | Err e => (Err e, s)
        end
  | Method name, [VObj (SModule id); VStr attr; VObj (SLayer l)] =>
      if name =? "__setattr__"
      then (Ok VNone, ShapeState (next_id s) ((id, attr, l) :: attributes s))
      else (Err NotALayer, s)
  | Attr name, [VObj (SModule id)] =>
      match attribute id name (attributes s) with
      | Some l => (Ok (VObj (SLayer l)), s)
      | None => (Err (AttributeError name), s)
      end
  | Method name, [VObj (SLayer l); VObj (SShape dims)] =>
      if name =? "__call__" then
        match forward_shape l dims with
        | Ok dims' => (Ok (VObj (SShape dims')), s)
        | Err e => (Err e, s)
        end
      else (Err NotALayer, s)
  | Method name, [VObj (SShape dims); VInt i] =>
      (* X[i] for 0 <= i: the i-th member of the batch *)
      if name =? "__getitem__" then
        match dims with
        | n :: sample =>
            if ((0 <=? i) && (i <? n))%Z then (Ok (VObj (SShape sample)), s)
            else if (i <? 0)%Z then (Err NotALayer, s)
            else (Err (IndexError "index is out of bounds for dimension 0"), s)
        | [] => (Err (IndexError "invalid index of a 0-dim tensor"), s)
        end
      else (Err NotALayer, s)
  | Attr name, [VObj (SShape dims)] =>
      if name =? "shape" then (Ok (VObj (SSize dims)), s) else (Err NotALayer, s)
  | Method name, [VObj (SSize dims)] =>
      if name =? "numel" then (Ok (VInt (product dims)), s) else (Err NotALayer, s)
  | _, _ => (Err NotALayer, s)
  end.

(** A network of the notebook is made and then applied to a batch of shape
    [dims]: [model = Class(...); model(X)], where [model(X)] runs the
    class's [forward]. *)
Definition make_and_apply {obj} (make : prog obj (val obj))
  (forward : val obj -> val obj -> prog obj (val obj)) (X : val obj)
  : prog obj (val obj) :=
  model <- make ;;
  forward model X.

Definition shape (dims : list Z) : val sobj := VObj (SShape dims).

(** The notebook sizes its fully connected network to the data,
    [model = FullyConnected(input_size=X[0].shape.numel(), n_classes=...)],
    and applies it to batches of the same data. *)
Definition sized_to_the_data {obj} (n_classes dropout n_hidden X : val obj)
  : prog obj (val obj) :=
  input_size <- sample_size X ;;
  make_and_apply (FullyConnected input_size n_classes dropout n_hidden)
    FullyConnected_forward X.

(* ================================================================== *)
(** * Counting the passes of a training run *)
(* ================================================================== *)

(** How often a run has put a network in training mode
    ([model.train()]), opened a [torch.no_grad()] block, and taken an
    optimizer step ([optimizer.step()]). *)
Record tally := Tally { trained : nat; evaluated : nat; stepped : nat }.

Inductive tally_role := CountTrain | CountBlock | CountStep | CountOther.

Definition tally_role_of (t : target) : tally_role :=
  match t with
  | Method name =>
      if name =? "train" then CountTrain
      else if name =? "step" then CountStep
      else CountOther
  | Func torch name => if name =? "no_grad" then CountBlock else CountOther
  | _ => CountOther
  end.

Definition counted (r : tally_role) (st : tally) : tally :=
  match r with
  | CountTrain => Tally (S (trained st)) (evaluated st) (stepped st)
  | CountBlock => Tally (trained st) (S (evaluated st)) (stepped st)
  | CountStep => Tally (trained st) (evaluated st) (S (stepped st))
  | CountOther => st
  end.

Definition tally_monitor {obj} : @monitor obj :=
  Monitor (fun _ _ => True) (fun st c _ => counted (tally_role_of (callee c)) st).

(** The tally of the successful calls of a trace. *)
Definition tally_of {obj} (tr : trace obj) : tally :=
  state_after tally_monitor (Tally 0 0 0) tr.

Definition more (t e s : nat) (st : tally) : tally :=
  Tally (trained st + t) (evaluated st + e) (stepped st + s).

(** The number of losses recorded in a list of per-epoch lists. *)
Fixpoint recorded {obj} (epochs : list (val obj)) : nat :=
  match epochs with
  | [] => 0
  | VList losses :: rest => List.length losses + recorded rest
  | _ :: rest => recorded rest
  end.

(* ================================================================== *)
(** * Properties *)
(* ================================================================== *)

(** ** Running sequenced programs *)

Section RunFacts.
Context {obj S : Type}.
Variable h : call obj -> S -> result (val obj) * S.

Lemma run_bind A B (p : prog obj A) (g : A -> prog obj B) s :
  run h (bind p g) s =
  match run h p s with
  | (Ok a, s1, tr) => let '(o, s2, tr') := run h (g a) s1 in (o, s2, tr ++ tr')
  | (Err e, s1, tr) => (Err e, s1, tr)
  end.
Proof.
  revert B g s.
  induction p as [A a | A e | A c k IH | A C cm body IHb k IH | A C body IHb hd IHh k IH];
    intros B g s; cbn [bind run].
  - destruct (run h (g a) s) as [[o s2] tr]. reflexivity.
  - reflexivity.
  - destruct (h c s) as [[v | e] s1]; [|reflexivity].
    rewrite IH. destruct (run h (k v) s1) as [[[a | e] s2] tr]; [|reflexivity].
    destruct (run h (g a) s2) as [[o s3] tr']. reflexivity.
  - destruct (h (enter_call cm) s) as [[v | e] s1]; [|reflexivity].
    destruct (run h body s1) as [[[b | e] s2] trb].
    + destruct (h (exit_call cm VNone) s2) as [[v' | e] s3]; [|reflexivity].
      rewrite IH. destruct (run h (k b) s3) as [[[a | e] s4] tr]; [|reflexivity].
      destruct (run h (g a) s4) as [[o s5] tr'].
      cbn. rewrite <- app_assoc. reflexivity.
    + destruct (h (exit_call cm (VExn e)) s2) as [[v' | e'] s3]; reflexivity.
  - destruct (run h body s) as [[[b | e] s1] trb].
    + rewrite IH. destruct (run h (k b) s1) as [[[a | e] s2] tr]; [|reflexivity].
      destruct (run h (g a) s2) as [[o s3] tr'].
      rewrite <- app_assoc. reflexivity.
    + destruct (run h (hd e) s1) as [[[b | e'] s2] trh]; [|reflexivity].
      rewrite IH. destruct (run h (k b) s2) as [[[a | e'] s3] tr]; [|reflexivity].
      destruct (run h (g a) s3) as [[o s4] tr'].
      rewrite <- !app_assoc. reflexivity.
Qed.

Lemma outcome_bind A B (p : prog obj A) (g : A -> prog obj B) s :
  outcome h (bind p g) s =
  match outcome h p s with
  | Ok a => outcome h (g a) (final_state h p s)
  | Err e => Err e
  end.
Proof.
  unfold outcome, final_state. rewrite run_bind.
  destruct (run h p s) as [[[a | e] s1] tr]; [|reflexivity].
  cbn. destruct (run h (g a) s1) as [[o s2] tr']. reflexivity.
Qed.

End RunFacts.

(** ** [accuracy] and [predictions] on the torch model *)

Lemma agreements_app (p1 p2 t1 t2 : list Z) :
  List.length p1 = List.length t1 ->
  agreements (p1 ++ p2) (t1 ++ t2) = (agreements p1 t1 + agreements p2 t2)%nat.
Proof.
  unfold agreements. revert t1.
  induction p1 as [|a p1 IH]; intros [|b t1] Hlen; try discriminate; [reflexivity|].
  cbn [app combine filter]. injection Hlen as Hlen.
  destruct (a =? b)%Z; cbn [List.length]; rewrite IH by assumption; reflexivity.
Qed.

Lemma agreements_le (p t : list Z) : (agreements p t <= List.length t)%nat.
Proof.
  unfold agreements.
  etransitivity; [apply filter_length_le|].
  rewrite length_combine. apply Nat.le_min_r.
Qed.

(** *** Sums of zeros and ones in single precision *)

Lemma float32_small (n : Z) : (0 <= n <= 2 ^ 24)%Z -> float32 n = n.
Proof.
  intros Hn. unfold float32.
  destruct (Z.leb_spec (Z.abs n) (2 ^ 24)) as [_ | Hbig]; [reflexivity | lia].
Qed.

Lemma held_at_app bs ps qs : held_at bs (ps ++ qs) = (held_at bs ps + held_at bs qs)%nat.
Proof. unfold held_at. rewrite filter_app, length_app. reflexivity. Qed.

Lemma held_at_le bs ps : (held_at bs ps <= List.length ps)%nat.
Proof. apply filter_length_le. Qed.

Lemma held_at_permutation bs ps qs :
  Permutation.Permutation ps qs -> held_at bs ps = held_at bs qs.
Proof.
  unfold held_at. induction 1 as [| i ps qs _ IH | i j ps | ps qs ks _ IH1 _ IH2].
  - reflexivity.
  - cbn [filter]. destruct (nth i bs false); cbn [List.length]; rewrite IH; reflexivity.
  - cbn [filter]. destruct (nth i bs false), (nth j bs false); reflexivity.
  - rewrite IH1. exact IH2.
Qed.

Lemma filter_shift (b : bool) bs (l : list nat) :
  filter (fun i => nth i (b :: bs) false) (map S l)
  = map S (filter (fun i => nth i bs false) l).
Proof.
  induction l as [| i l IH]; [reflexivity|].
  cbn [map filter]. change (nth (S i) (b :: bs) false) with (nth i bs false).
  destruct (nth i bs false); cbn [map]; rewrite IH; reflexivity.
Qed.

Lemma held_at_all bs :
  held_at bs (seq 0 (List.length bs)) = List.length (filter (fun b => b) bs).
Proof.
  unfold held_at. induction bs as [| b bs IH]; [reflexivity|].
  cbn [List.length seq]. rewrite <- seq_shift.
  cbn [filter]. change (nth 0 (b :: bs) false) with b. rewrite filter_shift.
  destruct b; cbn [List.length]; rewrite length_map, IH; reflexivity.
Qed.

(** As long as no partial sum can exceed [2^24], a plan adds up exactly. *)
Lemma add_up_exact (bs : list bool) (p : plan) :
  NoDup (entries p) ->
  (forall i, In i (entries p) -> (i < List.length bs)%nat) ->
  (Z.of_nat (List.length bs) <= 2 ^ 24)%Z ->
  add_up (map bool_to_float bs) p = Z.of_nat (held_at bs (entries p)).
Proof.
  intros Hnd Hin Hsmall.
  assert (Hfew : forall q, NoDup (entries q) ->
                   (forall i, In i (entries q) -> (i < List.length bs)%nat) ->
                   (List.length (entries q) <= List.length bs)%nat).
  { intros q Hq Hi. rewrite <- (length_seq (List.length bs) 0).
    apply NoDup_incl_length; [exact Hq|].
    intros i Hi'. apply in_seq. specialize (Hi i Hi'). lia. }
  induction p as [| i | l IHl r IHr]; cbn [entries add_up] in *.
  - reflexivity.
  - unfold held_at. cbn [filter].
    change 0%Z with (bool_to_float false). rewrite map_nth.
    destruct (nth i bs false); reflexivity.
  - rewrite IHl, IHr;
      try (eapply NoDup_app_remove_l; eassumption);
      try (eapply NoDup_app_remove_r; eassumption);
      try (intros i Hi; apply Hin, in_or_app; auto).
    rewrite held_at_app, Nat2Z.inj_add. apply float32_small.
    specialize (Hfew (Plus l r) Hnd Hin). cbn [entries] in Hfew.
    pose proof (held_at_le bs (entries l)). pose proof (held_at_le bs (entries r)).
    rewrite length_app in Hfew. lia.
Qed.

Lemma entries_one_by_one n : entries (one_by_one n) = seq 0 n.
Proof.
  induction n as [| n IH]; [reflexivity|].
  cbn [one_by_one entries]. rewrite IH, seq_S. reflexivity.
Qed.

Lemma covers_permutation p n :
  covers p n = true -> Permutation.Permutation (seq 0 n) (entries p).
Proof.
  unfold covers. intros H. apply andb_prop in H as [Hlen Hall].
  apply Nat.eqb_eq in Hlen.
  apply Permutation.NoDup_Permutation_bis.
  - apply seq_NoDup.
  - rewrite length_seq. lia.
  - intros i Hi. rewrite forallb_forall in Hall. specialize (Hall i Hi).
    apply existsb_exists in Hall as (j & Hj & Heq).
    apply Nat.eqb_eq in Heq. subst j. exact Hj.
Qed.

(** In whatever order the entries are added: the sum of at most [2^24]
    zeros and ones in single precision is the number of ones. *)
Lemma float_sum_exact (order : nat -> plan) (bs : list bool) :
  (Z.of_nat (List.length bs) <= 2 ^ 24)%Z ->
  float_sum order (map bool_to_float bs)
  = Z.of_nat (List.length (filter (fun b => b) bs)).
Proof.
  intros Hsmall. unfold float_sum. rewrite length_map.
  set (n := List.length bs).
  assert (Hperm : Permutation.Permutation (seq 0 n)
            (entries (if covers (order n) n then order n else one_by_one n))).
  { destruct (covers (order n) n) eqn:Hc.
    - apply covers_permutation. exact Hc.
    - rewrite entries_one_by_one. apply Permutation.Permutation_refl. }
  rewrite add_up_exact.
  - rewrite <- (held_at_permutation bs Hperm). unfold n. rewrite held_at_all. reflexivity.
  - eapply Permutation.Permutation_NoDup; [exact Hperm | apply seq_NoDup].
  - intros i Hi. apply Permutation.Permutation_sym in Hperm.
    apply (Permutation.Permutation_in _ Hperm) in Hi. apply in_seq in Hi. fold n. lia.
  - exact Hsmall.
Qed.

Lemma float_sum_hits (order : nat -> plan) (a b : list Z) :
  (Z.of_nat (List.length (combine a b)) <= 2 ^ 24)%Z ->
  float_sum order (map bool_to_float (map (fun '(x, y) => (x =? y)%Z) (combine a b)))
  = Z.of_nat (agreements a b).
Proof.
  intros Hsmall. rewrite float_sum_exact by (rewrite length_map; exact Hsmall).
  unfold agreements. f_equal. clear Hsmall.
  induction (combine a b) as [| [x y] l IH]; [reflexivity|].
  cbn [map filter]. destruct (x =? y)%Z; cbn [List.length]; rewrite IH; reflexivity.
Qed.

Section AccuracyFacts.
Variable input : Type.
Variable classify : input -> list Z.
Variable order : nat -> plan.
Variable empty_cat : exn.
Local Abbreviation M := (torch_model classify order empty_cat).
Local Abbreviation val := (val (tobj input)).
Local Arguments float_sum : simpl never.

Lemma predicted_labels_length bs :
  well_shaped classify bs -> List.length (predicted classify bs) = List.length (labels bs).
Proof.
  unfold predicted, labels. induction bs as [|[x y] bs IH]; intros H; [reflexivity|].
  cbn [map List.concat fst snd]. rewrite !length_app, IH.
  - f_equal. apply H. left. reflexivity.
  - intros x' y' Hin. apply H. right. exact Hin.
Qed.

Lemma accuracy_loop (d : string) bs : forall (c : val) (t : Z),
  well_shaped classify bs -> countable bs -> number c ->
  exists c' tr,
    run M
      (for_each (map (@collate input) bs) (fun item '(correct, total) =>
        '(X, y) <- unpack2 item ;;
        X <- method X "to" [VStr d] ;;
        y <- method y "to" [VStr d] ;;
        pred <- apply (VObj TModule) [X] ;;
        n <- py_len y ;;
        total <- py_add total n ;;
        cls <- method pred "argmax" [VInt 1] ;;
        hit <- method cls "__eq__" [y] ;;
        hit <- method hit "type" [VRef "torch.float"] ;;
        hits <- method hit "sum" [] ;;
        hits <- method hits "item" [] ;;
        correct <- py_add correct hits ;;
        Ret (correct, total)) (c, VInt t)) tt
    = (Ok (c', VInt (t + Z.of_nat (List.length (labels bs)))), tt, tr)
    /\ number c'
    /\ value c' == value c + inject_Z (Z.of_nat (agreements (predicted classify bs) (labels bs)))
    /\ match bs with
       | [] => c' = c
       | _ :: _ => exists q, c' = VFloat q
       end.
Proof.
  induction bs as [|[x y] bs IH]; intros c t Hws Hsmall Hc.
  - exists c, []. cbn. rewrite Z.add_0_r. repeat split; [assumption|].
    unfold agreements. cbn. rewrite Qplus_0_r. reflexivity.
  - assert (Hlen : List.length (classify x) = List.length y)
      by (apply Hws; left; reflexivity).
    assert (Hws' : well_shaped classify bs)
      by (intros x' y' Hin; apply Hws; right; exact Hin).
    assert (Hsmall' : countable bs)
      by (intros x' y' Hin; apply (Hsmall x' y'); right; exact Hin).
    assert (Hy : (Z.of_nat (List.length y) <= 2 ^ 24)%Z)
      by (apply (Hsmall x y); left; reflexivity).
    cbn [map for_each]. rewrite run_bind.
    set (hits := float_sum order (map bool_to_float
                   (map (fun '(a, b) => (a =? b)%Z) (combine (classify x) y)))).
    assert (Hstep : exists tr,
      run M
        ('(X, y) <- unpack2 (collate (x, y)) ;;
         X <- method X "to" [VStr d] ;;
         y <- method y "to" [VStr d] ;;
         pred <- apply (VObj TModule) [X] ;;
         n <- py_len y ;;
         total <- py_add (VInt t) n ;;
         cls <- method pred "argmax" [VInt 1] ;;
         hit <- method cls "__eq__" [y] ;;
         hit <- method hit "type" [VRef "torch.float"] ;;
         hits <- method hit "sum" [] ;;
         hits <- method hits "item" [] ;;
         correct <- py_add c hits ;;
         Ret (correct, total)) tt
      = (Ok (VFloat (value c + inject_Z hits), VInt (t + Z.of_nat (List.length y))), tt, tr)).
    { cbn. unfold tensor_eq. rewrite Hlen, Nat.eqb_refl. cbn.
      destruct c; try contradiction; cbn; eexists; reflexivity. }
    destruct Hstep as [tr1 Hstep]. rewrite Hstep.
    destruct (IH (VFloat (value c + inject_Z hits)) (t + Z.of_nat (List.length y))%Z
                Hws' Hsmall' I)
      as (c' & tr2 & Hrun & Hnum & Hval & Hkind).
    rewrite Hrun. exists c', (tr1 ++ tr2).
    split; [|split; [|split]].
    + do 3 f_equal. unfold labels. cbn [map List.concat snd].
      rewrite length_app, Nat2Z.inj_add, Z.add_assoc. reflexivity.
    + exact Hnum.
    + rewrite Hval. cbn [value]. unfold predicted, labels.
      cbn [map List.concat fst snd]. rewrite agreements_app by exact Hlen.
      rewrite Nat2Z.inj_add, inject_Z_plus. unfold hits.
      rewrite float_sum_hits
        by (rewrite length_combine, Hlen, Nat.min_id; exact Hy).
      fold (predicted classify bs) (labels bs). ring.
    + destruct bs; [rewrite Hkind; eauto | exact Hkind].
Qed.

Lemma predictions_loop (d : string) bs : forall (ps ts : list val),
  exists tr,
    run M
      (for_each (map (@collate input) bs) (fun item '(predictions, truth) =>
        '(X, y) <- unpack2 item ;;
        X <- method X "to" [VStr d] ;;
        y <- method y "to" [VStr d] ;;
        pred <- apply (VObj TModule) [X] ;;
        cls <- method pred "argmax" [VInt 1] ;;
        Ret (predictions ++ [cls], truth ++ [y])) (ps, ts)) tt
    = (Ok (ps ++ map (fun b => VObj (TLong (classify (fst b)))) bs,
           ts ++ map (fun b => VObj (TLong (snd b))) bs), tt, tr).
Proof.
  induction bs as [|[x y] bs IH]; intros ps ts.
  - exists []. cbn. rewrite !app_nil_r. reflexivity.
  - cbn [map for_each]. rewrite run_bind. cbn.
    destruct (IH (ps ++ [VObj (TLong (classify x))]) (ts ++ [VObj (TLong y)]))
      as [tr Hrun].
    cbn in Hrun. rewrite Hrun. rewrite <- !app_assoc. eexists. reflexivity.
Qed.

Lemma cat_long_map (f : input * list Z -> list Z) bs :
  cat_long (map (fun b => VObj (@TLong input (f b))) bs) = Some (List.concat (map f bs)).
Proof.
  induction bs as [|b bs IH]; [reflexivity|].
  cbn [map cat_long List.concat]. rewrite IH. reflexivity.
Qed.

Lemma no_labels_countable (bs : list (input * list Z)) : labels bs = [] -> countable bs.
Proof.
  unfold labels. induction bs as [| [x y] bs IH]; intros H x' y' Hin; [destruct Hin|].
  cbn [map List.concat snd] in H. apply app_eq_nil in H as [-> H].
  destruct Hin as [Heq | Hin]; [injection Heq as _ <-; cbn; lia | exact (IH H x' y' Hin)].
Qed.

Lemma labels_nonempty (bs : list (input * list Z)) : (0 < List.length (labels bs))%nat -> bs <> [].
Proof. intros H ->. cbn in H. lia. Qed.

Lemma predictions_outcome (d : string) (bs : list (input * list Z)) :
  bs <> [] ->
  outcome M (predictions (VObj (TLoader bs)) (VObj TModule) (VStr d)) tt
  = Ok (VObj (TLong (predicted classify bs)), VObj (TLong (labels bs))).
Proof.
  intros Hne. unfold outcome, predictions, with_no_grad, for_in.
  cbn.
  destruct (predictions_loop d bs [] []) as [tr' Hp].
  cbn in Hp. rewrite Hp. cbn.
  pose proof (cat_long_map (fun b => classify (fst b)) bs) as H1.
  pose proof (cat_long_map snd bs) as H2.
  cbn beta in H1, H2. rewrite H1, H2.
  destruct bs as [|b bs]; [contradiction|]. reflexivity.
Qed.

Lemma accuracy_outcome (d : string) (bs : list (input * list Z)) :
  well_shaped classify bs -> countable bs ->
  (0 < List.length (labels bs))%nat ->
  exists acc : Q,
    outcome M (accuracy (VObj (TLoader bs)) (VObj TModule) (VStr d)) tt
      = Ok (VFloat acc) /\
    acc == inject_Z (Z.of_nat (agreements (predicted classify bs) (labels bs)))
           / inject_Z (Z.of_nat (List.length (labels bs))).
Proof.
  intros Hws Hsmall Hpos.
  destruct (@accuracy_loop d bs (VInt 0) 0%Z Hws Hsmall I)
    as (c' & tr & Hrun & Hnum & Hval & _).
  cbn [value] in Hval.
  exists (value c' / inject_Z (Z.of_nat (List.length (labels bs)))). split.
  - unfold outcome, accuracy, with_no_grad, for_in. cbn.
    cbn in Hrun. rewrite Hrun. cbn.
    assert (Hz : Q_is_zero (inject_Z (Z.of_nat (List.length (labels bs)))) = false)
      by (unfold Q_is_zero; cbn; apply Z.eqb_neq; lia).
    destruct c'; try contradiction; unfold py_truediv; rewrite Hz; reflexivity.
  - rewrite Hval, Qplus_0_l. reflexivity.
Qed.

End AccuracyFacts.

Lemma rate_bounds (a n : nat) (q : Q) :
  (a <= n)%nat -> (0 < n)%nat ->
  q == inject_Z (Z.of_nat a) / inject_Z (Z.of_nat n) -> 0 <= q <= 1.
Proof.
  intros Han Hn Hq. rewrite Hq.
  assert (Hpos : 0 < inject_Z (Z.of_nat n))
    by (rewrite <- (Zlt_Qlt 0); lia).
  split.
  - apply Qle_shift_div_l; [exact Hpos|]. rewrite Qmult_0_l.
    rewrite <- (Zle_Qle 0). lia.
  - apply Qle_shift_div_r; [exact Hpos|]. rewrite Qmult_1_l.
    rewrite <- Zle_Qle. lia.
Qed.




(** ** Monitors: soundness of [wp] *)

Section MonitorFacts.
Context {obj : Type}.
Variable M : @monitor obj.

Lemma accepts_app st tr1 tr2 :
  accepts M st (tr1 ++ tr2) <->
  accepts M st tr1 /\ accepts M (state_after M st tr1) tr2.
Proof.
  revert st. induction tr1 as [|ev tr1 IH]; intros st; cbn.
  - tauto.
  - rewrite IH. tauto.
Qed.

Lemma state_after_app st tr1 tr2 :
  state_after M st (tr1 ++ tr2) = state_after M (state_after M st tr1) tr2.
Proof.
  revert st. induction tr1 as [|ev tr1 IH]; intros st; cbn; [reflexivity|apply IH].
Qed.

Lemma wp_mono A (p : prog obj A) :
  forall st (Q Q' : mstate M -> A -> Prop) (E E' : mstate M -> Prop),
    (forall st a, Q st a -> Q' st a) -> (forall st, E st -> E' st) ->
    wp M p st Q E -> wp M p st Q' E'.
Proof.
  induction p as [A a | A e | A c k IH | A C cm body IHb k IH | A C body IHb hd IHh k IH];
    intros st Q Q' E E' HQ HE; cbn [wp].
  - apply HQ.
  - apply HE.
  - intros (Ha & He & Hk). repeat split; auto.
    intros v. eapply IH; eauto.
  - intros (Ha & He & Hb). repeat split; auto.
    intros v. eapply IHb; [| |apply Hb].
    + cbn beta. intros st1 b (Hx & He1 & Hk). repeat split; auto.
      intros v'. eapply IH; eauto.
    + cbn beta. intros st1 Hx e. destruct (Hx e) as (Hx1 & He1 & Hx2).
      repeat split; auto.
  - intros Hb. eapply IHb; [| |apply Hb].
    + cbn beta. intros st1 b Hk. eapply IH; eauto.
    + cbn beta. intros st1 Hh e. eapply IHh; [| |apply Hh]; auto.
      cbn beta. intros st2 b Hk. eapply IH; eauto.
Qed.

Lemma wp_bind A B (p : prog obj A) (g : A -> prog obj B) :
  forall st (Q : mstate M -> B -> Prop) (E : mstate M -> Prop),
    wp M p st (fun st' a => wp M (g a) st' Q E) E -> wp M (bind p g) st Q E.
Proof.
  induction p as [A a | A e | A c k IH | A C cm body IHb k IH | A C body IHb hd IHh k IH];
    intros st Q E; cbn [wp bind].
  - auto.
  - auto.
  - intros (Ha & He & Hk). repeat split; auto.
  - intros (Ha & He & Hb). repeat split; auto.
    intros v. eapply wp_mono; [| |apply Hb]; cbn beta.
    + intros st1 b (Hx & He1 & Hk). repeat split; auto.
    + auto.
  - intros Hb. eapply wp_mono; [| |apply Hb]; cbn beta.
    + intros st1 b Hk. apply IH. exact Hk.
    + intros st1 Hh e. eapply wp_mono; [| |apply Hh]; cbn beta; auto.
Qed.

Ltac trace_norm :=
  repeat (rewrite ?accepts_app, ?state_after_app;
          cbn [accepts state_after fst snd]; unfold step; cbn [fst snd]).

Theorem wp_sound {S : Type} (h : call obj -> S -> result (val obj) * S)
  A (p : prog obj A) :
  forall st (Q : mstate M -> A -> Prop) (E : mstate M -> Prop) s,
    wp M p st Q E ->
    accepts M st (trace_of h p s) /\
    match outcome h p s with
    | Ok a => Q (state_after M st (trace_of h p s)) a
    | Err _ => E (state_after M st (trace_of h p s))
    end.
Proof.
  unfold trace_of, outcome.
  induction p as [A a | A e | A c k IH | A C cm body IHb k IH | A C body IHb hd IHh k IH];
    intros st Q E s; cbn [wp run].
  - cbn. auto.
  - cbn. auto.
  - intros (Ha & He & Hk).
    destruct (h c s) as [[v | e] s1].
    + specialize (IH v _ Q E s1 (Hk v)).
      destruct (run h (k v) s1) as [[o s2] tr]. trace_norm. cbn [fst snd] in IH. tauto.
    + trace_norm. auto.
  - intros (Ha & He & Hb).
    destruct (h (enter_call cm) s) as [[v | e] s1]; [|trace_norm; auto].
    specialize (IHb _ _ _ s1 (Hb v)).
    destruct (run h body s1) as [[[b | e] s2] trb]; cbn [fst snd] in IHb.
    + destruct IHb as (Hacc & Hx & He1 & Hk).
      destruct (h (exit_call cm VNone) s2) as [[v' | e] s3].
      * specialize (IH b _ Q E s3 (Hk v')).
        destruct (run h (k b) s3) as [[o s4] tr]. cbn [fst snd] in IH.
        trace_norm. tauto.
      * trace_norm. tauto.
    + destruct IHb as (Hacc & Hx).
      destruct (Hx e) as (Hx1 & He1 & Hx2).
      destruct (h (exit_call cm (VExn e)) s2) as [[v' | e'] s3]; trace_norm.
      * split; [tauto|]. apply Hx2.
      * tauto.
  - intros Hb. specialize (IHb _ _ _ s Hb).
    destruct (run h body s) as [[[b | e] s1] trb]; cbn [fst snd] in IHb.
    + destruct IHb as (Hacc & Hk).
      specialize (IH b _ Q E s1 Hk).
      destruct (run h (k b) s1) as [[o s2] tr]. cbn [fst snd] in IH.
      trace_norm. tauto.
    + destruct IHb as (Hacc & Hh).
      specialize (IHh e _ _ _ s1 (Hh e)).
      destruct (run h (hd e) s1) as [[[b | e'] s2] trh]; cbn [fst snd] in IHh.
      * destruct IHh as (Hacch & Hk).
        specialize (IH b _ Q E s2 Hk).
        destruct (run h (k b) s2) as [[o s3] tr]. cbn [fst snd] in IH.
        trace_norm. tauto.
      * trace_norm. tauto.
Qed.

Lemma wp_ret A (a : A) st (Q : mstate M -> A -> Prop) (E : mstate M -> Prop) :
  Q st a -> wp M (Ret a) st Q E.
Proof. cbn [wp]. auto. Qed.

Lemma wp_call A (c : call obj) (k : val obj -> prog obj A) st
  (Q : mstate M -> A -> Prop) (E : mstate M -> Prop) :
  allows M st c -> E st -> (forall v, wp M (k v) (after M st c v) Q E) ->
  wp M (Call c k) st Q E.
Proof. cbn [wp]. auto. Qed.

Lemma wp_call_neutral A (c : call obj) (k : val obj -> prog obj A) st
  (Q : mstate M -> A -> Prop) (E : mstate M -> Prop) :
  neutral M c -> E st -> (forall v, wp M (k v) st Q E) ->
  wp M (Call c k) st Q E.
Proof.
  intros Hn HE Hk. destruct (Hn st) as [Ha Hs]. apply wp_call; auto.
  intros v. rewrite Hs. apply Hk.
Qed.

Lemma wp_for_each A (body : val obj -> A -> prog obj A)
  (Inv : mstate M -> A -> Prop) (Q : mstate M -> A -> Prop) (E : mstate M -> Prop) :
  (forall item st acc, Inv st acc -> wp M (body item acc) st Inv E) ->
  (forall st acc, Inv st acc -> Q st acc) ->
  forall l st acc, Inv st acc -> wp M (for_each l body acc) st Q E.
Proof.
  intros Hbody HQ. induction l as [|item l IH]; intros st acc Hinv; cbn [for_each].
  - cbn [wp]. auto.
  - apply wp_bind. eapply wp_mono; [| |apply Hbody; exact Hinv]; cbn beta; auto.
Qed.

(** [iterate v] yields the members of [v] when [v] is a list or a tuple. *)
Lemma wp_iterate (v : val obj) st
  (Q : mstate M -> list (val obj) -> Prop) (E : mstate M -> Prop) :
  (forall a kw, neutral M (Invoke (Func builtins "iter") a kw)) ->
  E st ->
  (forall l, (forall l', items v = Some l' -> l' = l) -> Q st l) ->
  wp M (iterate v) st Q E.
Proof.
  intros Hn HE HQ.
  destruct v; cbn [iterate wp]; auto;
    try (apply HQ; cbn [items]; intros l' H; congruence).
  unfold func, func_kw, invoke. cbn [bind].
  apply wp_call_neutral; auto.
  intros []; cbn [wp]; auto; apply HQ; cbn [items]; intros l' H; discriminate H.
Qed.

End MonitorFacts.

(** ** Exceptions raised by library calls *)

Section ExceptionFacts.
Context {obj S : Type}.
Variable h : call obj -> S -> result (val obj) * S.

Lemma catches_nothing_bind A B (p : prog obj A) (g : A -> prog obj B) :
  catches_nothing p -> (forall a, catches_nothing (g a)) ->
  catches_nothing (bind p g).
Proof.
  induction p as [A a | A e | A c k IH | A C cm body IHb k IH | A C body IHb hd IHh k IH];
    cbn [bind catches_nothing]; intros Hp Hg; auto; try contradiction.
  destruct Hp as [Hb Hk]. split; auto.
Qed.

Lemma catches_nothing_for_each A (items : list (val obj))
  (body : val obj -> A -> prog obj A) :
  (forall item acc, catches_nothing (body item acc)) ->
  forall acc, catches_nothing (for_each items body acc).
Proof.
  intros Hbody. induction items as [|item items IH]; intros acc; cbn [for_each].
  - exact I.
  - apply catches_nothing_bind; auto.
Qed.

Lemma catches_nothing_iterate (v : val obj) : catches_nothing (iterate v).
Proof. destruct v; cbn; auto. intros [] ; cbn; auto. Qed.

Lemma catches_nothing_for_in A (v : val obj) (body : val obj -> A -> prog obj A) acc :
  (forall item acc, catches_nothing (body item acc)) ->
  catches_nothing (for_in v body acc).
Proof.
  intros Hbody. apply catches_nothing_bind; [apply catches_nothing_iterate|].
  intros items. apply catches_nothing_for_each. exact Hbody.
Qed.

Lemma catches_nothing_unpack2 (v : val obj) : catches_nothing (unpack2 v).
Proof.
  apply catches_nothing_bind; [apply catches_nothing_iterate|].
  intros [|a [|b [|c l]]]; exact I.
Qed.

Lemma catches_nothing_py_len (v : val obj) : catches_nothing (py_len v).
Proof. destruct v; cbn; auto. Qed.

Lemma catches_nothing_py_add (a b : val obj) : catches_nothing (py_add a b).
Proof. destruct a, b; cbn; auto. Qed.

Lemma catches_nothing_py_truediv (a b : val obj) : catches_nothing (py_truediv a b).
Proof.
  destruct a, b; cbn; auto;
    match goal with |- context [Q_is_zero ?q] => destruct (Q_is_zero q) end; exact I.
Qed.

Lemma catches_nothing_format_value (v : val obj) spec :
  catches_nothing (format_value v spec).
Proof.
  destruct v, spec; cbn; auto; intros []; exact I.
Qed.

Lemma catches_nothing_fstring (parts : list (@fpart obj)) :
  catches_nothing (fstring parts).
Proof.
  induction parts as [|[s | v spec] parts IH]; cbn [fstring].
  - exact I.
  - apply catches_nothing_bind; [exact IH | intros; exact I].
  - apply catches_nothing_bind; [apply catches_nothing_format_value|].
    intros s. apply catches_nothing_bind; [exact IH | intros; exact I].
Qed.

End ExceptionFacts.

Create HintDb notebook discriminated.
#[local] Hint Unfold
  invoke func func_kw method method_kw attr apply getitem setitem print import_
  drop_columns with_no_grad plt nn javascript html line_magic set_attribute
  instantiate column_1 print_removed print_mean_std roc_label
  read_events preprocess feature_generation
  train test fit_one_epoch accuracy predictions report_accuracy
  plot_losses plot_losses_body conv_layers
  FullyConnected_8x8_init FullyConnected_8x8_forward
  FullyConnected_init FullyConnected_forward FullyConnected
  ConvolutionalNetwork_init ConvolutionalNetwork_forward ConvolutionalNetwork
  fit_and_predict metrics evaluation_cell training_cell dataset resize_to_tensor
  first_batch sample_size n_classes_of py_first unpack3 unpack4
  : notebook.

Ltac no_catch :=
  repeat (intros; lazymatch goal with
  | |- True => exact I
  | |- _ /\ _ => split
  | |- catches_nothing (bind _ _) => apply catches_nothing_bind
  | |- catches_nothing (for_in _ _ _) => apply catches_nothing_for_in
  | |- catches_nothing (for_each _ _ _) => apply catches_nothing_for_each
  | |- catches_nothing (iterate _) => apply catches_nothing_iterate
  | |- catches_nothing (unpack2 _) => apply catches_nothing_unpack2
  | |- catches_nothing (py_len _) => apply catches_nothing_py_len
  | |- catches_nothing (py_add _ _) => apply catches_nothing_py_add
  | |- catches_nothing (py_truediv _ _) => apply catches_nothing_py_truediv
  | |- catches_nothing (fstring _) => apply catches_nothing_fstring
  | |- catches_nothing (format_value _ _) => apply catches_nothing_format_value
  | |- catches_nothing (match ?x with _ => _ end) => destruct x
  | |- catches_nothing _ =>
      first [ progress cbn [catches_nothing] | progress autounfold with notebook ]
  end).

Lemma notebook_functions_catch_nothing {obj} A (p : prog obj A) :
  notebook_function p -> catches_nothing p.
Proof. intros H. destruct H; no_catch. Qed.

Section Propagation.
Context {obj S : Type}.
Variable h : call obj -> S -> result (val obj) * S.

Lemma exits_quietly_app (tr1 tr2 : trace obj) :
  exits_quietly (tr1 ++ tr2) <-> exits_quietly tr1 /\ exits_quietly tr2.
Proof.
  unfold exits_quietly. split.
  - intros H. split; intros cm e e' Hin; apply (H cm e e'); apply in_or_app; auto.
  - intros [H1 H2] cm e e' Hin. apply in_app_or in Hin as [Hin | Hin];
      [apply (H1 _ _ _ Hin) | apply (H2 _ _ _ Hin)].
Qed.

Lemma exits_quietly_cons (ev : event obj) (tr : trace obj) :
  exits_quietly (ev :: tr) -> exits_quietly tr.
Proof. intros H cm e e' Hin. apply (H cm e e'). right. exact Hin. Qed.

(** Without [try ... except], the exception of a failing library call is
    the outcome of the program. *)
Lemma uncaught_exceptions_propagate A (p : prog obj A) :
  catches_nothing p ->
  forall s e,
    exits_quietly (trace_of h p s) ->
    raised (trace_of h p s) e ->
    outcome h p s = Err e.
Proof.
  unfold trace_of, outcome, raised.
  induction p as [A a | A e0 | A c k IH | A C cm body IHb k IH | A C body IHb hd IHh k IH];
    cbn [catches_nothing run]; intros Hnc s e Hq [c0 Hin].
  - destruct Hin.
  - destruct Hin.
  - destruct (h c s) as [[v | e1] s1].
    + specialize (IH v (Hnc v) s1 e).
      destruct (run h (k v) s1) as [[o s2] tr]. cbn [fst snd] in *.
      apply IH; [eapply exits_quietly_cons; exact Hq|].
      destruct Hin as [Heq | Hin]; [discriminate Heq | eauto].
    + cbn [fst snd] in *. destruct Hin as [Heq | []]. congruence.
  - destruct Hnc as [Hb Hk].
    destruct (h (enter_call cm) s) as [[v | e1] s1].
    2:{ cbn [fst snd] in *. destruct Hin as [Heq | []]. congruence. }
    specialize (IHb Hb s1).
    destruct (run h body s1) as [[[b | e1] s2] trb]; cbn [fst snd] in IHb.
    + destruct (h (exit_call cm VNone) s2) as [[v' | e2] s3].
      * specialize (IH b (Hk b) s3 e).
        destruct (run h (k b) s3) as [[o s4] tr]. cbn [fst snd] in *.
        apply exits_quietly_cons in Hq.
        apply exits_quietly_app in Hq as [Hq1 Hq2].
        apply exits_quietly_cons in Hq2.
        destruct Hin as [Heq | Hin]; [discriminate Heq|].
        apply in_app_or in Hin as [Hin | [Heq | Hin]].
        -- specialize (IHb e Hq1 (ex_intro _ c0 Hin)). discriminate IHb.
        -- discriminate Heq.
        -- apply IH; eauto.
      * cbn [fst snd] in *.
        apply exits_quietly_cons in Hq.
        apply exits_quietly_app in Hq as [Hq1 Hq2].
        destruct Hin as [Heq | Hin]; [discriminate Heq|].
        apply in_app_or in Hin as [Hin | [Heq | []]].
        -- specialize (IHb e Hq1 (ex_intro _ c0 Hin)). discriminate IHb.
        -- congruence.
    + destruct (h (exit_call cm (VExn e1)) s2) as [[v' | e2] s3]; cbn [fst snd] in *.
      * pose proof Hq as Hq'. apply exits_quietly_cons in Hq'.
        apply exits_quietly_app in Hq' as [Hq1 Hq2].
        destruct Hin as [Heq | Hin]; [discriminate Heq|].
        apply in_app_or in Hin as [Hin | [Heq | []]].
        -- pose proof (IHb e Hq1 (ex_intro _ c0 Hin)) as Heq.
           injection Heq as ->. reflexivity.
        -- discriminate Heq.
      * exfalso. apply (Hq cm e1 e2). right. apply in_or_app. right. left. reflexivity.
  - contradiction.
Qed.

End Propagation.

(** C3.  For every function defined in the notebooks, an exception raised by
    a library call during its execution is the exception the function
    raises: nothing catches, replaces or retries it.  ([with torch.no_grad()]
    runs [__exit__] on the way out; the statement is for runs in which
    [__exit__] does not itself fail.) *)
Theorem library_exceptions_propagate
  (obj S : Type) (h : call obj -> S -> result (val obj) * S)
  (A : Type) (f : prog obj A) (s : S) (e : exn) :
  notebook_function f ->
  exits_quietly (trace_of h f s) ->
  raised (trace_of h f s) e ->
  outcome h f s = Err e.
Proof.
  intros Hf Hq Hr.
  apply uncaught_exceptions_propagate; auto.
  apply notebook_functions_catch_nothing. exact Hf.
Qed.

Lemma library_exceptions_propagate_witness :
  outcome (torch_model (fun x : list Z => x) one_by_one cat_of_nothing)
    (accuracy (VObj (TLoader [([1; 2; 3], [1; 0])]%Z)) (VObj TModule) (VStr "cpu")) tt
  = Err (RuntimeError "The size of tensor a must match the size of tensor b").
Proof.
  apply library_exceptions_propagate.
  - constructor.
  - intros cm e e' Hin. vm_compute in Hin.
    repeat (destruct Hin as [Hin | Hin]; [discriminate Hin|]). exact Hin.
  - exists (Invoke (Method "__eq__")
              [VObj (TLong [1; 2; 3]%Z); VObj (TLong [1; 0]%Z)] []).
    vm_compute. do 10 right. left. reflexivity.
Defined.

(** A missing data file: [TableLoader] raises, and so does [read_events]. *)
Example read_events_missing_file :
  outcome (failing (Func ctapipe "TableLoader") (Exn "FileNotFoundError" "gamma.h5"))
    (read_events (VStr "gamma.h5")) 0%nat
  = Err (Exn "FileNotFoundError" "gamma.h5").
Proof. reflexivity. Qed.

(** With a handler around a call, the same exception does not reach the
    caller: the property of C3 is one a program can fail to have. *)
Example a_try_swallows :
  outcome (failing (Func ctapipe "TableLoader") (Exn "FileNotFoundError" "gamma.h5"))
    (Try (read_events (VStr "gamma.h5")) (fun _ => Ret VNone) (fun v => Ret v)) 0%nat
  = Ok VNone.
Proof. reflexivity. Qed.

(** ** Programs whose calls all satisfy a property *)

Section AllCalls.
Context {obj : Type}.
Variable P : call obj -> Prop.

Lemma all_calls_bind A B (p : prog obj A) (g : A -> prog obj B) :
  all_calls P p -> (forall a, all_calls P (g a)) -> all_calls P (bind p g).
Proof.
  induction p as [A a | A e | A c k IH | A C cm body IHb k IH | A C body IHb hd IHh k IH];
    cbn [bind all_calls]; intros Hp Hg; auto.
  - destruct Hp as [Hc Hk]. split; auto.
  - destruct Hp as (H1 & H2 & H3 & H4 & H5). repeat split; auto.
  - destruct Hp as (H1 & H2 & H3). repeat split; auto.
Qed.

Lemma all_calls_for_each A (items : list (val obj))
  (body : val obj -> A -> prog obj A) :
  (forall item acc, all_calls P (body item acc)) ->
  forall acc, all_calls P (for_each items body acc).
Proof.
  intros Hbody. induction items as [|item items IH]; intros acc; cbn [for_each].
  - exact I.
  - apply all_calls_bind; auto.
Qed.

Hypothesis Hb : builtins_ok P.
Hypothesis Ho : operators_ok P.

Lemma all_calls_iterate (v : val obj) : all_calls P (iterate v).
Proof.
  destruct v; cbn; auto. split; [apply Hb; cbn; tauto|]. intros []; cbn; auto.
Qed.

Lemma all_calls_for_in A (v : val obj) (body : val obj -> A -> prog obj A) acc :
  (forall item acc, all_calls P (body item acc)) ->
  all_calls P (for_in v body acc).
Proof.
  intros Hbody. apply all_calls_bind; [apply all_calls_iterate|].
  intros l. apply all_calls_for_each. exact Hbody.
Qed.

Lemma all_calls_unpack2 (v : val obj) : all_calls P (unpack2 v).
Proof.
  apply all_calls_bind; [apply all_calls_iterate|].
  intros [|a [|b [|c l]]]; exact I.
Qed.

Lemma all_calls_unpack3 (v : val obj) : all_calls P (unpack3 v).
Proof.
  apply all_calls_bind; [apply all_calls_iterate|].
  intros [|a [|b [|c [|d l]]]]; exact I.
Qed.

Lemma all_calls_unpack4 (v : val obj) : all_calls P (unpack4 v).
Proof.
  apply all_calls_bind; [apply all_calls_iterate|].
  intros [|a [|b [|c [|d [|e l]]]]]; exact I.
Qed.

Lemma all_calls_py_first (v : val obj) : all_calls P (py_first v).
Proof.
  apply all_calls_bind; [apply all_calls_iterate|].
  intros [|a l]; exact I.
Qed.

Lemma all_calls_py_len (v : val obj) : all_calls P (py_len v).
Proof. destruct v; cbn; auto; split; auto; apply Hb; cbn; tauto. Qed.

Lemma all_calls_py_range (v : val obj) : all_calls P (py_range v).
Proof. destruct v; cbn; auto. Qed.

Lemma all_calls_py_bool (v : val obj) : all_calls P (py_bool v).
Proof.
  destruct v; cbn; auto; (split; [apply Hb; cbn; tauto|]); intros []; cbn; auto.
Qed.

Lemma all_calls_py_add (a b : val obj) : all_calls P (py_add a b).
Proof. destruct a, b; cbn; auto; (split; [apply Ho|]); auto. Qed.

Lemma all_calls_py_truediv (a b : val obj) : all_calls P (py_truediv a b).
Proof.
  destruct a, b; cbn; auto;
    try (match goal with |- context [Q_is_zero ?q] => destruct (Q_is_zero q) end; exact I);
    (split; [apply Ho|]); auto.
Qed.

Lemma all_calls_format_value (v : val obj) spec : all_calls P (format_value v spec).
Proof.
  destruct v, spec; cbn; auto; (split; [apply Hb; cbn; tauto|]); intros []; cbn; auto.
Qed.

Lemma all_calls_fstring (parts : list (@fpart obj)) : all_calls P (fstring parts).
Proof.
  induction parts as [|[s | v spec] parts IH]; cbn [fstring].
  - exact I.
  - apply all_calls_bind; [exact IH | intros; exact I].
  - apply all_calls_bind; [apply all_calls_format_value|].
    intros s. apply all_calls_bind; [exact IH | intros; exact I].
Qed.

End AllCalls.

Lemma all_calls_impl {obj A} (P P' : call obj -> Prop) (p : prog obj A) :
  (forall c, P c -> P' c) -> all_calls P p -> all_calls P' p.
Proof.
  intros HP.
  induction p as [A a | A e | A c k IH | A C cm body IHb k IH | A C body IHb hd IHh k IH];
    cbn [all_calls]; auto.
  - intros [Hc Hk]. split; auto.
  - intros (H1 & H2 & H3 & H4 & H5). repeat split; auto.
  - intros (H1 & H2 & H3). repeat split; auto.
Qed.

Lemma wp_neutral {obj} (M : @monitor obj) A (p : prog obj A) :
  all_calls (neutral M) p ->
  forall st (Q : mstate M -> A -> Prop) (E : mstate M -> Prop),
    E st -> (forall a, Q st a) -> wp M p st Q E.
Proof.
  induction p as [A a | A e | A c k IH | A C cm body IHb k IH | A C body IHb hd IHh k IH];
    cbn [all_calls wp]; intros Hp st Q E HE HQ; auto.
  - destruct Hp as [Hc Hk]. destruct (Hc st) as [Ha Hs].
    repeat split; auto. intros v. rewrite Hs. apply IH; auto.
  - destruct Hp as (H1 & H2 & H3 & H4 & H5).
    destruct (H1 st) as [Ha Hs]. repeat split; auto.
    intros v. rewrite Hs. apply IHb; [exact H4 | |].
    + intros e. destruct (H3 e st) as [Ha3 Hs3]. repeat split; auto.
      intros v'. rewrite Hs3. exact HE.
    + intros b. destruct (H2 st) as [Ha2 Hs2]. repeat split; auto.
      intros v'. rewrite Hs2. apply IH; auto.
  - destruct Hp as (H1 & H2 & H3).
    apply IHb; [exact H1 | |].
    + intros e. apply IHh; auto.
    + intros b. apply IH; auto.
Qed.

(** Every event of a trace comes from a call the program can make. *)
Lemma all_calls_trace {obj S} (h : call obj -> S -> result (val obj) * S)
  (P : call obj -> Prop) A (p : prog obj A) :
  all_calls P p -> forall s ev, In ev (trace_of h p s) -> P (fst ev).
Proof.
  unfold trace_of.
  induction p as [A a | A e | A c k IH | A C cm body IHb k IH | A C body IHb hd IHh k IH];
    cbn [all_calls run]; intros Hp s ev Hin.
  - destruct Hin.
  - destruct Hin.
  - destruct Hp as [Hc Hk].
    destruct (h c s) as [[v | e] s1].
    + specialize (IH v (Hk v) s1 ev).
      destruct (run h (k v) s1) as [[o s2] tr]. cbn [fst snd] in *.
      destruct Hin as [<- | Hin]; auto.
    + cbn [fst snd] in *. destruct Hin as [<- | []]. exact Hc.
  - destruct Hp as (H1 & H2 & H3 & H4 & H5).
    destruct (h (enter_call cm) s) as [[v | e] s1].
    2:{ cbn [fst snd] in *. destruct Hin as [<- | []]. exact H1. }
    specialize (IHb H4 s1 ev).
    destruct (run h body s1) as [[[b | e] s2] trb]; cbn [fst snd] in IHb.
    + destruct (h (exit_call cm VNone) s2) as [[v' | e] s3].
      * specialize (IH b (H5 b) s3 ev).
        destruct (run h (k b) s3) as [[o s4] tr]. cbn [fst snd] in *.
        destruct Hin as [<- | Hin]; [exact H1|].
        apply in_app_or in Hin as [Hin | [<- | Hin]]; auto.
      * cbn [fst snd] in *.
        destruct Hin as [<- | Hin]; [exact H1|].
        apply in_app_or in Hin as [Hin | [<- | []]]; auto.
    + destruct (h (exit_call cm (VExn e)) s2) as [[v' | e'] s3]; cbn [fst snd] in *;
        (destruct Hin as [<- | Hin]; [exact H1|]);
        apply in_app_or in Hin as [Hin | [<- | []]]; auto; apply H3.
  - destruct Hp as (H1 & H2 & H3).
    specialize (IHb H1 s ev).
    destruct (run h body s) as [[[b | e] s1] trb]; cbn [fst snd] in IHb.
    + specialize (IH b (H3 b) s1 ev).
      destruct (run h (k b) s1) as [[o s2] tr]. cbn [fst snd] in *.
      apply in_app_or in Hin as [Hin | Hin]; auto.
    + specialize (IHh e (H2 e) s1 ev).
      destruct (run h (hd e) s1) as [[[b | e'] s2] trh]; cbn [fst snd] in IHh.
      * specialize (IH b (H3 b) s2 ev).
        destruct (run h (k b) s2) as [[o s3] tr]. cbn [fst snd] in *.
        apply in_app_or in Hin as [Hin | Hin]; auto.
        apply in_app_or in Hin as [Hin | Hin]; auto.
      * cbn [fst snd] in *. apply in_app_or in Hin as [Hin | Hin]; auto.
Qed.

(** ** External resources *)

Ltac calls_tac Hb Ho :=
  repeat (intros; cbn beta; lazymatch goal with
  | |- True => exact I
  | |- _ /\ _ => split
  | |- _ = _ => reflexivity
  | |- all_calls _ (bind _ _) => apply all_calls_bind
  | |- all_calls _ (for_in _ _ _) => apply (all_calls_for_in Hb)
  | |- all_calls _ (for_each _ _ _) => apply all_calls_for_each
  | |- all_calls _ (iterate _) => apply (all_calls_iterate Hb)
  | |- all_calls _ (unpack2 _) => apply (all_calls_unpack2 Hb)
  | |- all_calls _ (unpack3 _) => apply (all_calls_unpack3 Hb)
  | |- all_calls _ (unpack4 _) => apply (all_calls_unpack4 Hb)
  | |- all_calls _ (py_first _) => apply (all_calls_py_first Hb)
  | |- all_calls _ (py_len _) => apply (all_calls_py_len Hb)
  | |- all_calls _ (py_range _) => apply all_calls_py_range
  | |- all_calls _ (py_bool _) => apply (all_calls_py_bool Hb)
  | |- all_calls _ (py_add _ _) => apply (all_calls_py_add Ho)
  | |- all_calls _ (py_truediv _ _) => apply (all_calls_py_truediv Ho)
  | |- all_calls _ (fstring _) => apply (all_calls_fstring Hb)
  | |- all_calls _ (format_value _ _) => apply (all_calls_format_value Hb)
  | |- all_calls _ (match ?x with _ => _ end) => destruct x
  | |- all_calls _ _ =>
      first [ progress cbn [all_calls] | progress autounfold with notebook ]
  end).

Section ResourceFacts.
Context {obj : Type}.
Local Abbreviation quiet :=
  (fun c : call obj =>
     consumes (callee c) = false /\ (operation (callee c) || imports c) = true).

Lemma quiet_builtins : builtins_ok quiet.
Proof.
  intros name a Hin. cbn [In] in Hin.
  destruct Hin as [<- | [<- | [<- | [<- | []]]]]; split; reflexivity.
Qed.

Lemma quiet_operators : operators_ok quiet.
Proof. intros a. repeat split; reflexivity. Qed.

Lemma quiet_neutral (c : call obj) : internal c -> neutral resource_monitor c.
Proof.
  intros [Hc Hop] st. split.
  - cbn [allows resource_monitor]. unfold resource_allows. rewrite Hc. exact Hop.
  - intros v. cbn. unfold resource_after.
    destruct (callee c) as [[] n | n | n | n]; try reflexivity. discriminate Hc.
Qed.

Lemma quiet_wp A (p : prog obj A) :
  all_calls quiet p ->
  forall st (Q : mstate resource_monitor -> A -> Prop) (E : mstate resource_monitor -> Prop),
    E st -> (forall a, Q st a) -> wp resource_monitor p st Q E.
Proof.
  intros Hp. apply wp_neutral.
  eapply all_calls_impl; [|exact Hp]. intros c. apply quiet_neutral.
Qed.

End ResourceFacts.

Ltac resource_allowed :=
  cbn [allows resource_monitor];
  lazymatch goal with
  | |- resource_allows ?st ?c =>
      change (simulation_data st c \/ image_dataset c \/ front_end_resource c)
  end;
  first
    [ right; right; left; reflexivity
    | right; right; right; left; reflexivity
    | right; right; right; right; eexists; split; [|reflexivity]; cbn; tauto
    | left; left; eexists; split; [|reflexivity]; cbn; tauto
    | left; right; do 2 eexists; split; [reflexivity|]; cbv; tauto
    | right; left; do 3 eexists; split; [|reflexivity]; cbn; tauto ].

Ltac head_of t :=
  lazymatch t with
  | ?f _ => head_of f
  | _ => t
  end.

(** One step through a program: [neutral_call] proves a call neutral,
    [allowed] proves it allowed, [simplify_state] computes the state after
    it, [neutral_part] proves [wp] of a part with neutral calls only. *)
Ltac wp_step neutral_call allowed simplify_state neutral_part :=
  lazymatch goal with
  | |- True => exact I
  | |- wp _ (Ret _) _ _ _ => apply wp_ret; cbv beta
  | |- wp _ (Raise _) _ _ _ => exact I
  | |- wp _ (Call _ _) _ _ _ =>
      first
        [ apply wp_call_neutral; [solve [neutral_call] | exact I | intros ?v; cbv beta]
        | apply wp_call; [allowed | exact I | intros ?v; simplify_state] ]
  | |- wp _ (match ?x with _ => _ end) _ _ _ => destruct x
  | |- wp _ (bind ?p _) _ _ _ =>
      first
        [ apply wp_bind; neutral_part; intros ?a; cbv beta
        | lazymatch p with
          | bind _ _ => apply wp_bind
          | _ => let f := head_of p in unfold f; cbn [bind]
          end ]
  | |- wp _ ?p _ _ _ =>
      let f := head_of p in unfold f; cbn [bind]
  end.

Ltac resource_step :=
  wp_step
    ltac:(apply quiet_neutral; split; reflexivity)
    ltac:(resource_allowed)
    ltac:(cbn [after resource_monitor resource_after callee
               String.eqb Ascii.eqb Bool.eqb])
    ltac:(apply quiet_wp;
          [ lazymatch goal with
            | |- @all_calls ?obj _ _ _ =>
                solve [calls_tac (@quiet_builtins obj) (@quiet_operators obj)]
            end
          | exact I | ]).

Lemma boosting_notebook_resources {obj} :
  wp (@resource_monitor obj) boosting_notebook (fun _ => False)
     (fun _ _ => True) (fun _ => True).
Proof.
  unfold boosting_notebook. repeat resource_step.
Qed.

Lemma torch_notebook_resources {obj} :
  wp (@resource_monitor obj) torch_notebook (fun _ => False)
     (fun _ _ => True) (fun _ => True).
Proof.
  unfold torch_notebook. repeat resource_step.
Qed.

Lemma boosting_markdown_resources {obj} :
  wp (@resource_monitor obj) boosting_markdown (fun _ => False)
     (fun _ _ => True) (fun _ => True).
Proof.
  unfold boosting_markdown. repeat resource_step.
Qed.

(** ** The order of the boosting notebook *)

Section OrderFacts.
Context {obj : Type}.
Local Abbreviation plain := (fun c : call obj => role_of (callee c) = Other).

Lemma plain_builtins : builtins_ok plain.
Proof. intros name a _. reflexivity. Qed.

Lemma plain_operators : operators_ok plain.
Proof. intros a. split; reflexivity. Qed.

Lemma plain_neutral (c : call obj) :
  role_of (callee c) = Other -> neutral order_monitor c.
Proof.
  intros Hc st. cbn [allows after order_monitor].
  unfold order_allows, order_after. rewrite Hc. auto.
Qed.

Lemma plain_wp A (p : prog obj A) :
  all_calls plain p ->
  forall st (Q : mstate order_monitor -> A -> Prop) (E : mstate order_monitor -> Prop),
    E st -> (forall a, Q st a) -> wp order_monitor p st Q E.
Proof.
  intros Hp. apply wp_neutral.
  eapply all_calls_impl; [|exact Hp]. intros c. apply plain_neutral.
Qed.

End OrderFacts.

Ltac order_allowed :=
  cbn [allows order_monitor order_allows role_of callee args receiver hd_error
       loads fitted queried scored String.eqb Ascii.eqb Bool.eqb orb String.append];
  first
    [ reflexivity
    | lia
    | eexists; split; [reflexivity|];
      repeat first [right; reflexivity | left] ].

Ltac order_step :=
  lazymatch goal with
  | |- wp _ (for_each _ _ _) _ _ _ => fail
  | _ =>
    wp_step
      ltac:(apply plain_neutral; reflexivity)
      ltac:(order_allowed)
      ltac:(cbn [after order_monitor order_after role_of callee args receiver hd_error
                 loads fitted queried scored String.eqb Ascii.eqb Bool.eqb orb String.append])
      ltac:(apply plain_wp;
            [ lazymatch goal with
              | |- @all_calls ?obj _ _ _ =>
                  solve [calls_tac (@plain_builtins obj) (@plain_operators obj)]
              end
            | exact I | ])
  end.

Lemma boosting_notebook_order {obj} :
  wp (@order_monitor obj) boosting_notebook order_start
     (fun _ _ => True) (fun _ => True).
Proof.
  unfold boosting_notebook, order_start. repeat order_step.
  (* the loop over [grb.staged_predict(X_test)] *)
  match goal with
  | |- wp _ (for_each _ _ _) ?st _ _ =>
      apply wp_for_each with
        (Inv := fun st' _ =>
                  exists b, st' = OrderState (loads st) (fitted st) true b)
  end.
  - intros item st acc [b ->]. repeat order_step.
    cbn [loads fitted]. eexists. reflexivity.
  - intros st acc [b ->]. cbn [loads fitted]. repeat order_step.
  - cbn [loads fitted]. eexists. reflexivity.
Qed.

(** ** What the classifiers are fitted on *)

Lemma wp_for_each_done {obj} (M : @monitor obj) A (body : val obj -> A -> prog obj A)
  (Inv : list (val obj) -> mstate M -> A -> Prop)
  (Q : mstate M -> A -> Prop) (E : mstate M -> Prop) :
  (forall done item st acc,
     Inv done st acc -> wp M (body item acc) st (Inv (done ++ [item])) E) ->
  forall l done st acc,
    Inv done st acc ->
    (forall st' acc', Inv (done ++ l) st' acc' -> Q st' acc') ->
    wp M (for_each l body acc) st Q E.
Proof.
  intros Hbody. induction l as [|item l IH]; intros done st acc Hinv HQ; cbn [for_each].
  - cbn [wp]. apply HQ. rewrite app_nil_r. exact Hinv.
  - apply wp_bind.
    eapply wp_mono; [| |apply (Hbody done item); exact Hinv]; cbn beta; auto.
    intros st' acc' Hinv'. apply (IH (done ++ [item])); [exact Hinv'|].
    intros st2 acc2. rewrite <- app_assoc. apply HQ.
Qed.

Lemma combine_snoc A B (l : list A) (l' : list B) a b :
  List.length l' = List.length l ->
  combine (l ++ [a]) (l' ++ [b]) = combine l l' ++ [(a, b)].
Proof.
  revert l'. induction l as [|x l IH]; intros [|y l'] Hlen; try discriminate Hlen.
  - reflexivity.
  - cbn. f_equal. apply IH. injection Hlen as Hlen. exact Hlen.
Qed.

Section JournalFacts.
Context {obj : Type}.
Variable keep : target -> bool.
Local Abbreviation unrecorded := (fun c : call obj => keep (callee c) = false).

Lemma unrecorded_neutral (c : call obj) :
  keep (callee c) = false -> neutral (journal_monitor keep) c.
Proof.
  intros Hc st. split; [exact I|]. intros v.
  cbn [after journal_monitor]. unfold journal_after. rewrite Hc. reflexivity.
Qed.

Lemma unrecorded_wp A (p : prog obj A) :
  all_calls unrecorded p ->
  forall st (Q : mstate (journal_monitor keep) -> A -> Prop)
    (E : mstate (journal_monitor keep) -> Prop),
    E st -> (forall a, Q st a) -> wp (journal_monitor keep) p st Q E.
Proof.
  intros Hp. apply wp_neutral.
  eapply all_calls_impl; [|exact Hp]. intros c. apply unrecorded_neutral.
Qed.

(** The monitor writes the journal. *)
Lemma journal_state (tr : trace obj) st :
  state_after (journal_monitor keep) st tr = st ++ journal keep tr.
Proof.
  revert st. induction tr as [|[c [v | e]] tr IH]; intros st; cbn [state_after journal].
  - rewrite app_nil_r. reflexivity.
  - unfold step. cbn [fst snd after journal_monitor]. unfold journal_after.
    rewrite IH. destruct (keep (callee c)); [rewrite <- app_assoc|]; reflexivity.
  - unfold step. cbn [fst snd]. apply IH.
Qed.

End JournalFacts.

Lemma unlearned_builtins {obj} :
  builtins_ok (fun c : call obj => learning (callee c) = false).
Proof. intros name a _. reflexivity. Qed.

Lemma unlearned_operators {obj} :
  operators_ok (fun c : call obj => learning (callee c) = false).
Proof. intros a. split; reflexivity. Qed.

Ltac journal_step :=
  lazymatch goal with
  | |- wp _ (for_each _ _ _) _ _ _ => fail
  | |- wp _ (bind (unpack4 _) _) _ _ _ => fail
  | |- wp _ (bind (for_in _ _ _) _) _ _ _ => fail
  | _ =>
    wp_step
      ltac:(apply unrecorded_neutral; reflexivity)
      ltac:(exact I)
      ltac:(cbn [after journal_monitor journal_after learning callee mem existsb
                 String.eqb Ascii.eqb Bool.eqb orb app])
      ltac:(apply unrecorded_wp;
            [ lazymatch goal with
              | |- @all_calls ?obj _ _ _ =>
                  solve [calls_tac (@unlearned_builtins obj) (@unlearned_operators obj)]
              end
            | exact I | ])
  end.

Lemma boosting_notebook_journal {obj} :
  wp (@journal_monitor obj learning) boosting_notebook []
     (fun st _ => exists a, st = boosting_journal a /\ unpacked a) (fun _ => True).
Proof.
  unfold boosting_notebook. repeat journal_step.
  (* X_test, X_train, y_test, y_train = train_test_split(X, y) *)
  unfold unpack4. apply wp_bind. apply wp_bind.
  apply wp_iterate; [intros; apply unrecorded_neutral; reflexivity | exact I |].
  intros l Hl. cbv beta. cbn [bind]. repeat journal_step.
  (* for y_pred in grb.staged_predict(X_test) *)
  unfold for_in. apply wp_bind. apply wp_bind.
  apply wp_iterate; [intros; apply unrecorded_neutral; reflexivity | exact I |].
  intros l Hl'. cbv beta.
  match goal with
  | |- wp _ (for_each _ (fun y_pred _ => Call (Invoke _ [_; ?y_test] _) _) _) ?st _ _ =>
      apply wp_for_each_done with
        (done := [])
        (Inv := fun done st' acc =>
                  List.length acc = List.length done /\
                  st' = st ++ map (fun '(y_pred, score) =>
                                     (sk "accuracy_score" [y_pred; y_test] [], score))
                              (combine done acc))
  end.
  - intros done item st acc [Hlen ->]. repeat journal_step.
    split; [rewrite !length_app; cbn [List.length]; lia|].
    rewrite combine_snoc, map_app by exact Hlen.
    reflexivity.
  - split; [reflexivity|]. cbn [combine map]. rewrite app_nil_r. reflexivity.
  - intros st acc [Hlen ->]. cbn [app]. repeat journal_step.
    eexists (Answers _ _ _ _ _ _ _ (Classifier _ _ _ _ _ _ _ _ _) _ _ _
               (Classifier _ _ _ _ _ _ _ _ _) _ (Classifier _ _ _ _ _ _ _ _ _) _ _ _
               (Classifier _ _ _ _ _ _ _ _ _)).
    split; [|split; [|split]].
    + rewrite <- !app_assoc. reflexivity.
    + exact Hl.
    + exact Hl'.
    + exact Hlen.
Qed.

(** ** From monitors to statements about traces *)

Section Readings.
Context {obj : Type}.

Lemma accepts_at (M : @monitor obj) st tr pre ev post :
  accepts M st tr -> tr = pre ++ ev :: post ->
  allows M (state_after M st pre) (fst ev).
Proof.
  intros Hacc ->. apply accepts_app in Hacc as [_ Hacc]. cbn in Hacc. tauto.
Qed.

Lemma state_after_snoc (M : @monitor obj) st pre ev :
  state_after M st (pre ++ [ev]) = step M (state_after M st pre) ev.
Proof. rewrite state_after_app. reflexivity. Qed.

(** *** The order monitor *)

Lemma order_loads (pre : trace obj) :
  loads (state_after order_monitor order_start pre) = List.length (filter is_load pre).
Proof.
  induction pre as [|ev pre IH] using rev_ind; [reflexivity|].
  rewrite state_after_snoc, filter_app, length_app, <- IH.
  destruct ev as [c [v | e]]; unfold step, is_load; cbn [fst snd after order_monitor filter].
  - unfold order_after. destruct (role_of (callee c)); cbn [loads List.length]; lia.
  - destruct (role_of (callee c)); cbn [List.length]; lia.
Qed.

Lemma order_fitted (pre : trace obj) m :
  fitted (state_after order_monitor order_start pre) m ->
  exists c v, In (c, Ok v) pre /\ role_of (callee c) = Fit /\ receiver c = Some m.
Proof.
  induction pre as [|ev pre IH] using rev_ind; [intros []|].
  rewrite state_after_snoc.
  assert (Hweak : forall c v, In (c, Ok v) pre -> In (c, @Ok (val obj) v) (pre ++ [ev]))
    by (intros; apply in_or_app; auto).
  destruct ev as [c [v | e]]; unfold step; cbn [fst snd after order_monitor].
  - unfold order_after. destruct (role_of (callee c)) eqn:Hrole; cbn [fitted];
      try (intros H; destruct (IH H) as (c' & v' & Hin & Hr & Hm); eauto 6).
    intros [H | H].
    + destruct (IH H) as (c' & v' & Hin & Hr & Hm); eauto 6.
    + exists c, v. split; [apply in_or_app; right; left; reflexivity | auto].
  - intros H. destruct (IH H) as (c' & v' & Hin & Hr & Hm); eauto 6.
Qed.

Lemma since_last_fit_snoc (r : role) (pre : trace obj) ev :
  ~ succeeded Fit ev -> since_last_fit r pre -> since_last_fit r (pre ++ [ev]).
Proof.
  intros Hev (pre1 & ev0 & pre2 & -> & Hs & Hno).
  exists pre1, ev0, (pre2 ++ [ev]). rewrite <- app_assoc. split; [reflexivity|].
  split; [exact Hs|]. intros ev' Hin. apply in_app_or in Hin as [Hin | [<- | []]]; auto.
Qed.

Lemma since_last_fit_now (r : role) (pre : trace obj) ev :
  succeeded r ev -> since_last_fit r (pre ++ [ev]).
Proof.
  intros Hs. exists pre, ev, [].
  split; [reflexivity | split; [exact Hs | intros ev' []]].
Qed.

Lemma order_queried_scored (pre : trace obj) :
  (queried (state_after order_monitor order_start pre) = true ->
   since_last_fit Query pre) /\
  (scored (state_after order_monitor order_start pre) = true ->
   since_last_fit Metric pre).
Proof.
  induction pre as [|ev pre [IHq IHs]] using rev_ind; [split; discriminate|].
  rewrite state_after_snoc.
  destruct ev as [c [v | e]]; unfold step; cbn [fst snd after order_monitor].
  - unfold order_after. destruct (role_of (callee c)) eqn:Hrole; cbn [queried scored];
      split; intros H; try discriminate H;
      try (apply since_last_fit_now; split; [exact Hrole | cbn; eauto]);
      (apply since_last_fit_snoc;
       [intros [Hr _]; cbn [fst] in Hr; congruence | auto]).
  - split; intros H;
      (apply since_last_fit_snoc; [intros [_ [v Hv]]; discriminate Hv | auto]).
Qed.

Lemma order_reading (tr pre : trace obj) c r post :
  accepts order_monitor order_start tr ->
  tr = pre ++ (c, r) :: post -> in_order pre c.
Proof.
  intros Hacc Htr. pose proof (accepts_at _ _ _ _ _ Hacc Htr) as Hal.
  cbn [fst allows order_monitor] in Hal. unfold order_allows in Hal. unfold in_order.
  destruct (role_of (callee c)); auto.
  - rewrite <- order_loads. exact Hal.
  - destruct Hal as (m & Hm & Hf). exists m. split; [exact Hm|].
    apply order_fitted. exact Hf.
  - apply order_queried_scored. exact Hal.
  - apply order_queried_scored. exact Hal.
Qed.

End Readings.


(** C4, as the code has it.  In every run of the boosting notebook that
    goes through, whatever the libraries answer, the calls of scikit-learn
    and of its estimators are exactly those of [boosting_journal], in this
    order.  [train_test_split(X, y)] is called without sizes and its first
    member is bound to [X_test], its second to [X_train], its third to
    [y_test] and its fourth to [y_train].  Four classifiers (the decision
    tree of depth 15, AdaBoost, gradient boosting, the random forest) are
    fitted by the notebook, each with [fit(X_train, y_train)], that is on
    the second and the fourth member, which scikit-learn documents as the
    test split; each is asked for predictions on [X_test] and scored
    against [y_test], the first and the third member.  The decision tree of
    depth 12 is not fitted by the notebook: it is handed to
    [cross_validate] with all of [X] and [y]; the tree of depth 2 is handed
    to AdaBoost as its base estimator. *)
Theorem classifiers_fit_on_the_test_split
  (obj S : Type) (h : call obj -> S -> result (val obj) * S) (s : S) (out : val obj) :
  outcome h boosting_notebook s = Ok out ->
  exists a : answers,
    journal learning (trace_of h boosting_notebook s) = boosting_journal a /\ unpacked a.
Proof.
  intros Hout.
  pose proof (wp_sound (journal_monitor learning) h boosting_notebook []
                (fun st _ => exists a, st = boosting_journal a /\ unpacked a)
                (fun _ => True) s boosting_notebook_journal) as [_ H].
  rewrite Hout, journal_state in H. exact H.
Qed.

(** ** External resources, read off a trace *)

Section ResourceReadings.
Context {obj : Type}.

Lemma resource_paths (pre : trace obj) p :
  state_after resource_monitor (fun _ => False) pre p -> dataset_paths pre p.
Proof.
  induction pre as [|ev pre IH] using rev_ind; [intros []|].
  rewrite state_after_snoc.
  assert (Hweak : dataset_paths pre p -> dataset_paths (pre ++ [ev]) p).
  { intros (c & Hin & Hc). exists c. split; [apply in_or_app; auto | exact Hc]. }
  destruct ev as [c [v | e]]; unfold step; cbn [fst snd after resource_monitor]; auto.
  unfold resource_after.
  destruct (callee c) as [[] n | n | n | n] eqn:Hc; auto.
  destruct (String.eqb_spec n "get_dataset_path") as [-> | _]; auto.
  intros [H | ->]; auto.
  exists c. split; [apply in_or_app; right; left; reflexivity | exact Hc].
Qed.

Lemma resource_reading (tr pre : trace obj) c r post :
  accepts resource_monitor (fun _ => False) tr ->
  tr = pre ++ (c, r) :: post ->
  (consumes (callee c) = true /\ known_resource pre c) \/ internal c.
Proof.
  intros Hacc Htr. pose proof (accepts_at _ _ _ _ _ Hacc Htr) as Hal.
  cbn [fst allows resource_monitor] in Hal. unfold resource_allows in Hal.
  unfold internal. destruct (consumes (callee c)).
  - left. split; [reflexivity|].
    destruct Hal as [[Hd | (path & kw & Hc & Hp)] | Hrest].
    + left. left. exact Hd.
    + left. right. exists path, kw. split; [exact Hc|]. apply resource_paths. exact Hp.
    + right. exact Hrest.
  - right. split; [reflexivity | exact Hal].
Qed.

End ResourceReadings.

(** C7, as the code has it.  In every run of either notebook, and in the
    rendering of its markdown cells, every call is either the import of one
    of the seventeen libraries or one of the listed operations on objects in
    memory, or else it reaches outside the kernel and is one of:
    [get_dataset_path] for one of the two simulation files, or
    [TableLoader] on a path it returned; the MNIST or CIFAR-10 dataset
    class with [download=True]; the table-of-contents script that the first
    code cell of each notebook fetches with [$.getScript]; the video file
    that the boosting notebook embeds; one of the three remote images that
    the markdown cells of the boosting notebook embed. *)
Theorem notebooks_consume_known_resources
  (obj S : Type) (h : call obj -> S -> result (val obj) * S) (s : S)
  (notebook : prog obj (val obj)) (pre post : trace obj)
  (c : call obj) (r : result (val obj)) :
  In notebook [boosting_notebook; boosting_markdown; torch_notebook; torch_markdown] ->
  trace_of h notebook s = pre ++ (c, r) :: post ->
  (consumes (callee c) = true /\ known_resource pre c) \/ internal c.
Proof.
  intros Hnb Htr. eapply resource_reading; [|exact Htr].
  apply (wp_sound resource_monitor h notebook (fun _ => False)
           (fun _ _ => True) (fun _ => True) s).
  cbn [In] in Hnb. destruct Hnb as [<- | [<- | [<- | [<- | []]]]].
  - apply boosting_notebook_resources.
  - apply boosting_markdown_resources.
  - apply torch_notebook_resources.
  - exact I.
Qed.

(** C7, as stated, fails at the first cell of the boosting notebook: it
    fetches a script that is neither a simulation data file nor an image
    dataset. *)
Lemma toc_script_is_fetched :
  exists (c : call sym) (r : result (val sym)),
    hd_error (trace_of symbolic boosting_notebook 0%nat) = Some (c, r) /\
    c = Invoke (Magic "%%javascript") [VStr "$.getScript"; VStr toc_script] [] /\
    consumes (callee c) = true /\
    ~ (simulation_data (dataset_paths []) c \/ image_dataset c).
Proof.
  do 2 eexists. split; [vm_compute; reflexivity|].
  split; [reflexivity|]. split; [reflexivity|].
  intros [[(name & _ & H) | (path & kw & H & _)] | (name & train & transform & _ & H)];
    discriminate H.
Qed.

Lemma classifiers_fit_on_the_test_split_witness :
  exists a : answers,
    journal learning (trace_of symbolic boosting_notebook 0%nat) = boosting_journal a /\ unpacked a.
Proof.
  apply (@classifiers_fit_on_the_test_split sym nat symbolic 0%nat
           VNone).
  vm_compute. reflexivity.
Defined.

(** C4, as stated, fails for the decision tree of the cross-validation cell:
    the notebook never calls [fit] on it; it hands it to [cross_validate]
    together with all of [X] and [y], not with a part of the split. *)
Lemma cross_validated_tree_sees_all_rows :
  let j := journal learning (trace_of symbolic boosting_notebook 0%nat) in
  exists X y p1 p2 p3 p4 rf kw results,
    nth_error j 0 = Some (split_call X y, VList [p1; p2; p3; p4]) /\
    nth_error j 8
    = Some (sk "DecisionTreeClassifier" []
              [("max_depth", VInt 12); ("criterion", VStr "entropy")], rf) /\
    nth_error j 9 = Some (sk "cross_validate" [rf; X; y] kw, results) /\
    ~ In X [p1; p2; p3; p4] /\
    forall c v, In (c, v) j -> callee c = Method "fit" -> hd_error (args c) <> Some rf.
Proof.
  cbv zeta. do 9 eexists.
  split; [vm_compute; reflexivity|].
  split; [vm_compute; reflexivity|].
  split; [vm_compute; reflexivity|].
  split.
  - cbn [In]. intros [H | [H | [H | [H | []]]]]; discriminate H.
  - intros c v Hin Hfit. vm_compute in Hin.
    repeat (destruct Hin as [Heq | Hin];
            [injection Heq as <- <-; first [discriminate Hfit | cbn; discriminate]|]).
    destruct Hin.
Qed.

Lemma notebooks_consume_known_resources_witness :
  let c : call sym :=
    Invoke (Func ctapipe "TableLoader")
      [VObj (Sym (Func ctapipe "get_dataset_path") 16 100)]
      [("load_dl2_geometry", VBool true); ("load_instrument", VBool true);
       ("load_simulated", VBool true)] in
  (consumes (callee c) = true /\
   known_resource (firstn 21 (trace_of symbolic boosting_notebook 0%nat)) c)
  \/ internal c.
Proof.
  apply (@notebooks_consume_known_resources sym nat symbolic 0%nat boosting_notebook
           (firstn 21 (trace_of symbolic boosting_notebook 0%nat))
           (skipn 22 (trace_of symbolic boosting_notebook 0%nat))
           _ (Ok (VObj (Sym (Func ctapipe "TableLoader") 21 100)))).
  - left. reflexivity.
  - vm_compute. reflexivity.
Defined.


(** ** The notebooks' own functions *)

Ltac run_calls h :=
  repeat match goal with
  | H : context [h ?c ?s] |- _ =>
      let v := fresh "v" in let e := fresh "e" in let s' := fresh "s" in
      destruct (h c s) as [[v | e] s']; cbn [fst snd] in *; try discriminate H
  end.

(** C1, as the code has it.  The boosting notebook defines transformations
    of its own out of library operations; [feature_generation] is one.
    Whatever the libraries answer, when it returns it has stored
    [hillas_intensity * (hillas_width / hillas_length)] under
    ['awesome_feature'] and
    [sqrt((core_x - pos_x)**2 + (core_y - pos_y)**2)] under ['impact'],
    each computed with the operators of the frame's columns, and it returns
    the frame it was given. *)
Theorem feature_generation_io
  (obj S : Type) (h : call obj -> S -> result (val obj) * S) (s : S)
  (df out : val obj) :
  outcome h (feature_generation df) s = Ok out ->
  out = df /\
  exists intensity width length ratio awesome stored1
         core_x pos_x dx dx2 core_y pos_y dy dy2 d2 impact stored2,
    trace_of h (feature_generation df) s =
    [ answered (Method "__getitem__") [df; VStr "hillas_intensity"] intensity;
      answered (Method "__getitem__") [df; VStr "hillas_width"] width;
      answered (Method "__getitem__") [df; VStr "hillas_length"] length;
      answered (Method "__truediv__") [width; length] ratio;
      answered (Method "__mul__") [intensity; ratio] awesome;
      answered (Method "__setitem__") [df; VStr "awesome_feature"; awesome] stored1;
      answered (Method "__getitem__") [df; VStr "HillasReconstructor_core_x"] core_x;
      answered (Method "__getitem__") [df; VStr "pos_x"] pos_x;
      answered (Method "__sub__") [core_x; pos_x] dx;
      answered (Method "__pow__") [dx; VInt 2] dx2;
      answered (Method "__getitem__") [df; VStr "HillasReconstructor_core_y"] core_y;
      answered (Method "__getitem__") [df; VStr "pos_y"] pos_y;
      answered (Method "__sub__") [core_y; pos_y] dy;
      answered (Method "__pow__") [dy; VInt 2] dy2;
      answered (Method "__add__") [dx2; dy2] d2;
      answered (Func numpy "sqrt") [d2] impact;
      answered (Method "__setitem__") [df; VStr "impact"; impact] stored2 ].
Proof.
  unfold outcome, trace_of, feature_generation, getitem, setitem, method, func,
    func_kw, invoke, answered.
  cbn [bind run]. intros H. run_calls h.
  injection H as <-. split; [reflexivity|]. repeat eexists.
Qed.

Lemma feature_generation_io_witness :
  outcome symbolic (feature_generation a_frame) 1%nat = Ok a_frame /\
  a_frame = a_frame /\
  exists intensity width length ratio awesome stored1
         core_x pos_x dx dx2 core_y pos_y dy dy2 d2 impact stored2,
    trace_of symbolic (feature_generation a_frame) 1%nat =
    [ answered (Method "__getitem__") [a_frame; VStr "hillas_intensity"] intensity;
      answered (Method "__getitem__") [a_frame; VStr "hillas_width"] width;
      answered (Method "__getitem__") [a_frame; VStr "hillas_length"] length;
      answered (Method "__truediv__") [width; length] ratio;
      answered (Method "__mul__") [intensity; ratio] awesome;
      answered (Method "__setitem__") [a_frame; VStr "awesome_feature"; awesome] stored1;
      answered (Method "__getitem__") [a_frame; VStr "HillasReconstructor_core_x"] core_x;
      answered (Method "__getitem__") [a_frame; VStr "pos_x"] pos_x;
      answered (Method "__sub__") [core_x; pos_x] dx;
      answered (Method "__pow__") [dx; VInt 2] dx2;
      answered (Method "__getitem__") [a_frame; VStr "HillasReconstructor_core_y"] core_y;
      answered (Method "__getitem__") [a_frame; VStr "pos_y"] pos_y;
      answered (Method "__sub__") [core_y; pos_y] dy;
      answered (Method "__pow__") [dy; VInt 2] dy2;
      answered (Method "__add__") [dx2; dy2] d2;
      answered (Func numpy "sqrt") [d2] impact;
      answered (Method "__setitem__") [a_frame; VStr "impact"; impact] stored2 ].
Proof.
  split; [reflexivity|].
  apply (@feature_generation_io sym nat symbolic 1%nat a_frame a_frame).
  reflexivity.
Defined.

(** C1, as stated, fails: [feature_generation] is defined by the notebook,
    is applied to the data, and is not a library operation under another
    name: it combines seventeen of them into two new columns. *)
Lemma feature_generation_is_the_notebooks_own :
  notebook_function (feature_generation a_frame) /\
  List.length (trace_of symbolic (feature_generation a_frame) 1%nat) = 17%nat /\
  ~ (forall A (f : prog sym A), notebook_function f -> single_library_call f).
Proof.
  split; [constructor|]. split; [reflexivity|].
  intros H. specialize (H _ _ (def_feature_generation a_frame) nat symbolic 1%nat).
  vm_compute in H. lia.
Qed.

Section TrainFacts.
Context {obj S : Type}.
Variable h : call obj -> S -> result (val obj) * S.

Lemma iterate_events (v : val obj) (l : list (val obj)) s s' tr :
  run h (iterate v) s = (Ok l, s', tr) ->
  exists answer, tr = iter_events v answer /\ members v answer = Some l.
Proof.
  unfold iterate, func, func_kw, invoke. intros H.
  destruct v; cbn [bind run] in H; try discriminate H;
    try (injection H as <- _ <-; exists VNone; split; reflexivity).
  destruct (h _ s) as [[answer | e] s1]; [|discriminate H].
  exists answer.
  destruct answer; cbn [run] in H; try discriminate H;
    injection H as <- _ <-; split; reflexivity.
Qed.

Lemma train_batch (model loss_fn optimizer device item : val obj)
  (losses losses' : list (val obj)) s s' tr :
  run h
    ('(X, y) <- unpack2 item ;;
     X <- method X "to" [device] ;;
     y <- method y "to" [device] ;;
     pred <- apply model [X] ;;
     loss <- apply loss_fn [pred; y] ;;
     _ <- method optimizer "zero_grad" [] ;;
     _ <- method loss "backward" [] ;;
     _ <- method optimizer "step" [] ;;
     l <- method loss "item" [] ;;
     Ret (losses ++ [l])) s = (Ok losses', s', tr) ->
  exists b,
    yielded b = item /\ unpacks b /\
    tr = batch_events model loss_fn optimizer device b /\
    losses' = losses ++ [loss_value b].
Proof.
  unfold unpack2. rewrite !run_bind. intros H.
  destruct (run h (iterate item) s) as [[[l | e] s1] tr1] eqn:Hiter; [|discriminate H].
  apply iterate_events in Hiter as (answer & -> & Hmembers).
  destruct l as [|X [|y [|z l]]]; cbn [run] in H; try discriminate H.
  unfold apply, method, func, func_kw, invoke in H. cbn [bind run] in H.
  run_calls h. cbn [app] in H. rewrite app_nil_r in H. injection H as <- _ <-.
  eexists (Batch item answer X y _ _ _ _ _ _ _ _).
  split; [reflexivity|]. split; [exact Hmembers|]. split; reflexivity.
Qed.

Lemma train_loop (model loss_fn optimizer device : val obj) (l : list (val obj)) :
  forall (losses losses' : list (val obj)) s s' tr,
  run h
    (for_each l (fun item losses =>
      '(X, y) <- unpack2 item ;;
      X <- method X "to" [device] ;;
      y <- method y "to" [device] ;;
      pred <- apply model [X] ;;
      loss <- apply loss_fn [pred; y] ;;
      _ <- method optimizer "zero_grad" [] ;;
      _ <- method loss "backward" [] ;;
      _ <- method optimizer "step" [] ;;
      l <- method loss "item" [] ;;
      Ret (losses ++ [l])) losses) s = (Ok losses', s', tr) ->
  exists batches,
    map yielded batches = l /\ Forall unpacks batches /\
    tr = List.concat (map (batch_events model loss_fn optimizer device) batches) /\
    losses' = losses ++ map loss_value batches.
Proof.
  induction l as [|item l IH]; intros losses losses' s s' tr H.
  - cbn in H. injection H as <- _ <-. exists []. rewrite app_nil_r.
    split; [reflexivity|]. split; [constructor|]. split; reflexivity.
  - cbn [for_each] in H. rewrite run_bind in H.
    match type of H with
    | context [run h ?p s] => destruct (run h p s) as [[[a | e] s1] tr1] eqn:Hbody
    end; [|discriminate H].
    apply train_batch in Hbody as (b & Hitem & Hb & -> & ->).
    match type of H with
    | context [run h ?p s1] => destruct (run h p s1) as [[o s2] tr2] eqn:Hrest
    end.
    injection H as -> _ <-.
    apply IH in Hrest as (batches & Hitems & Hall & -> & ->).
    exists (b :: batches). cbn [map List.concat].
    rewrite Hitem, Hitems, <- app_assoc.
    split; [reflexivity|]. split; [constructor; assumption|]. split; reflexivity.
Qed.

Lemma train_io (dataloader model loss_fn optimizer device : val obj)
  (losses : list (val obj)) s :
  outcome h (train dataloader model loss_fn optimizer device) s = Ok losses ->
  exists moved mode iterator batches,
    trace_of h (train dataloader model loss_fn optimizer device) s
    = train_events dataloader model loss_fn optimizer device moved mode iterator batches /\
    members dataloader iterator = Some (map yielded batches) /\
    Forall unpacks batches /\
    losses = map loss_value batches.
Proof.
  unfold outcome, trace_of, train, for_in.
  destruct (run h _ s) as [[o s'] tr] eqn:Hrun. cbn [fst snd]. intros ->.
  unfold method, func, func_kw, invoke in Hrun. cbn [bind run] in Hrun.
  destruct (h _ s) as [[moved | e] s1]; [|discriminate Hrun].
  destruct (h _ s1) as [[mode | e] s2]; [|discriminate Hrun].
  rewrite !run_bind in Hrun.
  destruct (run h (iterate dataloader) s2) as [[[l | e] s3] tr3] eqn:Hiter;
    [|discriminate Hrun].
  apply iterate_events in Hiter as (iterator & -> & Hmembers).
  match type of Hrun with
  | context [run h ?p s3] => destruct (run h p s3) as [[[a | e] s4] tr4] eqn:Hloop
  end; [|discriminate Hrun].
  cbn [run] in Hrun. injection Hrun as <- _ <-.
  apply train_loop in Hloop as (batches & Hitems & Hall & -> & ->).
  exists moved, mode, iterator, batches.
  rewrite Hitems, app_nil_r.
  split; [reflexivity|]. split; [exact Hmembers|]. split; [exact Hall | reflexivity].
Qed.

Lemma init_io (self out : val obj) s :
  outcome h (ConvolutionalNetwork_init self) s = Ok out ->
  out = VNone /\
  exists n, trace_of h (ConvolutionalNetwork_init self) s
            = ConvolutionalNetwork_init_events self n.
Proof.
  unfold outcome, trace_of, ConvolutionalNetwork_init, conv_layers, set_attribute, nn,
    method, func, func_kw, invoke.
  cbn [bind run]. intros H. run_calls h.
  injection H as <-. split; [reflexivity|].
  eexists (Network _ (ConvStack _ _ _ _ _ _) (ConvStack _ _ _ _ _ _)
             (ConvStack _ _ _ _ _ _) _ _ _ _ _ _ _ _ _ _ _).
  reflexivity.
Qed.

Lemma forward_io (self x out : val obj) s :
  outcome h (ConvolutionalNetwork_forward self x) s = Ok out ->
  exists conv_stack a flatten b linear_relu_stack,
    trace_of h (ConvolutionalNetwork_forward self x) s
    = ConvolutionalNetwork_forward_events self x conv_stack a flatten b
        linear_relu_stack out.
Proof.
  unfold outcome, trace_of, ConvolutionalNetwork_forward, apply, attr, method,
    invoke, ConvolutionalNetwork_forward_events, answered.
  cbn [bind run]. intros H. run_calls h.
  injection H as <-. repeat eexists.
Qed.

End TrainFacts.

(** C2, as the code has it.  The torch notebook implements its training
    loop and its networks itself, out of library parts.  Whatever the
    libraries answer, when [train] returns it has made exactly these calls,
    in this order: [model.to(device)], [model.train()], the iteration over
    the loader, and for each item of the loader, unpacked to [X] and [y]:
    [X.to(device)], [y.to(device)], [model(X)], [loss_fn(pred, y)],
    [optimizer.zero_grad()], [loss.backward()], [optimizer.step()] and
    [loss.item()]; it returns the values of [loss.item()], one for each
    batch.  When [ConvolutionalNetwork.__init__] returns it has built three
    stacks of two convolutions, batch norm, leaky ReLU, max pooling and
    dropout, put the eighteen layers in a [Sequential] stored as
    [conv_stack], stored a [Flatten], and put two linear layers with
    dropout, leaky ReLU and softmax in a [Sequential] stored as
    [linear_relu_stack]; it makes no other call.  [forward] passes its
    input through [conv_stack], [flatten] and [linear_relu_stack], in this
    order, and returns the last result. *)
Theorem training_and_networks_are_composed_by_the_notebook
  (obj S : Type) (h : call obj -> S -> result (val obj) * S) (s : S) :
  (forall dataloader model loss_fn optimizer device losses,
     outcome h (train dataloader model loss_fn optimizer device) s = Ok losses ->
     exists moved mode iterator batches,
       trace_of h (train dataloader model loss_fn optimizer device) s
       = train_events dataloader model loss_fn optimizer device
           moved mode iterator batches /\
       members dataloader iterator = Some (map yielded batches) /\
       Forall unpacks batches /\
       losses = map loss_value batches) /\
  (forall self out,
     outcome h (ConvolutionalNetwork_init self) s = Ok out ->
     out = VNone /\
     exists n, trace_of h (ConvolutionalNetwork_init self) s
               = ConvolutionalNetwork_init_events self n) /\
  (forall self x out,
     outcome h (ConvolutionalNetwork_forward self x) s = Ok out ->
     exists conv_stack a flatten b linear_relu_stack,
       trace_of h (ConvolutionalNetwork_forward self x) s
       = ConvolutionalNetwork_forward_events self x conv_stack a flatten b
           linear_relu_stack out).
Proof.
  split; [|split].
  - intros. apply train_io. assumption.
  - intros. apply init_io. assumption.
  - intros. apply forward_io. assumption.
Qed.

Lemma training_and_networks_are_composed_by_the_notebook_witness :
  let x := VObj (Sym (Func torch "rand") 0 1) in
  let out := VObj (Sym (Method "__call__") 9 100) in
  let losses := [VObj (Sym (Method "item") 15 100); VObj (Sym (Method "item") 24 100)] in
  (exists moved mode iterator batches,
     trace_of symbolic (train a_loader a_network a_loss an_optimizer (VStr "cpu")) 4%nat
     = train_events a_loader a_network a_loss an_optimizer (VStr "cpu")
         moved mode iterator batches /\
     members a_loader iterator = Some (map yielded batches) /\
     Forall unpacks batches /\
     losses = map loss_value batches) /\
  (exists n, trace_of symbolic (ConvolutionalNetwork_init a_network) 4%nat
             = ConvolutionalNetwork_init_events a_network n) /\
  exists conv_stack a flatten b linear_relu_stack,
    trace_of symbolic (ConvolutionalNetwork_forward a_network x) 4%nat
    = ConvolutionalNetwork_forward_events a_network x conv_stack a flatten b
        linear_relu_stack out.
Proof.
  intros x out losses. split; [|split].
  - apply (proj1 (@training_and_networks_are_composed_by_the_notebook
                    sym nat symbolic 4%nat)
             a_loader a_network a_loss an_optimizer (VStr "cpu") losses).
    vm_compute. reflexivity.
  - apply (proj1 (proj2 (@training_and_networks_are_composed_by_the_notebook
                           sym nat symbolic 4%nat)) a_network VNone).
    vm_compute. reflexivity.
  - apply (proj2 (proj2 (@training_and_networks_are_composed_by_the_notebook
                           sym nat symbolic 4%nat)) a_network x out).
    vm_compute. reflexivity.
Defined.

(** C2, as stated, fails: [train] and [ConvolutionalNetwork.__init__] are
    defined by the notebook; on a loader of two batches [train] itself makes
    the two optimisation steps, and the class's [__init__] itself assembles
    the network from 24 layers in two [Sequential] containers. *)
Lemma the_training_loop_is_the_notebooks_own :
  notebook_function (train a_loader a_network a_loss an_optimizer (VStr "cpu")) /\
  filter optimisation
    (callees (trace_of symbolic
                (train a_loader a_network a_loss an_optimizer (VStr "cpu")) 4%nat))
  = one_step ++ one_step /\
  notebook_function (ConvolutionalNetwork_init a_network) /\
  List.length
    (filter layer
       (callees (trace_of symbolic (ConvolutionalNetwork_init a_network) 4%nat)))
  = 26%nat /\
  ~ (forall A (f : prog sym A), notebook_function f -> leaves_training_to_libraries f).
Proof.
  split; [constructor|]. split; [reflexivity|].
  split; [constructor|]. split; [reflexivity|].
  intros H.
  specialize (H _ _ (def_train a_loader a_network a_loss an_optimizer (VStr "cpu"))
                nat symbolic 4%nat).
  vm_compute in H. discriminate H.
Qed.

(** ** [preprocess] on a model of pandas *)

Section RegexFacts.

(** A pattern [^(?!F)...] is anchored: it matches nowhere but at the start
    of the subject, and there only when [F] does not. *)
Lemma search_not_at_start F rest s :
  search_from (Seq Bol (Seq (NotAhead F) rest)) false s = false.
Proof.
  induction s as [| x s IH]; cbn [search_from]; rewrite ?IH; reflexivity.
Qed.

Lemma not_ahead_at_start F rest s :
  re_search (Seq Bol (Seq (NotAhead F) rest)) s = true -> re_match F s = false.
Proof.
  unfold re_search, re_match.
  destruct (list_ascii_of_string s) as [| x l]; cbn [search_from].
  - cbn. fold anything.
    destruct (matches F true [] anything); [discriminate | reflexivity].
  - rewrite search_not_at_start, orb_false_r. cbn. fold anything.
    destruct (matches F true (x :: l) anything); [discriminate | reflexivity].
Qed.

Lemma allowed_is_not_forbidden s :
  matches_somewhere allowed_columns_regex s = true -> forbidden s = false.
Proof.
  unfold matches_somewhere, forbidden, matches_at_start.
  assert (exists F rest,
             re_compile forbidden_columns = Some F /\
             re_compile allowed_columns_regex
             = Some (Seq Bol (Seq (NotAhead F) rest))) as (F & rest & -> & ->).
  { eexists _, _. split; vm_compute; reflexivity. }
  apply not_ahead_at_start.
Qed.

End RegexFacts.

Section FrameFacts.

Lemma In_select A (keep : A -> bool) (l : list A) (x : A) :
  In x (select (map keep l) l) <-> In x l /\ keep x = true.
Proof.
  induction l as [| y l IH]; cbn.
  - tauto.
  - destruct (keep y) eqn:Hy; cbn; rewrite IH; intuition (subst; congruence).
Qed.

Lemma In_select_columns keep f c :
  In c (columns (select_columns keep f)) <-> In c (columns f) /\ keep c = true.
Proof. apply In_select. Qed.

Lemma mem_In s l : mem s l = true <-> In s l.
Proof.
  unfold mem. rewrite existsb_exists. split.
  - intros (x & Hin & Heq). apply String.eqb_eq in Heq. subst. exact Hin.
  - intros Hin. exists s. split; [exact Hin | apply String.eqb_refl].
Qed.

Lemma In_drop names f f' c :
  drop names f = Ok f' ->
  In c (columns f') -> In c (columns f) /\ ~ In (label c) names.
Proof.
  unfold drop. destruct (forallb _ names); [| discriminate].
  intros [= <-] Hin. apply In_select_columns in Hin as [Hin Hkeep].
  split; [exact Hin|]. rewrite <- mem_In.
  destruct (mem (label c) names); [discriminate Hkeep | discriminate].
Qed.

(** After the columns that [select_dtypes(exclude=['number'])] finds have
    been dropped by label, the columns that are left are numeric. *)
Lemma drop_exclude_number f f' :
  drop (labels_of (exclude_number f)) f = Ok f' -> all_numeric f'.
Proof.
  intros Hdrop c Hin. destruct (In_drop _ _ _ Hdrop Hin) as [Hc Hnot].
  destruct (is_number (dtype_of c)) eqn:Hnum; [reflexivity|].
  exfalso. apply Hnot. unfold labels_of. apply in_map.
  apply In_select_columns. rewrite Hnum. split; [exact Hc | reflexivity].
Qed.

Lemma dropna_complete f : ~ has_missing (dropna f).
Proof.
  intros (row & c & Hrow & Hc & Hna). cbn in Hrow.
  apply filter_In in Hrow as [_ Hrow].
  rewrite forallb_forall in Hrow. specialize (Hrow c Hc).
  rewrite Hna in Hrow. discriminate Hrow.
Qed.

End FrameFacts.

Ltac pandas_step :=
  cbn [bind run pandas_model callee args kwargs String.eqb Ascii.eqb Bool.eqb
       andb fst snd].

(** The frames that [preprocess] goes through when it returns. *)
Lemma preprocess_steps spread f out :
  outcome (pandas_model spread) (preprocess (VObj (PFrame f))) tt = Ok out ->
  exists r f1 f2 f3 f4 n2 n3,
    re_compile allowed_columns_regex = Some r /\
    f1 = filter_regex r f /\
    drop (labels_of (exclude_number f1)) f1 = Ok f2 /\
    drop n2 f2 = Ok f3 /\
    drop n3 f3 = Ok f4 /\
    out = VObj (PFrame (dropna f4)).
Proof.
  unfold outcome, preprocess, drop_columns, method_kw, method, attr, invoke.
  pandas_step.
  destruct (re_compile allowed_columns_regex) as [r |] eqn:Hr; [| discriminate].
  pandas_step.
  destruct (drop _ (filter_regex r f)) as [f2 | e] eqn:H2; [| discriminate].
  pandas_step.
  destruct (_ =? _)%nat; [| discriminate].
  pandas_step.
  destruct (drop _ f2) as [f3 | e] eqn:H3; [| discriminate].
  pandas_step.
  destruct (describe spread f3) as [[| | | | labels sd |] | e] eqn:Hd; try discriminate.
  pandas_step.
  destruct sd as [values |]; [| discriminate].
  pandas_step.
  destruct (_ =? _)%nat; [| discriminate].
  pandas_step.
  destruct (drop _ f3) as [f4 | e] eqn:H4; [| discriminate].
  pandas_step.
  intros [= <-].
  exists r, (filter_regex r f), f2, f3, f4.
  eexists _, _. repeat split; eassumption.
Qed.

Section PreprocessReturns.

Lemma In_select_any A (mask : list bool) (l : list A) (x : A) :
  In x (select mask l) -> In x l.
Proof.
  revert mask. induction l as [| y l IH]; intros [| [] mask]; cbn; try tauto.
  - intros [-> | Hin]; [left; reflexivity | right; exact (IH _ Hin)].
  - intros Hin. right. exact (IH _ Hin).
Qed.

Lemma select_all A (keep : A -> bool) (l : list A) :
  (forall x, In x l -> keep x = true) -> select (map keep l) l = l.
Proof.
  induction l as [| y l IH]; intros Hall; cbn; [reflexivity|].
  rewrite (Hall y (or_introl eq_refl)). f_equal. apply IH.
  intros x Hin. apply Hall. right. exact Hin.
Qed.

(** Dropping labels that are in the frame does not fail. *)
Lemma drop_own_labels names f :
  (forall n, In n names -> In n (labels_of f)) -> exists f', drop names f = Ok f'.
Proof.
  intros Hown. unfold drop.
  replace (forallb (fun n => mem n (labels_of f)) names) with true; [eauto|].
  symmetry. apply forallb_forall. intros n Hn. apply mem_In. auto.
Qed.

End PreprocessReturns.

(** C5, as the code has it.  On the model of pandas, whatever [describe]
    computes: when [preprocess(f)] returns, it returns a frame without a
    missing (NaN) entry, whose columns all have a dtype that
    [select_dtypes] counts as a ['number'] (a subtype of [numpy.number]:
    integers, floats, complex numbers and durations), and none of whose
    column names is matched by the pattern ['true_|obs_id|event_id'] at its
    beginning (as [re.match] does). *)
Theorem preprocess_output
  (spread : dtype -> list cell -> result cell) (f : frame) (out : val pobj) :
  outcome (pandas_model spread) (preprocess (VObj (PFrame f))) tt = Ok out ->
  exists f' : frame,
    out = VObj (PFrame f') /\
    ~ has_missing f' /\
    all_numeric f' /\
    ~ has_forbidden_column f'.
Proof.
  intros Hout.
  apply preprocess_steps in Hout
    as (r & f1 & f2 & f3 & f4 & n2 & n3 & Hr & -> & H2 & H3 & H4 & ->).
  exists (dropna f4). split; [reflexivity|]. split; [apply dropna_complete|].
  split.
  - intros c Hc. cbn in Hc.
    apply (In_drop _ _ _ H4) in Hc as [Hc _].
    apply (In_drop _ _ _ H3) in Hc as [Hc _].
    exact (drop_exclude_number _ H2 c Hc).
  - intros (c & Hc & Hforbidden). cbn in Hc.
    apply (In_drop _ _ _ H4) in Hc as [Hc _].
    apply (In_drop _ _ _ H3) in Hc as [Hc _].
    apply (In_drop _ _ _ H2) in Hc as [Hc _].
    apply In_select_columns in Hc as [_ Hc].
    rewrite allowed_is_not_forbidden in Hforbidden; [discriminate Hforbidden|].
    unfold matches_somewhere. rewrite Hr. exact Hc.
Qed.

Lemma preprocess_output_witness :
  exists f' : frame,
    VObj (PFrame
            (Frame [Column "hillas_width" float64; Column "x_true_y" float64]
                   [[Num (1 # 10); Num 2]; [Num (3 # 10); Num 5]]))
    = VObj (PFrame f') /\
    ~ has_missing f' /\
    all_numeric f' /\
    ~ has_forbidden_column f'.
Proof.
  apply (preprocess_output exact_spread a_table). vm_compute. reflexivity.
Defined.

(** C5, as stated, fails for a frame with a column of durations:
    [select_dtypes(exclude='number')] does not find it, since
    [timedelta64] is a subtype of [numpy.number]; its ['std'] is a duration,
    which is not equal to [0]; so [preprocess] returns the column, and
    pandas does not count its dtype as numeric. *)
Lemma preprocess_keeps_durations :
  let f := Frame [Column "time_since_trigger" timedelta64; Column "hillas_width" float64]
                 [[Time 10; Num (1 # 10)]; [Time 30; Num (3 # 10)]] in
  outcome (pandas_model exact_spread) (preprocess (VObj (PFrame f))) tt
    = Ok (VObj (PFrame f)) /\
  exists c, In c (columns f) /\ is_numeric_dtype (dtype_of c) = false.
Proof.
  split; [vm_compute; reflexivity|].
  exists (Column "time_since_trigger" timedelta64).
  split; [left; reflexivity | reflexivity].
Qed.

(** The pattern is matched at the beginning of a name: a name that only
    contains such text further on is not forbidden, and [preprocess] keeps
    such a column. *)
Example forbidden_names :
  map forbidden ["true_energy"; "obs_id"; "event_idx"; "x_true_y"; "true"]
  = [true; true; true; false; false].
Proof. vm_compute. reflexivity. Qed.

(** When every column is removed there is nothing left to describe, and
    [preprocess] raises, whatever [describe] would compute. *)
Example preprocess_nothing_left (spread : dtype -> list cell -> result cell) :
  outcome (pandas_model spread)
    (preprocess (VObj (PFrame (Frame [Column "true_energy" float64] [[Num 1]])))) tt
  = Err (ValueError "Cannot describe a DataFrame without columns").
Proof. vm_compute. reflexivity. Qed.

(** Where [describe] refuses a column, so does [preprocess]. *)
Example preprocess_complex_numbers :
  outcome (pandas_model exact_spread)
    (preprocess (VObj (PFrame (Frame [Column "amplitude" complex128] [[Num 1]; [Num 2]])))) tt
  = Err (TypeError "a must be an array of real numbers").
Proof. vm_compute. reflexivity. Qed.

(** ** Threads and processes *)

Section SpawnFacts.
Context {obj : Type}.
Local Abbreviation sequential := (fun c : call obj => ordinary c = true).

Lemma sequential_builtins : builtins_ok sequential.
Proof.
  intros name a Hin. cbn [In] in Hin.
  destruct Hin as [<- | [<- | [<- | [<- | []]]]]; reflexivity.
Qed.

Lemma sequential_operators : operators_ok sequential.
Proof. intros a. split; reflexivity. Qed.

Context {S : Type}.
Variable h : call obj -> S -> result (val obj) * S.

Lemma one_at_a_time_app (tr1 tr2 : trace obj) s s1 s2 :
  one_at_a_time h s tr1 s1 -> one_at_a_time h s1 tr2 s2 ->
  one_at_a_time h s (tr1 ++ tr2) s2.
Proof.
  revert s. induction tr1 as [|[c r] tr1 IH]; intros s H1 H2; cbn in *.
  - subst s1. exact H2.
  - destruct H1 as [Hr H1]. split; [exact Hr | eauto].
Qed.

Lemma one_at_a_time_call (c : call obj) s :
  one_at_a_time h s [(c, fst (h c s))] (snd (h c s)).
Proof. cbn. auto. Qed.

(** Every run makes its calls one at a time. *)
Lemma run_one_at_a_time A (p : prog obj A) s :
  one_at_a_time h s (trace_of h p s) (final_state h p s).
Proof.
  unfold trace_of, final_state. revert s.
  induction p as [A a | A e | A c k IH | A C cm body IHb k IH | A C body IHb hd IHh k IH];
    cbn [run]; intros s.
  - reflexivity.
  - reflexivity.
  - pose proof (one_at_a_time_call c s) as Hc.
    destruct (h c s) as [[v | e] s1]; cbn [fst snd] in *; [|exact Hc].
    specialize (IH v s1). destruct (run h (k v) s1) as [[o s2] tr]. cbn [fst snd] in *.
    exact (one_at_a_time_app _ _ _ _ _ Hc IH).
  - pose proof (one_at_a_time_call (enter_call cm) s) as H1.
    destruct (h (enter_call cm) s) as [[v | e] s1]; cbn [fst snd] in *; [|exact H1].
    specialize (IHb s1).
    destruct (run h body s1) as [[[b | e] s2] trb]; cbn [fst snd] in IHb.
    + pose proof (one_at_a_time_call (exit_call cm VNone) s2) as H2.
      destruct (h (exit_call cm VNone) s2) as [[v' | e] s3]; cbn [fst snd] in H2.
      * specialize (IH b s3). destruct (run h (k b) s3) as [[o s4] tr]. cbn [fst snd] in *.
        apply (one_at_a_time_app [_] _ _ _ _ H1).
        apply (one_at_a_time_app _ _ _ _ _ IHb).
        exact (one_at_a_time_app [_] _ _ _ _ H2 IH).
      * cbn [fst snd].
        apply (one_at_a_time_app [_] _ _ _ _ H1).
        exact (one_at_a_time_app _ _ _ _ _ IHb H2).
    + pose proof (one_at_a_time_call (exit_call cm (VExn e)) s2) as H2.
      destruct (h (exit_call cm (VExn e)) s2) as [[v' | e'] s3]; cbn [fst snd] in *;
        apply (one_at_a_time_app [_] _ _ _ _ H1);
        exact (one_at_a_time_app _ _ _ _ _ IHb H2).
  - specialize (IHb s).
    destruct (run h body s) as [[[b | e] s1] trb]; cbn [fst snd] in IHb.
    + specialize (IH b s1). destruct (run h (k b) s1) as [[o s2] tr]. cbn [fst snd] in *.
      exact (one_at_a_time_app _ _ _ _ _ IHb IH).
    + specialize (IHh e s1).
      destruct (run h (hd e) s1) as [[[b | e'] s2] trh]; cbn [fst snd] in IHh.
      * specialize (IH b s2). destruct (run h (k b) s2) as [[o s3] tr]. cbn [fst snd] in *.
        apply (one_at_a_time_app _ _ _ _ _ IHb).
        exact (one_at_a_time_app _ _ _ _ _ IHh IH).
      * cbn [fst snd]. exact (one_at_a_time_app _ _ _ _ _ IHb IHh).
Qed.

End SpawnFacts.

Ltac sequential_tac :=
  lazymatch goal with
  | |- @all_calls ?obj _ _ _ =>
      calls_tac (@sequential_builtins obj) (@sequential_operators obj)
  end.

Lemma boosting_notebook_calls_are_ordinary {obj} :
  all_calls (fun c : call obj => ordinary c = true) boosting_notebook.
Proof. unfold boosting_notebook. sequential_tac. Qed.

Lemma torch_notebook_calls_are_ordinary {obj} :
  all_calls (fun c : call obj => ordinary c = true) torch_notebook.
Proof. unfold torch_notebook. sequential_tac. Qed.



(** A cell that started processes, evaluated text as code, ran a shell
    command, imported [multiprocessing] or asked a library for workers
    would make a call outside of this vocabulary; the loader as the
    notebook builds it is inside. *)
Example calls_outside_the_vocabulary :
  map (@ordinary sym)
    [ Invoke (Func torch "multiprocessing.spawn") [VStr "train"] [];
      Invoke (Func builtins "exec") [VStr "import os; os.fork()"] [];
      Invoke (Func torch "utils.data.DataLoader") [VNone]
        [("batch_size", VInt 64); ("num_workers", VInt 8)];
      Invoke (Func sklearn "RandomForestClassifier") []
        [("n_estimators", VInt 100); ("n_jobs", VInt (-1))];
      Invoke (Magic "!") [VStr "nvidia-smi"] [];
      Invoke (Func builtins "__import__") [VStr "multiprocessing"; VList []] [];
      Invoke (Func builtins "__import__") [VStr "concurrent.futures"; VList []] [];
      Invoke (Func torch "utils.data.DataLoader") [VNone]
        [("batch_size", VInt 64); ("shuffle", VBool true)] ]
  = [false; false; false; false; false; false; false; true].
Proof. reflexivity. Qed.

(* ================================================================== *)
(** * Further properties of the notebooks' code *)
(* ================================================================== *)

(** ** The column filter *)

Section FilterFacts.

Lemma matches_literal p : forall b s,
  matches (literal p) b s anything = starts_with p s.
Proof.
  induction p as [| c p IH]; intros b s; [destruct s; reflexivity|].
  cbn [literal matches starts_with]. destruct s as [| x s]; [reflexivity|].
  rewrite IH. reflexivity.
Qed.

Lemma starts_with_prefix p s :
  starts_with (list_ascii_of_string p) (list_ascii_of_string s) = String.prefix p s.
Proof.
  revert s. induction p as [| c p IH]; intros s; [destruct s; reflexivity|].
  destruct s as [| x s]; [reflexivity|].
  cbn [list_ascii_of_string starts_with String.prefix].
  rewrite IH. destruct (Ascii.ascii_dec c x) as [-> | Hne].
  - rewrite Ascii.eqb_refl. reflexivity.
  - destruct (Ascii.eqb x c) eqn:Heq; [|reflexivity].
    apply Ascii.eqb_eq in Heq. congruence.
Qed.

(** [re.match(forbidden_columns, name)] succeeds exactly on the names that
    start with ['true_'], ['obs_id'] or ['event_id']. *)
Lemma forbidden_prefix name : forbidden name = simulated_or_id name.
Proof.
  unfold forbidden, matches_at_start, simulated_or_id.
  replace (re_compile forbidden_columns)
    with (Some (Alt (literal (list_ascii_of_string "true_"))
                 (Alt (literal (list_ascii_of_string "obs_id"))
                      (literal (list_ascii_of_string "event_id")))))
    by (vm_compute; reflexivity).
  unfold re_match. cbn [matches].
  rewrite !matches_literal, !starts_with_prefix, orb_assoc. reflexivity.
Qed.

(** [.*$]: any characters but line breaks, up to the end of the string or
    to a line break that ends it. *)
Lemma rest_of_line s b :
  matches (Seq (Star AnyChar) (Seq Eol Eps)) b s anything = one_line s.
Proof.
  cbn [matches].
  match goal with
  | |- ?st (List.length s) b s = _ => set (star := st)
  end.
  assert (Hstep : forall fuel b s,
    star (S fuel) b s =
    match s with
    | [] => true
    | [x] => Ascii.eqb x newline && true
    | _ => false
    end
    || match s with
       | [] => false
       | x :: s' =>
           negb (Ascii.eqb x newline) &&
           ((List.length s' <? List.length s)%nat && star fuel false s')
       end)
    by (intros fuel b' [| x [| y l]]; reflexivity).
  assert (Hstop : forall b, star 0%nat b [] = true) by reflexivity.
  clearbody star.
  assert (Hstar : forall fuel s b,
             (List.length s <= fuel)%nat -> star fuel b s = one_line s).
  { induction fuel as [| fuel IH]; intros l b' Hlen.
    - destruct l; [apply Hstop | cbn in Hlen; lia].
    - rewrite Hstep. destruct l as [| x [| y l]].
      + reflexivity.
      + rewrite (IH [] false) by (cbn; lia). cbn [one_line].
        destruct (Ascii.eqb x newline); reflexivity.
      + rewrite (IH (y :: l) false) by (cbn in *; lia).
        cbn [one_line List.length orb].
        replace (S (List.length l) <? S (S (List.length l)))%nat with true
          by (symmetry; apply Nat.ltb_lt; lia).
        reflexivity. }
  apply Hstar. reflexivity.
Qed.

End FilterFacts.

(** X1.  [df.filter(regex=f'^(?!{forbidden_columns}).*$')] keeps a column exactly
    when its name does not start with ['true_'], ['obs_id'] or ['event_id']
    (and is a single line). *)
Theorem filter_keeps_other_names (name : string) :
  matches_somewhere allowed_columns_regex name
  = negb (simulated_or_id name) && one_line (list_ascii_of_string name).
Proof.
  rewrite <- forbidden_prefix.
  unfold matches_somewhere, forbidden, matches_at_start.
  assert (exists F,
             re_compile forbidden_columns = Some F /\
             re_compile allowed_columns_regex
             = Some (Seq Bol (Seq (NotAhead F)
                       (Seq (Star AnyChar) (Seq Eol Eps))))) as (F & -> & ->).
  { eexists. split; vm_compute; reflexivity. }
  unfold re_search, re_match.
  destruct (list_ascii_of_string name) as [| x l] eqn:Hname; cbn [search_from].
  - rewrite orb_false_r. cbn [matches andb].
    change (fun (_ : bool) (_ : list ascii) => true) with anything.
    reflexivity.
  - rewrite search_not_at_start, orb_false_r.
    change (matches (Seq Bol (Seq (NotAhead F) (Seq (Star AnyChar) (Seq Eol Eps))))
              true (x :: l) anything)
      with (true && (negb (matches F true (x :: l) (fun _ _ => true))
                     && matches (Seq (Star AnyChar) (Seq Eol Eps)) true (x :: l) anything)).
    rewrite rest_of_line. reflexivity.
Qed.

(** ** What [preprocess] does to a frame *)

Section SelectFacts.

Lemma select_nil A (mask : list bool) : select mask (@nil A) = [].
Proof. destruct mask as [| [] mask]; reflexivity. Qed.

(** Selecting twice is selecting once. *)
Lemma select_select A B (k1 k2 : A -> bool) (l : list A) : forall xs : list B,
  select (map k2 (select (map k1 l) l)) (select (map k1 l) xs)
  = select (map (fun a => k1 a && k2 a) l) xs.
Proof.
  induction l as [| a l IH]; intros xs; [reflexivity|].
  destruct xs as [| x xs].
  - rewrite !select_nil. reflexivity.
  - cbn [map]. destruct (k1 a) eqn:H1; cbn [select andb map].
    + destruct (k2 a); cbn [select]; rewrite IH; reflexivity.
    + apply IH.
Qed.

Lemma select_columns_twice k1 k2 f :
  select_columns k2 (select_columns k1 f)
  = select_columns (fun c => k1 c && k2 c) f.
Proof.
  unfold select_columns. cbn [columns rows]. f_equal.
  - apply select_select.
  - rewrite map_map. apply map_ext. intros row. apply select_select.
Qed.

Lemma select_ext A B (k k' : A -> bool) (l : list A) (xs : list B) :
  (forall a, In a l -> k a = k' a) ->
  select (map k l) xs = select (map k' l) xs.
Proof.
  intros Hext. f_equal. apply map_ext_in. exact Hext.
Qed.

Lemma select_columns_ext k k' f :
  (forall c, In c (columns f) -> k c = k' c) ->
  select_columns k f = select_columns k' f.
Proof.
  intros Hext. unfold select_columns. f_equal.
  - apply select_ext. exact Hext.
  - apply map_ext. intros row. apply select_ext. exact Hext.
Qed.

Lemma drop_is_select names f f' :
  drop names f = Ok f' ->
  f' = select_columns (fun c => negb (mem (label c) names)) f.
Proof.
  unfold drop. destruct (forallb _ names); [| discriminate].
  intros [= <-]. reflexivity.
Qed.

End SelectFacts.

(** X2.  [preprocess] only removes: the frame it returns consists of some of the
    columns of the frame it was given, in their order and with their cells,
    and of the rows that have no missing entry in these columns. *)
Theorem preprocess_only_removes
  (spread : dtype -> list cell -> result cell) (f : frame) (out : val pobj) :
  outcome (pandas_model spread) (preprocess (VObj (PFrame f))) tt = Ok out ->
  exists keep : column -> bool,
    out = VObj (PFrame (dropna (select_columns keep f))).
Proof.
  intros Hout.
  apply preprocess_steps in Hout
    as (r & f1 & f2 & f3 & f4 & n2 & n3 & Hr & -> & H2 & H3 & H4 & ->).
  apply drop_is_select in H2, H3, H4. subst f4 f3 f2.
  unfold filter_regex. rewrite !select_columns_twice.
  eexists. reflexivity.
Qed.

Lemma preprocess_only_removes_witness :
  exists keep : column -> bool,
    VObj (PFrame
            (Frame [Column "hillas_width" float64; Column "x_true_y" float64]
                   [[Num (1 # 10); Num 2]; [Num (3 # 10); Num 5]]))
    = VObj (PFrame (dropna (select_columns keep a_table))).
Proof.
  apply (preprocess_only_removes exact_spread a_table). vm_compute. reflexivity.
Defined.

(** ** The cleaning cells and [preprocess] *)

Section MaskFacts.

Lemma nth_nil A (j : nat) (d : A) : nth j [] d = d.
Proof. destruct j; reflexivity. Qed.

Lemma nth_tl A (j : nat) (l : list A) (d : A) : nth (S j) l d = nth j (tl l) d.
Proof. destruct l; [symmetry; apply nth_nil | reflexivity]. Qed.

(** The values read off the columns commute with a selection of columns. *)
Lemma column_values_select B (g : list cell -> B) (m : list bool) :
  forall (A : Type) (xs : list A) (table : list (list cell)),
    List.length xs = List.length m ->
    map (fun j => g (map (fun row => nth j row NaN) (map (select m) table)))
        (seq 0 (List.length (select m xs)))
    = select m (map (fun j => g (map (fun row => nth j row NaN) table))
                    (seq 0 (List.length xs))).
Proof.
  induction m as [| b m IH]; intros A xs table Hlen.
  - destruct xs; [reflexivity | discriminate Hlen].
  - destruct xs as [| x xs]; [discriminate Hlen|]. injection Hlen as Hlen.
    assert (Htail :
      map (fun j => g (map (fun row => nth j row NaN) table))
          (seq 1 (List.length xs))
      = map (fun j => g (map (fun row => nth j row NaN) (map (@tl cell) table)))
            (seq 0 (List.length xs))).
    { rewrite <- seq_shift, map_map. apply map_ext. intros j. f_equal.
      rewrite map_map. apply map_ext. intros row. apply nth_tl. }
    cbn [List.length seq map]. rewrite Htail.
    destruct b; cbn [select List.length seq map].
    + f_equal.
      * f_equal. rewrite map_map. apply map_ext. intros [| y row]; reflexivity.
      * rewrite <- (IH A xs (map (@tl cell) table) Hlen).
        rewrite <- seq_shift, map_map. apply map_ext. intros j. f_equal.
        rewrite !map_map. apply map_ext.
        intros [| y row]; cbn [select tl nth]; rewrite ?select_nil, ?nth_nil;
          reflexivity.
    + rewrite <- (IH A xs (map (@tl cell) table) Hlen).
      apply map_ext. intros j. f_equal.
      rewrite !map_map. apply map_ext.
      intros [| y row]; cbn [select tl]; rewrite ?select_nil; reflexivity.
Qed.

Lemma select_combine A B (m : list bool) : forall (xs : list A) (ys : list B),
  select m (combine xs ys) = combine (select m xs) (select m ys).
Proof.
  induction m as [| b m IH]; intros [| x xs] [| y ys]; cbn [select combine];
    try reflexivity; destruct b; cbn [select combine]; rewrite ?select_nil;
    try reflexivity; try (destruct (select m xs); reflexivity).
  - rewrite IH. reflexivity.
  - apply IH.
Qed.

Lemma select_map A B (h : A -> B) (m : list bool) : forall xs : list A,
  select m (map h xs) = map h (select m xs).
Proof.
  induction m as [| b m IH]; intros [| x xs]; try reflexivity;
    [destruct b; reflexivity|].
  destruct b; cbn [select map]; rewrite IH; reflexivity.
Qed.

(** The columns of a selection, with their cells. *)
Lemma column_data_select k f :
  column_data (select_columns k f) = select (map k (columns f)) (column_data f).
Proof.
  unfold column_data. rewrite select_combine. f_equal.
  unfold positions, column_cells, select_columns. cbn [columns rows].
  apply (column_values_select (fun cells => cells)). symmetry. apply length_map.
Qed.

Lemma col_mask_select g k f :
  col_mask g (select_columns k f) = select (map k (columns f)) (col_mask g f).
Proof. unfold col_mask. rewrite column_data_select, select_map. reflexivity. Qed.

Lemma column_data_length f : List.length (column_data f) = List.length (columns f).
Proof.
  unfold column_data, positions. rewrite length_combine, length_map, length_seq.
  apply Nat.min_id.
Qed.

Lemma col_mask_length g f : List.length (col_mask g f) = List.length (columns f).
Proof. unfold col_mask. rewrite length_map. apply column_data_length. Qed.

Lemma select_all_of A B (keep : A -> bool) (l : list A) : forall xs : list B,
  (forall a, In a l -> keep a = true) ->
  List.length xs = List.length l ->
  select (map keep l) xs = xs.
Proof.
  induction l as [| a l IH]; intros [| x xs] Hall Hlen; try discriminate Hlen;
    [reflexivity|].
  cbn [map]. rewrite (Hall a (or_introl eq_refl)). cbn [select]. f_equal.
  apply IH; [| injection Hlen as Hlen; exact Hlen].
  intros a' Hin. apply Hall. right. exact Hin.
Qed.

(** The labels that a mask picks, before and after columns are removed by
    label. *)
Lemma In_names_after (k : string -> bool) (cols : list column) :
  forall (M : list bool) (l : string),
    In l (select (select (map (fun c => k (label c)) cols) M)
                 (map label (select (map (fun c => k (label c)) cols) cols)))
    <-> In l (select M (map label cols)) /\ k l = true.
Proof.
  induction cols as [| c cols IH]; intros M l.
  - cbn. rewrite !select_nil. cbn. tauto.
  - destruct M as [| b M].
    + cbn [map]. rewrite select_nil. cbn [select]. cbn. tauto.
    + cbn [map]. destruct (k (label c)) eqn:Hk; cbn [select map].
      * destruct b; cbn [select In]; rewrite IH;
          intuition (subst; congruence).
      * destruct b; cbn [select In]; rewrite IH;
          intuition (subst; congruence).
Qed.

Lemma In_names_where_without g names f l :
  In l (names_where g (without names f))
  <-> In l (names_where g f) /\ mem l names = false.
Proof.
  unfold names_where, without. rewrite col_mask_select.
  unfold labels_of, select_columns. cbn [columns].
  rewrite (In_names_after (fun n => negb (mem n names))).
  destruct (mem l names); intuition discriminate.
Qed.

Lemma mem_ext s l l' : (In s l <-> In s l') -> mem s l = mem s l'.
Proof.
  intros H. destruct (mem s l) eqn:H1, (mem s l') eqn:H2; try reflexivity.
  - apply mem_In in H1. apply H in H1. apply mem_In in H1. congruence.
  - apply mem_In in H2. apply H in H2. apply mem_In in H2. congruence.
Qed.

(** Removing the columns picked by one reading, then those picked by
    another, removes the columns picked by either in the first place. *)
Lemma without_twice g1 g2 f :
  without (names_where g2 (without (names_where g1 f) f))
          (without (names_where g1 f) f)
  = select_columns (fun c => negb (mem (label c) (names_where g1 f))
                             && negb (mem (label c) (names_where g2 f))) f.
Proof.
  unfold without at 1 3. rewrite select_columns_twice.
  apply select_columns_ext. intros c _.
  destruct (mem (label c) (names_where g1 f)) eqn:H1; [reflexivity|].
  cbn [negb andb]. f_equal. apply mem_ext.
  rewrite In_names_where_without. tauto.
Qed.

Lemma without_commute g1 g2 f :
  without (names_where g2 (without (names_where g1 f) f))
          (without (names_where g1 f) f)
  = without (names_where g1 (without (names_where g2 f) f))
            (without (names_where g2 f) f).
Proof.
  rewrite !without_twice. apply select_columns_ext. intros c _.
  apply andb_comm.
Qed.

End MaskFacts.

Section CleaningFacts.
Variable spread : dtype -> list cell -> result cell.

Lemma drop_names names f :
  (forall n, In n names -> In n (labels_of f)) ->
  drop names f = Ok (without names f).
Proof.
  intros Hown. destruct (drop_own_labels names f Hown) as [f' Hdrop].
  rewrite Hdrop. f_equal. exact (drop_is_select _ _ Hdrop).
Qed.

Lemma drop_names_where g f :
  drop (names_where g f) f = Ok (without (names_where g f) f).
Proof.
  apply drop_names. intros n Hn. exact (In_select_any _ _ _ Hn).
Qed.

Lemma drop_not_numbers r f :
  drop (labels_of (exclude_number (filter_regex r f))) (filter_regex r f)
  = Ok (numeric_part r f).
Proof.
  apply drop_names. intros n Hn. unfold labels_of in *.
  apply in_map_iff in Hn as (c & <- & Hc). apply in_map.
  apply In_select_columns in Hc as [Hc _]. exact Hc.
Qed.

Lemma numeric_part_numeric r f : all_numeric (numeric_part r f).
Proof. exact (drop_exclude_number _ (drop_not_numbers r f)). Qed.

Lemma without_numeric names f : all_numeric f -> all_numeric (without names f).
Proof.
  intros Hnum c Hc. apply In_select_columns in Hc as [Hc _]. exact (Hnum c Hc).
Qed.

Lemma map_combine_snd A B C (h : B -> C) : forall (xs : list A) (ys : list B),
  List.length xs = List.length ys ->
  map (fun '(_, y) => h y) (combine xs ys) = map h ys.
Proof.
  induction xs as [| x xs IH]; intros [| y ys] Hlen; try discriminate Hlen;
    [reflexivity|].
  cbn [combine map]. rewrite IH by (injection Hlen as Hlen; exact Hlen). reflexivity.
Qed.

Lemma mask_of_count f : map is_zero (count f) = col_mask no_entry f.
Proof.
  unfold count, col_mask, column_data, no_entry, present.
  rewrite (map_combine_snd
             (fun cells => is_zero (Num (inject_Z (Z.of_nat (List.length
                (filter (fun c => negb (isna c)) cells)))))))
    by (unfold positions; rewrite length_map, length_seq; reflexivity).
  rewrite !map_map. reflexivity.
Qed.

(** What [collect] returns when no result is an exception. *)
Lemma collect_values A B (h : A -> result B) (z : B -> bool) (l : list A) :
  match collect (map h l) with
  | Ok values =>
      map z values
      = map (fun a => match h a with Ok v => z v | Err _ => false end) l
  | Err _ => True
  end.
Proof.
  induction l as [| a l IH]; cbn [map collect]; [reflexivity|].
  destruct (h a) as [v | e]; [| exact I].
  destruct (collect (map h l)) as [values | e]; [| exact I].
  cbn [map]. rewrite IH. reflexivity.
Qed.

(** The table that [describe] returns for a frame of numeric columns. *)
Lemma describe_all_numeric f :
  all_numeric f -> columns f <> [] ->
  match refused spread f with
  | Some e => describe spread f = Err e
  | None =>
      exists sd,
        describe spread f = Ok (PStats (labels_of f) (Some sd)) /\
        map is_zero sd = col_mask (no_spread spread) f
  end.
Proof.
  intros Hnum Hcols.
  set (numeric := select_columns (fun c => is_number (dtype_of c)) f).
  assert (Hsame : columns numeric = columns f)
    by (apply select_all; exact Hnum).
  assert (Hdata : column_data numeric = column_data f).
  { unfold numeric. rewrite column_data_select. apply select_all_of.
    - exact Hnum.
    - apply column_data_length. }
  unfold refused, describe. fold numeric. unfold labels_of. rewrite Hsame, Hdata.
  pose proof (collect_values (fun '(c, cells) => std spread c cells) is_zero
                (column_data f)) as Hvalues.
  destruct (collect _) as [sd | e].
  - exists sd. split.
    + destruct (columns f); [contradiction | reflexivity].
    + rewrite Hvalues. unfold col_mask, no_spread. apply map_ext.
      intros [c cells]. reflexivity.
  - destruct (columns f); [contradiction | reflexivity].
Qed.

Lemma mask_fits g f :
  (List.length (col_mask g f) =? List.length (labels_of f))%nat = true.
Proof.
  unfold labels_of. rewrite col_mask_length, length_map. apply Nat.eqb_refl.
Qed.

End CleaningFacts.

Ltac session_step :=
  cbn [bind run pandas_session pandas_model callee args kwargs String.eqb
       Ascii.eqb Bool.eqb andb fst snd].

Section Cleaning.
Variable spread : dtype -> list cell -> result cell.

(** What [preprocess] comes to, step by step. *)
Lemma preprocess_frames r f :
  re_compile allowed_columns_regex = Some r ->
  let f2 := numeric_part r f in
  let f3 := without (names_where no_entry f2) f2 in
  outcome (pandas_session spread) (preprocess (VObj (PFrame f))) tt
  = match columns f3 with
    | [] => Err (ValueError "Cannot describe a DataFrame without columns")
    | _ :: _ =>
        match refused spread f3 with
        | Some e => Err e
        | None =>
            Ok (VObj (PFrame (dropna (without (names_where (no_spread spread) f3) f3))))
        end
    end.
Proof.
  intros Hr. unfold outcome, preprocess, drop_columns, method_kw, method, attr, invoke.
  session_step. rewrite Hr. session_step.
  rewrite drop_not_numbers. session_step.
  rewrite mask_of_count, mask_fits. session_step.
  change (select (col_mask no_entry ?f) (labels_of ?f)) with (names_where no_entry f).
  rewrite drop_names_where. session_step.
  cbv zeta.
  set (f3 := without (names_where no_entry (numeric_part r f)) (numeric_part r f)).
  destruct (columns f3) as [| c0 cols] eqn:Hcols.
  - unfold describe. rewrite Hcols. reflexivity.
  - pose proof (@describe_all_numeric spread f3) as Hd.
    destruct (refused spread f3) as [e |].
    + rewrite Hd; [reflexivity | apply without_numeric, numeric_part_numeric
                   | rewrite Hcols; discriminate].
    + destruct Hd as (sd & Hd & Hsd);
        [apply without_numeric, numeric_part_numeric | rewrite Hcols; discriminate |].
      rewrite Hd. session_step. rewrite Hsd, mask_fits. session_step.
      change (select (col_mask (no_spread spread) f3) (labels_of f3))
        with (names_where (no_spread spread) f3).
      rewrite drop_names_where. session_step. reflexivity.
Qed.

(** What the cleaning cells come to. *)
Lemma cleaning_frames r f :
  re_compile allowed_columns_regex = Some r ->
  let f2 := numeric_part r f in
  let h3 := without (names_where (no_spread spread) f2) f2 in
  columns f2 <> [] ->
  outcome (pandas_session spread) (cleaning_cells (VObj (PFrame f))) tt
  = match refused spread f2 with
    | Some e => Err e
    | None => Ok (VObj (PFrame (dropna (without (names_where no_entry h3) h3))))
    end.
Proof.
  intros Hr f2 h3 Hcols.
  unfold outcome, cleaning_cells, print_removed, print, py_len, drop_columns,
    method_kw, method, attr, func, invoke.
  session_step. rewrite Hr. session_step.
  rewrite drop_not_numbers. session_step.
  pose proof (@describe_all_numeric spread f2 (numeric_part_numeric r f) Hcols) as Hd.
  fold f2. destruct (refused spread f2) as [e |].
  - rewrite Hd. reflexivity.
  - destruct Hd as (sd & Hd & Hsd).
    rewrite Hd. session_step. rewrite Hsd, mask_fits. session_step.
    change (select (col_mask (no_spread spread) f2) (labels_of f2))
      with (names_where (no_spread spread) f2).
    rewrite drop_names_where. session_step. fold h3.
    rewrite mask_of_count, mask_fits. session_step.
    change (select (col_mask no_entry h3) (labels_of h3))
      with (names_where no_entry h3).
    rewrite drop_names_where. session_step. reflexivity.
Qed.

End Cleaning.


Section Refusals.
Variable spread : dtype -> list cell -> result cell.

Lemma collect_ok A B (h : A -> result B) (l : list A) :
  (exists values, collect (map h l) = Ok values)
  <-> forall a, In a l -> exists v, h a = Ok v.
Proof.
  induction l as [| a l IH]; cbn [map collect].
  - split; [intros _ a [] | eauto].
  - destruct (h a) as [v | e] eqn:Ha.
    + destruct (collect (map h l)) as [values | e'].
      * split; [| eauto]. intros _ a' [<- | Hin]; [eauto|].
        apply (proj1 IH); eauto.
      * split.
        -- intros [values Hv]. discriminate Hv.
        -- intros Hall. destruct (proj2 IH) as [values Hv]; [| discriminate Hv].
           intros a' Hin. apply Hall. right. exact Hin.
    + split.
      * intros [values Hv]. discriminate Hv.
      * intros Hall. destruct (Hall a (or_introl eq_refl)) as [v Hv]. congruence.
Qed.

Lemma refused_none f :
  refused spread f = None
  <-> forall c cells, In (c, cells) (column_data f) -> exists v, std spread c cells = Ok v.
Proof.
  unfold refused.
  pose proof (collect_ok (fun '(c, cells) => std spread c cells) (column_data f)) as H.
  destruct (collect _) as [values | e].
  - split; [| reflexivity]. intros _ c cells Hin.
    exact (proj1 H (ex_intro _ values eq_refl) (c, cells) Hin).
  - split; [discriminate|]. intros Hall.
    destruct (proj2 H) as [values Hv]; [| discriminate Hv].
    intros [c cells] Hin. exact (Hall c cells Hin).
Qed.

Lemma select_filter A (k : A -> bool) (l : list A) : select (map k l) l = filter k l.
Proof.
  induction l as [| a l IH]; [reflexivity|].
  cbn [map filter]. destruct (k a); cbn [select]; rewrite IH; reflexivity.
Qed.

Lemma column_data_fst f : map fst (column_data f) = columns f.
Proof.
  unfold column_data, positions.
  assert (H : forall (A B : Type) (xs : list A) (ys : list B),
             List.length xs = List.length ys -> map fst (combine xs ys) = xs).
  { induction xs as [| x xs IH]; intros [| y ys] Hlen; try discriminate Hlen;
      [reflexivity|].
    cbn [combine map fst]. rewrite IH by (injection Hlen as Hlen; exact Hlen).
    reflexivity. }
  apply H. rewrite length_map, length_seq. reflexivity.
Qed.

(** Among entries with distinct keys, the key decides the entry. *)
Lemma NoDup_map_same A B (h : A -> B) (l : list A) (x y : A) :
  NoDup (map h l) -> In x l -> In y l -> h x = h y -> x = y.
Proof.
  induction l as [| a l IH]; intros Hnd Hx Hy Heq; [destruct Hx|].
  cbn [map] in Hnd. inversion Hnd as [| ? ? Hnot Hnd']; subst.
  destruct Hx as [-> | Hx], Hy as [-> | Hy]; auto.
  - exfalso. apply Hnot. rewrite Heq. apply in_map. exact Hy.
  - exfalso. apply Hnot. rewrite <- Heq. apply in_map. exact Hx.
Qed.

Lemma NoDup_select A B (h : A -> B) (l : list A) : forall m : list bool,
  NoDup (map h l) -> NoDup (map h (select m l)).
Proof.
  induction l as [| a l IH]; intros m Hnd; [rewrite select_nil; constructor|].
  cbn [map] in Hnd. inversion Hnd as [| ? ? Hnot Hnd']; subst.
  destruct m as [| [] m]; cbn [select map]; [constructor | | apply IH; exact Hnd'].
  constructor; [| apply IH; exact Hnd'].
  intros Hin. apply Hnot. apply in_map_iff in Hin as (x & Hx & Hin).
  apply in_map_iff. exists x. split; [exact Hx | exact (In_select_any _ _ _ Hin)].
Qed.

Lemma no_entry_std c cells : no_entry c cells = true -> std spread c cells = Ok NaN.
Proof.
  unfold no_entry, std, is_zero.
  destruct (present cells) as [| x l]; [reflexivity|].
  intros H. apply Qeq_bool_iff in H. unfold Qeq in H. cbn in H. lia.
Qed.

(** With distinct labels, the columns that [df.count() == 0] removes are
    columns without an entry, which [describe] does not refuse. *)
Lemma refused_with_empty_columns f :
  NoDup (labels_of f) ->
  refused spread (without (names_where no_entry f) f) = None ->
  refused spread f = None.
Proof.
  intros Hnd Hnone. apply refused_none. intros c cells Hin.
  pose proof (proj1 (refused_none _) Hnone) as Hkept.
  unfold without in Hkept. rewrite column_data_select in Hkept.
  rewrite <- (column_data_fst f), map_map, select_filter in Hkept.
  destruct (mem (label c) (names_where no_entry f)) eqn:Hmem.
  - apply mem_In in Hmem. unfold names_where, col_mask, labels_of in Hmem.
    rewrite <- (column_data_fst f), map_map in Hmem.
    rewrite select_map, select_filter in Hmem.
    apply in_map_iff in Hmem as ([c' cells'] & Hlabel & Hin').
    apply filter_In in Hin' as [Hin' Hempty].
    assert (Hsame : (c', cells') = (c, cells)).
    { apply (NoDup_map_same (fun x => label (fst x)) (column_data f)); auto.
      unfold labels_of in Hnd. rewrite <- (column_data_fst f), map_map in Hnd.
      exact Hnd. }
    injection Hsame as -> ->. exists NaN. apply no_entry_std. exact Hempty.
  - apply Hkept. apply filter_In. split; [exact Hin|]. cbn [fst]. rewrite Hmem.
    reflexivity.
Qed.

Lemma summarised_labels f : NoDup (labels_of f) -> NoDup (labels_of (summarised f)).
Proof.
  unfold summarised, numeric_part, without, filter_regex, labels_of.
  destruct (re_compile allowed_columns_regex) as [r |]; [| auto].
  rewrite select_columns_twice. unfold select_columns. cbn [columns].
  apply NoDup_select.
Qed.

End Refusals.

Lemma allowed_columns_compile :
  exists r, re_compile allowed_columns_regex = Some r.
Proof. eexists. vm_compute. reflexivity. Qed.


(** X4.  The notebook cleans [gammas] cell by cell and [protons] with
    [preprocess], which removes the columns without an entry before, not
    after, it calls [describe].  Whenever [preprocess] returns a frame, the
    cells return the same frame for the same input, unless [describe]
    refuses one of the columns that [preprocess] had removed before; with
    distinct column labels these are columns without an entry, which
    [describe] does not refuse; and where [describe] refuses no column at
    all, the cells always return the same frame. *)
Theorem cleaning_cells_agree_with_preprocess
  (spread : dtype -> list cell -> result cell) (f : frame) (out : val pobj) :
  outcome (pandas_session spread) (preprocess (VObj (PFrame f))) tt = Ok out ->
  (NoDup (labels_of f) ->
   outcome (pandas_session spread) (cleaning_cells (VObj (PFrame f))) tt = Ok out) /\
  ((forall d cells, exists v, spread d cells = Ok v) ->
   outcome (pandas_session spread) (cleaning_cells (VObj (PFrame f))) tt = Ok out) /\
  (outcome (pandas_session spread) (cleaning_cells (VObj (PFrame f))) tt = Ok out \/
   exists e,
     refused spread (summarised f) = Some e /\
     outcome (pandas_session spread) (cleaning_cells (VObj (PFrame f))) tt = Err e).
Proof.
  intros Hout.
  pose proof (@summarised_labels f) as Hlabels. unfold summarised in *.
  destruct allowed_columns_compile as [r Hr]. rewrite Hr in *.
  rewrite (preprocess_frames spread f Hr) in Hout. cbv zeta in Hout.
  set (f2 := numeric_part r f) in *.
  destruct (columns (without (names_where no_entry f2) f2)) as [| c0 cols] eqn:Hcols;
    [discriminate Hout|].
  destruct (refused spread (without (names_where no_entry f2) f2)) as [e |] eqn:Hkept;
    [discriminate Hout|].
  injection Hout as <-.
  assert (Hsome : columns f2 <> []).
  { intros Hnone. unfold without, select_columns in Hcols. cbn [columns] in Hcols.
    rewrite Hnone in Hcols. discriminate Hcols. }
  rewrite (cleaning_frames spread f Hr Hsome). fold f2.
  split; [|split].
  - intros Hnd. rewrite (@refused_with_empty_columns spread f2 (Hlabels Hnd) Hkept).
    rewrite without_commute. reflexivity.
  - intros Htotal.
    assert (Hnone : refused spread f2 = None).
    { apply refused_none. intros c cells _. unfold std.
      destruct (present cells); [eauto | apply Htotal]. }
    rewrite Hnone, without_commute. reflexivity.
  - destruct (refused spread f2) as [e |]; [right; eauto | left].
    rewrite without_commute. reflexivity.
Qed.

Lemma cleaning_cells_agree_with_preprocess_witness :
  let out := VObj (PFrame
               (Frame [Column "hillas_width" float64; Column "x_true_y" float64]
                      [[Num (1 # 10); Num 2]; [Num (3 # 10); Num 5]])) in
  let cells := outcome (pandas_session exact_spread)
                 (cleaning_cells (VObj (PFrame a_table))) tt in
  (NoDup (labels_of a_table) -> cells = Ok out) /\
  ((forall d cells, exists v, exact_spread d cells = Ok v) -> cells = Ok out) /\
  (cells = Ok out \/
   exists e, refused exact_spread (summarised a_table) = Some e /\ cells = Err e).
Proof.
  apply (cleaning_cells_agree_with_preprocess exact_spread a_table).
  vm_compute. reflexivity.
Defined.

(** Not the other way round: when every column is empty, the cells end
    with a frame without columns, and [preprocess] raises. *)
Example cleaning_cells_go_further (spread : dtype -> list cell -> result cell) :
  let f := Frame [Column "leakage" float64] [[NaN]; [NaN]] in
  outcome (pandas_session spread) (cleaning_cells (VObj (PFrame f))) tt
  = Ok (VObj (PFrame (Frame [] [[]; []]))) /\
  outcome (pandas_session spread) (preprocess (VObj (PFrame f))) tt
  = Err (ValueError "Cannot describe a DataFrame without columns").
Proof. split; vm_compute; reflexivity. Qed.

(** Two columns under one label: [preprocess] removes both when one of them
    is empty, and the cells describe the other one before. *)
Example cleaning_cells_stop_at_describe :
  let f := Frame [Column "a" complex128; Column "a" float64; Column "b" float64]
                 [[Num 1; NaN; Num 1]; [Num 2; NaN; Num 3]] in
  outcome (pandas_session exact_spread) (preprocess (VObj (PFrame f))) tt
  = Ok (VObj (PFrame (Frame [Column "b" float64] [[Num 1]; [Num 3]]))) /\
  outcome (pandas_session exact_spread) (cleaning_cells (VObj (PFrame f))) tt
  = Err (TypeError "a must be an array of real numbers").
Proof. split; vm_compute; reflexivity. Qed.

(** ** [accuracy] and [predictions] on loaders without samples *)

(** X5.  When the loader yields no sample at all (no batch, or empty batches
    only), [accuracy] divides by zero, an integer by an integer when there
    was no batch and a float by an integer otherwise. *)
Theorem accuracy_without_samples
  (input : Type) (classify : input -> list Z) (order : nat -> plan) (empty_cat : exn)
  (batches : list (input * list Z)) (device : string) :
  well_shaped classify batches ->
  labels batches = [] ->
  outcome (torch_model classify order empty_cat)
    (accuracy (VObj (TLoader batches)) (VObj TModule) (VStr device)) tt
  = Err (ZeroDivisionError
           match batches with
           | [] => "division by zero"
           | _ :: _ => "float division by zero"
           end).
Proof.
  intros Hws Hnone.
  destruct (@accuracy_loop input classify order empty_cat device batches (VInt 0) 0%Z
              Hws (@no_labels_countable _ _ Hnone) I)
    as (c' & tr & Hrun & Hnum & _ & Hkind).
  rewrite Hnone in Hrun.
  unfold outcome, accuracy, with_no_grad, for_in. cbn.
  cbn in Hrun. rewrite Hrun. cbn.
  destruct batches; [subst c'; reflexivity | destruct Hkind as [q ->]; reflexivity].
Qed.

Lemma accuracy_without_samples_witness :
  outcome (torch_model (fun x : list Z => x) one_by_one cat_of_nothing)
    (accuracy (VObj (TLoader [([], []); ([], [])])) (VObj TModule) (VStr "cpu")) tt
  = Err (ZeroDivisionError "float division by zero").
Proof.
  apply (@accuracy_without_samples (list Z) (fun x => x) one_by_one cat_of_nothing
           [([], []); ([], [])]).
  - intros x y [H | [H | []]]; inversion H; reflexivity.
  - reflexivity.
Defined.

(** X6.  When the loader yields no sample at all, [predictions] returns two
    empty tensors if there is a batch; if there is none it raises what
    [torch.cat] raises for an empty list of tensors. *)
Theorem predictions_without_samples
  (input : Type) (classify : input -> list Z) (order : nat -> plan) (empty_cat : exn)
  (batches : list (input * list Z)) (device : string) :
  well_shaped classify batches ->
  labels batches = [] ->
  outcome (torch_model classify order empty_cat)
    (predictions (VObj (TLoader batches)) (VObj TModule) (VStr device)) tt
  = match batches with
    | [] => Err empty_cat
    | _ :: _ => Ok (VObj (TLong []), VObj (TLong []))
    end.
Proof.
  intros Hws Hnone. destruct batches as [| b batches]; [reflexivity|].
  rewrite (@predictions_outcome input classify order empty_cat device (b :: batches))
    by discriminate.
  rewrite Hnone.
  pose proof (predicted_labels_length Hws) as Hlen. rewrite Hnone in Hlen.
  destruct (predicted classify (b :: batches)); [reflexivity | discriminate Hlen].
Qed.

Lemma predictions_without_samples_witness :
  outcome (torch_model (fun x : list Z => x) one_by_one cat_of_nothing)
    (predictions (VObj (TLoader [([], []); ([], [])])) (VObj TModule) (VStr "cpu")) tt
  = Ok (VObj (TLong []), VObj (TLong [])).
Proof.
  apply (@predictions_without_samples (list Z) (fun x => x) one_by_one cat_of_nothing
           [([], []); ([], [])]).
  - intros x y [H | [H | []]]; inversion H; reflexivity.
  - reflexivity.
Defined.

(** Without a batch, [predictions] fails in [torch.cat]. *)
Example predictions_without_batches :
  outcome (torch_model (fun x : list Z => x) one_by_one cat_of_nothing)
    (predictions (VObj (TLoader [])) (VObj TModule) (VStr "cpu")) tt
  = Err cat_of_nothing.
Proof. reflexivity. Qed.

(** ** Evaluation does not train *)

Section EvaluationFacts.
Context {obj : Type}.
Local Abbreviation passive := (fun c : call obj => optimisation (callee c) = false).

Lemma passive_builtins : builtins_ok passive.
Proof. intros name a _. reflexivity. Qed.

Lemma passive_operators : operators_ok passive.
Proof. intros a. split; reflexivity. Qed.

Lemma evaluation_is_passive A (f : prog obj A) :
  evaluation f -> all_calls passive f.
Proof.
  intros []; calls_tac passive_builtins passive_operators.
Qed.

End EvaluationFacts.

(** X7.  Whatever the libraries answer, [test], [accuracy], [predictions] and
    [report_accuracy] never call [optimizer.zero_grad()], [loss.backward()]
    or [optimizer.step()]: evaluating a network does not change it. *)
Theorem evaluation_never_optimises
  (obj S : Type) (h : call obj -> S -> result (val obj) * S) (s : S)
  (A : Type) (f : prog obj A) (c : call obj) (r : result (val obj)) :
  evaluation f ->
  In (c, r) (trace_of h f s) ->
  optimisation (callee c) = false.
Proof.
  intros Hf Hin.
  exact (all_calls_trace h _ _ (evaluation_is_passive Hf) s (c, r) Hin).
Qed.

Lemma evaluation_never_optimises_witness :
  optimisation (callee (Invoke (Method "__call__")
                          [VObj (Sym (Method "to") 4 100);
                           VObj (Sym (Method "to") 10 100)] []
                        : call sym)) = false.
Proof.
  apply (@evaluation_never_optimises sym nat symbolic 4%nat _
           (test a_loader a_network a_loss (VStr "cpu")) _
           (Ok (VObj (Sym (Method "__call__") 12 100)))).
  - constructor.
  - apply (nth_error_In _ 8). vm_compute. reflexivity.
Defined.

(** ** Forward passes of the evaluation functions *)

Section GradFacts.
Context {obj : Type}.
Local Abbreviation calm := (fun c : call obj => grad_role_of (callee c) = GOther).

Lemma calm_builtins : builtins_ok calm.
Proof. intros name a _. reflexivity. Qed.

Lemma calm_operators : operators_ok calm.
Proof. intros a. split; reflexivity. Qed.

Lemma calm_neutral (c : call obj) :
  grad_role_of (callee c) = GOther -> neutral grad_monitor c.
Proof.
  intros Hc st. split.
  - intros Hf. cbn in Hf. congruence.
  - intros v. cbn. rewrite Hc. destruct st; reflexivity.
Qed.

Lemma calm_wp A (p : prog obj A) :
  all_calls calm p ->
  forall st (Q : mstate grad_monitor -> A -> Prop) (E : mstate grad_monitor -> Prop),
    E st -> (forall a, Q st a) -> wp grad_monitor p st Q E.
Proof.
  intros Hp. apply wp_neutral.
  eapply all_calls_impl; [|exact Hp]. intros c. apply calm_neutral.
Qed.

(** A [no_grad] block that is entered outside of any other. *)
Lemma wp_no_grad A B (body : prog obj B) (k : B -> prog obj A)
  (Q : grad_state -> A -> Prop) :
  wp grad_monitor body (Inside false) (fun _ _ => True) (fun _ => True) ->
  (forall b, wp grad_monitor (k b) Outside Q (fun _ => True)) ->
  wp grad_monitor
     (Call (Invoke (Func torch "no_grad") [] []) (fun cm => With cm body k))
     Outside Q (fun _ => True).
Proof.
  intros Hbody Hk. cbn [wp].
  split; [intros H; discriminate H|]. split; [exact I|]. intros cm.
  split; [intros H; discriminate H|]. split; [exact I|]. intros v.
  eapply wp_mono; [| |apply Hbody]; cbn beta.
  - intros st1 b _. split; [intros H; discriminate H|]. split; [exact I|].
    intros v'. cbn. apply Hk.
  - intros st1 _ e. split; [intros H; discriminate H|].
    split; [exact I | intros; exact I].
Qed.

End GradFacts.

Ltac grad_calm :=
  apply calm_wp;
  [ lazymatch goal with
    | |- @all_calls ?obj _ _ _ =>
        solve [calls_tac (@calm_builtins obj) (@calm_operators obj)]
    end
  | exact I | ].

Ltac grad_step :=
  lazymatch goal with
  | |- wp _ (for_each _ _ _) _ _ _ => fail
  | |- wp _ (Call _ (fun cm => With cm _ _)) _ _ _ => fail
  | _ =>
    wp_step
      ltac:(apply calm_neutral; reflexivity)
      ltac:(cbn; intros; first [reflexivity | discriminate])
      ltac:(cbn [after grad_monitor grad_after grad_role_of callee
                 String.eqb Ascii.eqb Bool.eqb])
      ltac:(grad_calm)
  end.

(** The body of a [no_grad] block of the evaluation functions: from
    [model.eval()] on, through the loop over the batches. *)
Ltac grad_block :=
  repeat grad_step;
  lazymatch goal with
  | |- wp _ (for_each _ _ _) _ _ _ =>
      apply wp_for_each with (Inv := fun st _ => st = Inside true);
      [ let st := fresh "st" in let H := fresh "H" in
        intros ?item st ?acc H; cbv beta in H; subst st;
        repeat grad_step; try reflexivity
      | intros; exact I
      | reflexivity ]
  end.

Section GradModes.
Context {obj : Type}.

Lemma test_grad_mode (dataloader model loss_fn device : val obj) :
  wp grad_monitor (test dataloader model loss_fn device) Outside
     (fun st _ => st = Outside) (fun _ => True).
Proof.
  unfold test. repeat grad_step.
  unfold with_no_grad, func, invoke. cbn [bind].
  apply wp_no_grad; [grad_block | intros; repeat grad_step; reflexivity].
Qed.

Lemma accuracy_grad_mode (dataloader model device : val obj) :
  wp grad_monitor (accuracy dataloader model device) Outside
     (fun st _ => st = Outside) (fun _ => True).
Proof.
  unfold accuracy. repeat grad_step.
  unfold with_no_grad, func, invoke. cbn [bind].
  apply wp_no_grad; [grad_block |].
  intros b. apply wp_ret. cbv beta. destruct b. grad_calm. intros; reflexivity.
Qed.

Lemma predictions_grad_mode (dataloader model device : val obj) :
  wp grad_monitor (predictions dataloader model device) Outside
     (fun st _ => st = Outside) (fun _ => True).
Proof.
  unfold predictions. repeat grad_step.
  unfold with_no_grad, func, invoke. cbn [bind].
  apply wp_no_grad; [grad_block | intros [? ?]; repeat grad_step; reflexivity].
Qed.

Lemma report_accuracy_grad_mode (DEVICE test_dataloader train_dataloader model : val obj) :
  wp grad_monitor (report_accuracy DEVICE test_dataloader train_dataloader model)
     Outside (fun st _ => st = Outside) (fun _ => True).
Proof.
  unfold report_accuracy.
  apply wp_bind. eapply wp_mono; [| |apply accuracy_grad_mode]; cbn beta; auto.
  intros st a ->.
  apply wp_bind. eapply wp_mono; [| |apply accuracy_grad_mode]; cbn beta; auto.
  intros st b ->. grad_calm. reflexivity.
Qed.

Lemma evaluation_grad_mode A (f : prog obj A) :
  evaluation f ->
  wp grad_monitor f Outside (fun st _ => st = Outside) (fun _ => True).
Proof.
  intros [].
  - apply test_grad_mode.
  - apply accuracy_grad_mode.
  - apply predictions_grad_mode.
  - apply report_accuracy_grad_mode.
Qed.

End GradModes.



(** [train], for comparison, makes its forward passes outside of any
    [no_grad] block. *)
Example train_runs_with_gradients :
  let tr := trace_of symbolic
              (train a_loader a_network a_loss an_optimizer (VStr "cpu")) 4%nat in
  callee (fst (nth 6 tr (Invoke (Attr "") [] [], Ok VNone))) = Method "__call__" /\
  grad_mode (firstn 6 tr) = Outside.
Proof. vm_compute. split; reflexivity. Qed.

(** ** The shapes the networks accept *)

Section PoolFacts.
Local Open Scope Z_scope.

Lemma three_pools x :
  2 <= x /\ 2 <= window x 2 2 /\ 2 <= window (window x 2 2) 2 2 <-> 8 <= x.
Proof. unfold window. Z.div_mod_to_equations. lia. Qed.

Lemma three_pools_eighth x :
  8 <= x -> window (window (window x 2 2) 2 2) 2 2 = x / 8.
Proof. unfold window. Z.div_mod_to_equations. lia. Qed.

(** A batch of images of at least two by two pixels has more than one value
    per channel. *)
Lemma more_than_one_value n a b : 2 <= a -> 2 <= b -> n * a * b <> 1.
Proof. intros Ha Hb H. rewrite Z.mul_comm in H. apply Z.eq_mul_1 in H. lia. Qed.

Lemma product_positive (dims : list Z) :
  Forall (fun k => 0 < k) dims -> 0 < product dims.
Proof.
  unfold product. induction 1 as [| k dims Hk _ IH]; cbn [fold_right]; [lia | nia].
Qed.

End PoolFacts.

Lemma probability_spec (p : Q) : probability p = true <-> 0 <= p <= 1.
Proof.
  unfold probability. rewrite andb_true_iff, !Qle_bool_iff. reflexivity.
Qed.

Ltac shape_run :=
  repeat progress
    (cbn [bind run shape_model callee args kwargs attribute String.eqb Ascii.eqb
          Bool.eqb Nat.eqb andb orb attributes next_id fst snd forward_shape negb
          rev app make_layer keyword layers_of option_map String.append
          forallb];
     unfold sized; rewrite ?Z.eqb_refl).

Ltac shape_cases :=
  repeat match goal with
  | |- context [if ?b then _ else _] =>
      let E := fresh "E" in destruct b eqn:E; shape_run
  end.

Ltac tests_to_props :=
  repeat match goal with
  | E : negb _ = true |- _ => apply negb_true_iff in E
  | E : negb _ = false |- _ => apply negb_false_iff in E
  | E : (_ || _) = true |- _ => apply orb_true_iff in E
  | E : (_ || _) = false |- _ => apply orb_false_iff in E; destruct E
  | E : (_ =? _)%Z = true |- _ => apply Z.eqb_eq in E
  | E : (_ =? _)%Z = false |- _ => apply Z.eqb_neq in E
  | E : (_ <? _)%Z = true |- _ => apply Z.ltb_lt in E
  | E : (_ <? _)%Z = false |- _ => apply Z.ltb_ge in E
  end.

(** X9.  [ConvolutionalNetwork] fits images of three channels whose height and
    width, halved three times, leave [128 * 16 = 2048] features for the
    first linear layer (32 x 32 images, for one); it maps a batch of [n] of
    them to [n] rows of ten class scores, and raises on every other batch
    of images. *)
Theorem convolutional_network_shapes (n c h w : Z) (out : val sobj) :
  outcome shape_model
    (make_and_apply ConvolutionalNetwork ConvolutionalNetwork_forward
       (shape [n; c; h; w])) no_modules
  = Ok out
  <-> (c = 3 /\ 8 <= h /\ 8 <= w /\ (h / 8) * (w / 8) = 16
       /\ out = shape [n; 10])%Z.
Proof.
  unfold make_and_apply. rewrite outcome_bind.
  set (o := outcome shape_model ConvolutionalNetwork no_modules).
  vm_compute in o. subst o. cbv iota beta.
  set (st := final_state shape_model ConvolutionalNetwork no_modules).
  vm_compute in st. subst st.
  unfold ConvolutionalNetwork_forward, apply, attr, method, invoke, shape, outcome.
  shape_run. shape_cases.
  all: try match goal with
       | E : (_ && _) = false |- _ => vm_compute in E; discriminate E
       end.
  all: tests_to_props; unfold product in *; cbn [fold_right] in *;
    pose proof (three_pools h) as Ph; pose proof (three_pools w) as Pw;
    (split;
     [ let Hout := fresh "Hout" in
       intros Hout; try discriminate Hout; injection Hout as <-;
       assert (Hh : (8 <= h)%Z) by lia; assert (Hw : (8 <= w)%Z) by lia;
       rewrite !three_pools_eighth in * by assumption;
       repeat split; lia
     | intros (-> & Hh & Hw & Hp & ->);
       destruct (proj2 Ph Hh) as (Hh1 & Hh2 & Hh3);
       destruct (proj2 Pw Hw) as (Hw1 & Hw2 & Hw3);
       rewrite ?three_pools_eighth in * by assumption;
       try reflexivity; exfalso;
       try match goal with
           | E : (_ * _ * _ = 1)%Z |- _ =>
               apply more_than_one_value in E; [exact E | lia | lia]
           end;
       lia ]).
Qed.

(** The batches of the notebook: CIFAR-10 images fit the convolutional
    network, the resized MNIST images do not. *)
Example cifar_and_mnist_batches :
  outcome shape_model
    (make_and_apply ConvolutionalNetwork ConvolutionalNetwork_forward
       (shape [64; 3; 32; 32]%Z)) no_modules
  = Ok (shape [64; 10]%Z) /\
  outcome shape_model
    (make_and_apply ConvolutionalNetwork ConvolutionalNetwork_forward
       (shape [64; 1; 16; 16]%Z)) no_modules
  = Err (ShapeError "Conv2d: the input has another number of channels").
Proof. split; vm_compute; reflexivity. Qed.

Ltac shape_unfold :=
  unfold sized_to_the_data, make_and_apply, sample_size, getitem,
    FullyConnected, instantiate,
    FullyConnected_init, FullyConnected_forward,
    FullyConnected_8x8_init, FullyConnected_8x8_forward,
    set_attribute, nn, apply, attr, method, method_kw, func, func_kw, invoke,
    shape, outcome, no_modules.

Ltac sizes_fit :=
  repeat match goal with
  | |- context [(0 <=? ?k)%Z] =>
      rewrite (proj2 (Z.leb_le 0 k)) by lia
  end.

(** X10.  [FullyConnected(input_size, n_classes, dropout, n_hidden)], with
    positive sizes, can be made when [dropout] is a probability; just made
    (in training mode), it fits the batches of more than one sample whose
    samples have [input_size] entries, whatever their layout, and no
    others; it maps a batch of [n] of them to [n] rows of [n_classes]
    scores. *)
Theorem fully_connected_shapes
  (input_size n_classes n_hidden : Z) (dropout : Q)
  (n d : Z) (rest : list Z) (out : val sobj) :
  (0 < input_size)%Z -> (0 < n_classes)%Z -> (0 < n_hidden)%Z -> (0 < n)%Z ->
  outcome shape_model
    (make_and_apply
       (FullyConnected (VInt input_size) (VInt n_classes) (VFloat dropout)
          (VInt n_hidden))
       FullyConnected_forward (shape (n :: d :: rest))) no_modules
  = Ok out
  <-> 0 <= dropout <= 1 /\ (1 < n)%Z /\ product (d :: rest) = input_size
      /\ out = shape [n; n_classes].
Proof.
  intros Hi Hc Hh Hn. rewrite <- probability_spec.
  shape_unfold. repeat (progress (shape_run; sizes_fit)).
  destruct (probability dropout) eqn:Hp; repeat (progress (shape_run; sizes_fit)).
  2: { split; [discriminate | intros [Hp' _]; discriminate Hp']. }
  shape_cases.
  all: try match goal with
           | E : (_ && _) = false |- _ => vm_compute in E; discriminate E
           end.
  all: tests_to_props.
  all: split;
    [ let Hout := fresh "Hout" in
      intros Hout;
      first [ discriminate Hout
            | injection Hout as <-;
              repeat split; first [assumption | congruence | lia] ]
    | intros (_ & Hn1 & Hprod & ->); try reflexivity; exfalso;
      first [congruence | lia] ].
Qed.

Lemma fully_connected_shapes_witness :
  outcome shape_model
    (make_and_apply
       (FullyConnected (VInt 256) (VInt 10) (VFloat (1 # 4)) (VInt 256))
       FullyConnected_forward (shape [64; 1; 16; 16]%Z)) no_modules
  = Ok (shape [64; 10]%Z)
  <-> 0 <= 1 # 4 <= 1 /\ (1 < 64)%Z /\ product [1; 16; 16]%Z = 256%Z
      /\ shape [64; 10]%Z = shape [64; 10]%Z.
Proof.
  apply (@fully_connected_shapes 256%Z 10%Z 256%Z (1 # 4) 64%Z 1%Z [16; 16]%Z
           (shape [64; 10]%Z)); lia.
Defined.

(** A batch of a single sample is refused by the batch normalisation of a
    network that has just been made, and a dropout of 2 by [nn.Dropout]. *)
Example fully_connected_refusals :
  outcome shape_model
    (make_and_apply
       (FullyConnected (VInt 256) (VInt 10) (VFloat (1 # 4)) (VInt 256))
       FullyConnected_forward (shape [1; 1; 16; 16]%Z)) no_modules
  = Err SingleValue /\
  outcome shape_model
    (FullyConnected (VInt 256) (VInt 10) (VFloat 2) (VInt 256)) no_modules
  = Err NoProbability /\
  outcome shape_model
    (FullyConnected (VInt 256) (VInt 10) (VFloat (1 # 4)) (VInt (-7))) no_modules
  = Err NegativeSize.
Proof. repeat split; vm_compute; reflexivity. Qed.

(** X11.  The first [FullyConnected] of the notebook fits the batches whose
    samples have [8 * 8 * 1 = 64] entries, and no others. *)
Theorem fully_connected_8x8_shapes (n d : Z) (rest : list Z) (out : val sobj) :
  outcome shape_model
    (make_and_apply (instantiate "FullyConnected" FullyConnected_8x8_init)
       FullyConnected_8x8_forward (shape (n :: d :: rest))) no_modules
  = Ok out
  <-> product (d :: rest) = 64%Z /\ out = shape [n; 10%Z].
Proof.
  unfold make_and_apply. rewrite outcome_bind.
  set (o := outcome shape_model (instantiate "FullyConnected" FullyConnected_8x8_init)
              no_modules).
  vm_compute in o. subst o. cbv iota beta.
  set (st := final_state shape_model (instantiate "FullyConnected" FullyConnected_8x8_init)
               no_modules).
  vm_compute in st. subst st.
  unfold FullyConnected_8x8_forward, apply, attr, method, invoke, shape, outcome.
  shape_run. shape_cases.
  all: try match goal with
           | E : (_ && _) = false |- _ => vm_compute in E; discriminate E
           end.
  all: tests_to_props.
  all: split;
    [ let Hout := fresh "Hout" in
      intros Hout;
      first [ discriminate Hout
            | injection Hout as <-;
              split; [first [assumption | congruence] | reflexivity] ]
    | let Hp := fresh "Hp" in
      intros [Hp ->]; try reflexivity; exfalso;
      first [congruence | contradiction] ].
Qed.

(** X12.  Sized as the notebook sizes it, from one sample of the data, and
    just made, the network fits every batch of that data but a batch of a
    single sample, which its batch normalisation refuses. *)
Theorem sized_network_fits_the_data
  (n_classes n_hidden : Z) (dropout : Q) (n d : Z) (rest : list Z) :
  (0 < n)%Z -> Forall (fun k => (0 < k)%Z) (d :: rest) ->
  (0 < n_classes)%Z -> (0 < n_hidden)%Z -> 0 <= dropout <= 1 ->
  outcome shape_model
    (sized_to_the_data (VInt n_classes) (VFloat dropout) (VInt n_hidden)
       (shape (n :: d :: rest))) no_modules
  = if (n =? 1)%Z then Err SingleValue else Ok (shape [n; n_classes]).
Proof.
  intros Hn Hdims Hc Hh Hp.
  apply product_positive in Hdims. apply probability_spec in Hp.
  shape_unfold. shape_run.
  replace ((0 <=? 0)%Z && (0 <? n)%Z) with true
    by (rewrite (proj2 (Z.ltb_lt 0 n) Hn); reflexivity).
  repeat (progress (shape_run; sizes_fit; rewrite ?Hp)).
  destruct (n =? 1)%Z eqn:E1; repeat (progress (shape_run; rewrite ?E1));
    [reflexivity|].
  replace ((- Z.of_nat (List.length [n; n_classes]) <=? 1)%Z
           && (1 <? Z.of_nat (List.length [n; n_classes]))%Z) with true
    by reflexivity.
  repeat (progress (shape_run; rewrite ?E1)). reflexivity.
Qed.

Lemma sized_network_fits_the_data_witness :
  outcome shape_model
    (sized_to_the_data (VInt 10) (VFloat (1 # 4)) (VInt 256)
       (shape [64; 1; 16; 16]%Z)) no_modules
  = Ok (shape [64; 10]%Z).
Proof.
  apply (@sized_network_fits_the_data 10%Z 256%Z (1 # 4) 64%Z 1%Z [16; 16]%Z).
  - lia.
  - repeat constructor.
  - lia.
  - lia.
  - split; discriminate.
Defined.

(** ** The passes of a training run *)

Section TallyFacts.
Context {obj : Type}.
Local Abbreviation idle := (fun c : call obj => tally_role_of (callee c) = CountOther).

Lemma idle_builtins : builtins_ok idle.
Proof. intros name a _. reflexivity. Qed.

Lemma idle_operators : operators_ok idle.
Proof. intros a. split; reflexivity. Qed.

Lemma idle_neutral (c : call obj) :
  tally_role_of (callee c) = CountOther -> neutral tally_monitor c.
Proof.
  intros Hc st. split; [exact I|]. intros v. cbn. rewrite Hc. reflexivity.
Qed.

Lemma idle_wp A (p : prog obj A) :
  all_calls idle p ->
  forall st (Q : mstate tally_monitor -> A -> Prop) (E : mstate tally_monitor -> Prop),
    E st -> (forall a, Q st a) -> wp tally_monitor p st Q E.
Proof.
  intros Hp. apply wp_neutral.
  eapply all_calls_impl; [|exact Hp]. intros c. apply idle_neutral.
Qed.

Lemma more_more t e s t' e' s' st :
  more t' e' s' (more t e s st) = more (t + t') (e + e') (s + s') st.
Proof. unfold more. cbn. f_equal; lia. Qed.

(** A [no_grad] block counts once, whatever else its body counts. *)
Lemma wp_counted_block A B (body : prog obj B) (k : B -> prog obj A)
  (Qb : tally -> B -> Prop) (Q : tally -> A -> Prop) st :
  wp tally_monitor body (more 0 1 0 st) Qb (fun _ => True) ->
  (forall st1 b, Qb st1 b -> wp tally_monitor (k b) st1 Q (fun _ => True)) ->
  wp tally_monitor
     (Call (Invoke (Func torch "no_grad") [] []) (fun cm => With cm body k))
     st Q (fun _ => True).
Proof.
  intros Hbody Hk. cbn [wp].
  split; [exact I|]. split; [exact I|]. intros cm.
  split; [exact I|]. split; [exact I|]. intros v.
  replace (after tally_monitor _ _ v) with (more 0 1 0 st)
    by (destruct st; unfold more; cbn; f_equal; lia).
  eapply wp_mono; [| |apply Hbody]; cbn beta.
  - intros st1 b Hb. split; [exact I|]. split; [exact I|].
    intros v'. cbn. apply Hk. exact Hb.
  - intros st1 _ e. split; [exact I|]. split; [exact I | intros; exact I].
Qed.

End TallyFacts.

Ltac tally_idle :=
  apply idle_wp;
  [ lazymatch goal with
    | |- @all_calls ?obj _ _ _ =>
        solve [calls_tac (@idle_builtins obj) (@idle_operators obj)]
    end
  | exact I | ].

Ltac tally_step :=
  lazymatch goal with
  | |- wp _ (for_each _ _ _) _ _ _ => fail
  | |- wp _ (Call _ (fun cm => With cm _ _)) _ _ _ => fail
  | |- wp _ (bind (train _ _ _ _ _) _) _ _ _ => fail
  | |- wp _ (bind (test _ _ _ _) _) _ _ _ => fail
  | |- wp _ (bind (accuracy _ _ _) _) _ _ _ => fail
  | |- wp _ (bind (report_accuracy _ _ _ _) _) _ _ _ => fail
  | |- wp _ (bind (fit_one_epoch _ _ _ _ _ _) _) _ _ _ => fail
  | _ =>
    wp_step
      ltac:(apply idle_neutral; reflexivity)
      ltac:(exact I)
      ltac:(cbn [after tally_monitor counted tally_role_of callee
                 String.eqb Ascii.eqb Bool.eqb])
      ltac:(tally_idle)
  end.

Section Tallies.
Context {obj : Type}.

Lemma train_tally (dataloader model loss_fn optimizer device : val obj) st :
  wp tally_monitor (train dataloader model loss_fn optimizer device) st
     (fun st' losses => st' = more 1 0 (List.length losses) st) (fun _ => True).
Proof.
  unfold train. repeat tally_step.
  apply wp_for_each with
    (Inv := fun st' (acc : list (val obj)) => st' = more 1 0 (List.length acc) st).
  - intros item st' acc ->. repeat tally_step.
    rewrite length_app. unfold more. cbn. f_equal; lia.
  - intros st' acc ->. repeat tally_step. reflexivity.
  - unfold more. destruct st. cbn. f_equal; lia.
Qed.

Lemma test_tally (dataloader model loss_fn device : val obj) st :
  wp tally_monitor (test dataloader model loss_fn device) st
     (fun st' _ => st' = more 0 1 0 st) (fun _ => True).
Proof.
  unfold test. repeat tally_step.
  unfold with_no_grad, func, invoke. cbn [bind].
  apply wp_counted_block with (Qb := fun st' _ => st' = more 0 1 0 st).
  - tally_idle. intros; reflexivity.
  - intros st1 b ->. repeat tally_step. reflexivity.
Qed.

Lemma accuracy_tally (dataloader model device : val obj) st :
  wp tally_monitor (accuracy dataloader model device) st
     (fun st' _ => st' = more 0 1 0 st) (fun _ => True).
Proof.
  unfold accuracy. repeat tally_step.
  unfold with_no_grad, func, invoke. cbn [bind].
  apply wp_counted_block with (Qb := fun st' _ => st' = more 0 1 0 st).
  - tally_idle. intros; reflexivity.
  - intros st1 b ->. apply wp_ret. cbv beta. destruct b.
    tally_idle. intros; reflexivity.
Qed.

Lemma report_accuracy_tally (DEVICE test_dataloader train_dataloader model : val obj) st :
  wp tally_monitor (report_accuracy DEVICE test_dataloader train_dataloader model) st
     (fun st' _ => st' = more 0 2 0 st) (fun _ => True).
Proof.
  unfold report_accuracy.
  apply wp_bind. eapply wp_mono; [| |apply accuracy_tally]; cbn beta; auto.
  intros st1 a ->.
  apply wp_bind. eapply wp_mono; [| |apply accuracy_tally]; cbn beta; auto.
  intros st2 b ->. tally_idle. intros. apply more_more.
Qed.

Lemma fit_one_epoch_tally
  (train_dataloader test_dataloader model loss_fn optimizer device : val obj) st :
  wp tally_monitor
     (fit_one_epoch train_dataloader test_dataloader model loss_fn optimizer device) st
     (fun st' r => st' = more 1 1 (List.length (fst r)) st) (fun _ => True).
Proof.
  unfold fit_one_epoch.
  apply wp_bind. eapply wp_mono; [| |apply train_tally]; cbn beta; auto.
  intros st1 train_losses ->.
  apply wp_bind. eapply wp_mono; [| |apply test_tally]; cbn beta; auto.
  intros st2 test_losses ->. apply wp_ret. cbn [fst].
  rewrite more_more. f_equal; lia.
Qed.

Lemma recorded_app (epochs : list (val obj)) (losses : list (val obj)) :
  recorded (epochs ++ [VList losses]) = (recorded epochs + List.length losses)%nat.
Proof.
  induction epochs as [| e epochs IH]; cbn [app recorded]; [lia|].
  destruct e; rewrite IH; lia.
Qed.

Lemma training_cell_tally
  (DEVICE : val obj) (epochs : Z)
  (train_dataloader test_dataloader model loss_fn optimizer : val obj) st :
  wp tally_monitor
     (training_cell DEVICE epochs train_dataloader test_dataloader model
        loss_fn optimizer) st
     (fun st' r =>
        let n := List.length (fst r) in
        List.length (snd r) = n /\
        st' = more n (3 * n + 2) (recorded (fst r)) st)
     (fun _ => True).
Proof.
  unfold training_cell.
  apply wp_bind. eapply wp_mono; [| |apply report_accuracy_tally]; cbn beta; auto.
  intros st1 a ->. repeat tally_step.
  apply wp_for_each with
    (Inv := fun st' (acc : list (val obj) * list (val obj)) =>
              let n := List.length (fst acc) in
              List.length (snd acc) = n /\
              st' = more n (3 * n + 2) (recorded (fst acc)) st).
  - intros item st' [train_losses test_losses] [Hlen ->]. cbn [fst snd] in *.
    apply wp_bind.
    eapply wp_mono; [| |apply fit_one_epoch_tally]; cbn beta; auto.
    intros st2 [epoch_loss_train epoch_loss_test] ->. cbn [fst].
    apply wp_bind.
    eapply wp_mono; [| |apply report_accuracy_tally]; cbn beta; auto.
    intros st3 b ->. apply wp_ret. cbn [fst snd].
    rewrite !length_app, recorded_app, !more_more. cbn [List.length].
    split; [lia|]. f_equal; lia.
  - intros st' [train_losses test_losses] [Hlen ->]. cbn [fst snd] in *.
    repeat tally_step. cbn [fst snd]. split; [exact Hlen | reflexivity].
  - cbn [fst snd List.length recorded]. split; reflexivity.
Qed.

End Tallies.



(** ** A failure of [feature_generation] *)

(** X14.  [feature_generation] writes into the frame it is given.  Whatever the
    libraries answer: when it fails after its sixth library call (in the
    computation of ['impact']: a column is missing, say), the caller's
    frame has already received ['awesome_feature'], and ['impact'] has not
    been stored. *)
Theorem feature_generation_is_not_atomic
  (obj S : Type) (h : call obj -> S -> result (val obj) * S) (s : S)
  (df : val obj) (e : exn) :
  outcome h (feature_generation df) s = Err e ->
  (6 < List.length (trace_of h (feature_generation df) s))%nat ->
  (exists awesome stored,
     nth_error (trace_of h (feature_generation df) s) 5
     = Some (answered (Method "__setitem__")
               [df; VStr "awesome_feature"; awesome] stored)) /\
  (forall impact stored,
     ~ In (answered (Method "__setitem__") [df; VStr "impact"; impact] stored)
          (trace_of h (feature_generation df) s)).
Proof.
  unfold outcome, trace_of, feature_generation, getitem, setitem, method, func,
    invoke, answered.
  cbn [bind run]. intros H Hlen.
  run_calls h; try discriminate H; cbn [List.length] in Hlen; try lia;
    (split;
     [ eexists _, _; reflexivity
     | intros impact stored Hin; cbn [In] in Hin;
       repeat (destruct Hin as [Hin | Hin]; [discriminate Hin|]); exact Hin ]).
Qed.

Lemma feature_generation_is_not_atomic_witness :
  let h := failing (Func numpy "sqrt") (ValueError "sqrt") in
  (exists awesome stored,
     nth_error (trace_of h (feature_generation a_frame) 1%nat) 5
     = Some (answered (Method "__setitem__")
               [a_frame; VStr "awesome_feature"; awesome] stored)) /\
  (forall impact stored,
     ~ In (answered (Method "__setitem__") [a_frame; VStr "impact"; impact] stored)
          (trace_of h (feature_generation a_frame) 1%nat)).
Proof.
  intros h.
  apply (@feature_generation_is_not_atomic sym nat h 1%nat a_frame (ValueError "sqrt")).
  - reflexivity.
  - vm_compute. lia.
Defined.
